(** * MedicalPDFClaimsParser: patient-block segmentation and spatial field
      localisation

    A shallow embedding of [MedicalParserVercelVersion.py].  Page text and all
    extracted values are [string]s whose characters stand for the code points
    below 256; page coordinates are rationals ([Q]) and Python's [int()] is
    truncation towards zero; dictionaries are [gmap]s; exceptions are carried
    by the [result] type.  The document-access layer (PyMuPDF) is not part of
    the program: a page is a record of the answers it gives to the four
    queries the parser makes. *)

From Stdlib Require Import String Ascii QArith Qround ZArith Lia Sorted.
From stdpp Require Import base option list gmap strings.
From Equations Require Import Equations.

Local Open Scope string_scope.
Local Open Scope list_scope.
Local Open Scope nat_scope.

(** ** Characters and strings, as Python's [str] methods see them *)

Module Str.

Definition code (a : ascii) : nat := nat_of_ascii a.

(** [str.isspace] and the [\s] class agree on code points below 256. *)
Definition is_space (a : ascii) : bool :=
  let n := code a in
  ((9 <=? n) && (n <=? 13)) || ((28 <=? n) && (n <=? 31))
  || (n =? 32) || (n =? 133) || (n =? 160).

Definition is_nl (a : ascii) : bool := code a =? 10.
Definition is_cr (a : ascii) : bool := code a =? 13.
Definition is_digit (a : ascii) : bool := let n := code a in (48 <=? n) && (n <=? 57).
Definition is_dash (a : ascii) : bool := code a =? 45.
Definition any_char (a : ascii) : bool := true.
Definition not_nl (a : ascii) : bool := negb (is_nl a).

(** Line boundaries of [str.splitlines] other than a carriage return. *)
Definition is_linebreak (a : ascii) : bool :=
  let n := code a in
  (n =? 10) || (n =? 11) || (n =? 12) || (n =? 28) || (n =? 29) || (n =? 30)
  || (n =? 133).

Definition nl : string := String (ascii_of_nat 10) EmptyString.

Definition is_empty (s : string) : bool :=
  match s with EmptyString => true | String _ _ => false end.

(** [s[n:]] *)
Fixpoint sdrop (n : nat) (s : string) : string :=
  match n, s with
  | 0, _ => s
  | S n', String _ s' => sdrop n' s'
  | S _, EmptyString => EmptyString
  end.

(** [s[:n]] *)
Fixpoint stake (n : nat) (s : string) : string :=
  match n, s with
  | 0, _ => EmptyString
  | S n', String a s' => String a (stake n' s')
  | S _, EmptyString => EmptyString
  end.

(** [s[a:b]] for non-negative [a] and [b] *)
Definition slice (s : string) (a b : nat) : string := stake (b - a) (sdrop a s).

(** [s.lstrip("\n")] *)
Fixpoint lstrip_nl (s : string) : string :=
  match s with
  | String a s' => if is_nl a then lstrip_nl s' else s
  | EmptyString => EmptyString
  end.

Fixpoint lstrip (s : string) : string :=
  match s with
  | String a s' => if is_space a then lstrip s' else s
  | EmptyString => EmptyString
  end.

Fixpoint rstrip (s : string) : string :=
  match s with
  | String a s' =>
      let r := rstrip s' in
      if is_space a && is_empty r then EmptyString else String a r
  | EmptyString => EmptyString
  end.

(** [s.strip()] *)
Definition strip (s : string) : string := rstrip (lstrip s).

(** [s.splitlines()] *)
Fixpoint splitlines (s : string) : list string :=
  match s with
  | EmptyString => []
  | String a s' =>
      if is_cr a then
        match s' with
        | String b s'' =>
            if is_nl b then EmptyString :: splitlines s''
            else EmptyString :: splitlines s'
        | EmptyString => [EmptyString]
        end
      else if is_linebreak a then EmptyString :: splitlines s'
      else
        match splitlines s' with
        | [] => [String a EmptyString]
        | l :: ls => String a l :: ls
        end
  end.

(** [sep.join(l)] *)
Definition join (sep : string) (l : list string) : string := String.concat sep l.

End Str.

(** ** The fragment of [re] the pattern tables use

    Every quantifier in the tables applies to a single character class, so
    repetition is over a class.  Matching is backtracking with ordered
    choice, as in [re]; the only group is group 1. *)

Module Re.

Inductive regex : Type :=
| Eps
| Sym (p : ascii -> bool)
| Seq (r1 r2 : regex)
| Alt (r1 r2 : regex)
| Rep (greedy : bool) (p : ascii -> bool)
| Grp (r : regex)
| Ahead (r : regex)
| Eos.

Definition span : Type := (nat * nat)%type.

(** End offset of a match and the span of group 1. *)
Definition outcome : Type := (nat * option span)%type.

Section Backtrack.
Variable p : ascii -> bool.
Variable k : nat -> string -> option outcome.

Fixpoint rep_greedy (pos : nat) (s : string) : option outcome :=
  match s with
  | String a s' =>
      if p a then
        match rep_greedy (S pos) s' with
        | Some o => Some o
        | None => k pos s
        end
      else k pos s
  | EmptyString => k pos s
  end.

Fixpoint rep_lazy (pos : nat) (s : string) : option outcome :=
  match k pos s with
  | Some o => Some o
  | None =>
      match s with
      | String a s' => if p a then rep_lazy (S pos) s' else None
      | EmptyString => None
      end
  end.
End Backtrack.

(** [$] outside MULTILINE: at the end, or just before a final newline. *)
Definition at_eos (s : string) : bool :=
  match s with
  | EmptyString => true
  | String a EmptyString => Str.is_nl a
  | _ => false
  end.

Fixpoint rmatch (r : regex) (pos : nat) (s : string) (g : option span)
    (k : nat -> string -> option span -> option outcome) : option outcome :=
  match r with
  | Eps => k pos s g
  | Sym p =>
      match s with
      | String a s' => if p a then k (S pos) s' g else None
      | EmptyString => None
      end
  | Seq r1 r2 => rmatch r1 pos s g (fun pos' s' g' => rmatch r2 pos' s' g' k)
  | Alt r1 r2 =>
      match rmatch r1 pos s g k with
      | Some o => Some o
      | None => rmatch r2 pos s g k
      end
  | Rep true p => rep_greedy p (fun pos' s' => k pos' s' g) pos s
  | Rep false p => rep_lazy p (fun pos' s' => k pos' s' g) pos s
  | Grp r1 => rmatch r1 pos s g (fun pos' s' _ => k pos' s' (Some (pos, pos')))
  | Ahead r1 =>
      match rmatch r1 pos s g (fun pos' _ g' => Some (pos', g')) with
      | Some _ => k pos s g
      | None => None
      end
  | Eos => if at_eos s then k pos s g else None
  end.

Record rmatch_obj : Type := MatchObj {
  m_start : nat;
  m_end : nat;
  m_group : option span
}.

(** A match anchored at offset [pos], where [s] is the text from [pos] on. *)
Definition match_at (r : regex) (pos : nat) (s : string) : option rmatch_obj :=
  match rmatch r pos s None (fun pos' _ g => Some (pos', g)) with
  | Some (e, g) => Some (MatchObj pos e g)
  | None => None
  end.

Fixpoint search_from (r : regex) (pos : nat) (s : string) : option rmatch_obj :=
  match match_at r pos s with
  | Some m => Some m
  | None =>
      match s with
      | String _ s' => search_from r (S pos) s'
      | EmptyString => None
      end
  end.

(** [pattern.search(text, pos)] *)
Definition search (r : regex) (text : string) (pos : nat) : option rmatch_obj :=
  if String.length text <? pos then None
  else search_from r pos (Str.sdrop pos text).

(** [pattern.finditer(text)], for patterns that match no empty string: after
    a match the scan resumes at its end. *)
Fixpoint finditer_from (r : regex) (pos : nat) (s : string) (skip : nat)
    {struct s} : list rmatch_obj :=
  match skip with
  | S n =>
      match s with
      | String _ s' => finditer_from r (S pos) s' n
      | EmptyString => []
      end
  | 0 =>
      match match_at r pos s with
      | Some m =>
          m :: match s with
               | String _ s' => finditer_from r (S pos) s' (m_end m - pos - 1)
               | EmptyString => []
               end
      | None =>
          match s with
          | String _ s' => finditer_from r (S pos) s' 0
          | EmptyString => []
          end
      end
  end.

Definition finditer (r : regex) (text : string) : list rmatch_obj :=
  finditer_from r 0 text 0.

(** [match.group(1)] *)
Definition group1 (text : string) (m : rmatch_obj) : string :=
  match m_group m with
  | Some (a, b) => Str.slice text a b
  | None => EmptyString
  end.

(** [pattern.findall(text)] for a pattern with one group *)
Definition findall (r : regex) (text : string) : list string :=
  map (group1 text) (finditer r text).

Fixpoint sub_loop (repl text : string) (pos : nat) (ms : list rmatch_obj) : string :=
  match ms with
  | [] => Str.sdrop pos text
  | m :: ms' =>
      Str.slice text pos (m_start m) +:+ repl +:+ sub_loop repl text (m_end m) ms'
  end.

(** [re.sub(pattern, repl, text)] for a literal replacement *)
Definition sub (r : regex) (repl text : string) : string :=
  sub_loop repl text 0 (finditer r text).

(** Building blocks for the pattern tables. *)
Fixpoint lit (s : string) : regex :=
  match s with
  | EmptyString => Eps
  | String a s' => Seq (Sym (Ascii.eqb a)) (lit s')
  end.

Fixpoint seq (rs : list regex) : regex :=
  match rs with
  | [] => Eps
  | r :: rs' => Seq r (seq rs')
  end.

Definition ws : regex := Rep true Str.is_space.                      (* \s*  *)
Definition dots_lazy : regex := Seq (Sym Str.any_char) (Rep false Str.any_char).  (* .+? under DOTALL *)
Definition dots_greedy : regex := Seq (Sym Str.any_char) (Rep true Str.any_char). (* .+ under DOTALL *)
Definition newline : regex := Sym Str.is_nl.

End Re.

(** ** The pattern tables of the parser class *)

Module Patterns.
Import Re.

(** [PATIENT_TAG_PATTERN = r"\nPATIENT\s*:"] *)
Definition PATIENT_TAG_PATTERN : regex :=
  seq [newline; lit "PATIENT"; ws; lit ":"].

(** [PATIENT_RESPONSE_TAG_PATTERN = r'\n\s*PAT\s*RESP\s*:'] *)
Definition PATIENT_RESPONSE_TAG_PATTERN : regex :=
  seq [newline; ws; lit "PAT"; ws; lit "RESP"; ws; lit ":"].

Definition FIELD_EXTRACTION_PATTERNS : list (string * regex) :=
  [ ("Patient Name",
      seq [lit "PATIENT"; ws; lit ":"; Grp dots_lazy; ws; lit "PATIENT"]);
    ("Patient ID",
      seq [lit "PATIENT"; ws; lit "ID"; ws; lit "#:"; Grp dots_lazy; ws;
           lit "CONTRACT"; ws]);
    ("Provider Name",
      seq [lit "REND"; ws; lit "PROV"; ws; lit ":"; Grp dots_lazy; lit "REND"]);
    ("Provider ID",
      seq [lit "PROV"; ws; lit "ID"; ws; lit ":"; Grp dots_lazy; lit "PROV"]);
    ("Patient CTRL",
      seq [lit "PAT"; ws; lit "CTRL"; ws; lit "#"; ws; lit ":"; Grp dots_lazy;
           lit "CLM"]);
    ("Provider CTRL",
      seq [lit "PROV"; ws; lit "CTRL"; ws; lit "NBR"; ws; lit ":";
           Grp (Seq (Sym Str.not_nl) (Rep true Str.not_nl))]);
    ("Charge",
      seq [lit "TOTAL"; ws; lit "CHARGE"; ws; lit ":"; Grp dots_lazy;
           lit "TOTAL"]);
    ("Payment",
      seq [lit "TOTAL"; ws; lit "PAYMENT"; ws; lit ":"; Grp dots_lazy;
           Ahead (Alt (lit "ORIG") (Alt newline Eos))]);
    ("PAYEE ID",
      seq [lit "PAYEE"; ws; lit "ID"; ws; lit ":"; Grp dots_lazy; lit "AUTH"]) ].

(** [r"CLM\s*\#:(.+?)\n"], also compiled afresh in two methods *)
Definition CLAIM_NUMBER_PATTERN : regex :=
  seq [lit "CLM"; ws; lit "#:"; Grp dots_lazy; newline].

(** [r'ORIG\s*REF\s*NBR\s*:(.+)\n?'] *)
Definition ORIG_REF_NUMBER_PATTERN : regex :=
  seq [lit "ORIG"; ws; lit "REF"; ws; lit "NBR"; ws; lit ":";
       Grp dots_greedy; Alt newline Eps].

Definition CLAIM_REFERENCE_PATTERNS : list (string * regex) :=
  [ ("Claim Number", CLAIM_NUMBER_PATTERN);
    ("Orig Ref Num", ORIG_REF_NUMBER_PATTERN) ].

Definition HEADER_FIELD_PATTERNS : list (string * regex) :=
  [ ("CLAIM STATUS",
      seq [lit "CLAIM"; ws; lit "STATUS"; ws; lit ":"; Grp dots_lazy; newline]);
    ("PAYEE", seq [lit "PAYEE"; ws; lit ":"; Grp dots_lazy; lit "NPI"]);
    ("VENDOR",
      seq [lit "VENDOR"; ws; lit "NBR"; ws; lit ":"; Grp dots_lazy; lit "PROD"]);
    ("Pay Date",
      seq [lit "PROD"; ws; lit "DATE"; ws; lit ":"; Grp dots_lazy; lit "CH"]);
    ("CHECK/EFT",
      seq [lit "CHECK"; ws; lit "/"; ws; lit "EFT"; ws; lit "NBR"; ws; lit ":";
           Grp dots_lazy; lit "CHK"]);
    ("CHECK/EFT Date",
      seq [lit "CHK"; ws; lit "/"; ws; lit "EFT"; ws; lit "DT"; ws; lit ":";
           Grp dots_lazy; newline]) ].

(** [r'\-{2,}'] *)
Definition DASH_RUN_PATTERN : regex :=
  seq [Sym Str.is_dash; Sym Str.is_dash; Rep true Str.is_dash].

(** [re.DOTALL], which the code hands to [search] in the place of [pos] *)
Definition DOTALL : nat := 16.

End Patterns.

(** ** Exceptions *)

Inductive exn : Type :=
| KeyError (key : string)       (* a missing dictionary key *)
| ValueError                    (* not enough values to unpack *)
| FileDataError.                (* [fitz.open] could not read the file *)

Inductive result (A : Type) : Type :=
| Ok (a : A)
| Raise (e : exn).
Arguments Ok {A} a.
Arguments Raise {A} e.

#[export] Instance result_ret : MRet result := fun A a => Ok a.
#[export] Instance result_bind : MBind result := fun A B f m =>
  match m with
  | Ok a => f a
  | Raise e => Raise e
  end.

Definition is_ok {A} (r : result A) : bool :=
  match r with Ok _ => true | Raise _ => false end.

(** ** The document-access layer, as the parser consumes it *)

Module Fitz.

Record Rect : Type := mkRect { x0 : Q; y0 : Q; x1 : Q; y1 : Q }.

(** [bool(rect)]: false only for the all-zero rectangle. *)
Definition Rect_bool (r : Rect) : bool :=
  negb (Qeq_bool (x0 r) 0 && Qeq_bool (y0 r) 0 && Qeq_bool (x1 r) 0
        && Qeq_bool (y1 r) 0).

Definition height (r : Rect) : Q := (y1 r - y0 r)%Q.

Record Page : Type := mkPage {
  rect : Rect;                               (* page.rect *)
  user_unit : option Q;                      (* getattr(page, "user_unit", 1.0) *)
  text_blocks : list Rect;                   (* page.get_text("blocks") *)
  get_text : string;                         (* page.get_text("text", sort=True) *)
  get_text_clip : Rect -> string;            (* page.get_text("text", sort=True, clip=r) *)
  search_for : string -> list Rect;          (* page.search_for(needle) *)
  search_for_clip : string -> Rect -> list Rect  (* page.search_for(needle, clip=r, ...) *)
}.

(** A document is the sequence of its pages; [page_count] is its length and
    [load_page] is indexing. *)
Definition Document : Type := list Page.
Definition page_count (document : Document) : nat := length document.
Definition load_page (document : Document) (n : nat) : option Page := document !! n.

(** What is found at [pdf_path]. *)
Inductive File : Type :=
| Missing                          (* [os.path.exists] is false *)
| Unreadable                       (* the file exists, [fitz.open] raises *)
| Readable (document : Document).

End Fitz.
Import Fitz.

(** [int(q)] *)
Definition int (q : Q) : Z := Z.quot (Qnum q) (Z.pos (Qden q)).

(** [max(a, b)]: the first argument unless the second is larger. *)
Definition py_max (a b : Q) : Q := if Qlt_le_dec a b then b else a.

(** [max(iterable)]; [None] stands for the [ValueError] on an empty one. *)
Definition py_max_list (l : list Q) : option Q :=
  match l with
  | [] => None
  | q :: l' => Some (fold_left py_max l' q)
  end.

Definition geometry : Type := gmap string Z.
Definition record : Type := gmap string string.

(** [d[key]] *)
Definition getitem (d : gmap string Z) (key : string) : result Z :=
  match d !! key with
  | Some v => Ok v
  | None => Raise (KeyError key)
  end.

(** [{column: "" for column in table}] *)
Definition blank_record (table : list (string * Re.regex)) : gmap string string :=
  foldl (fun d entry => <[fst entry := ""]> d) ∅ table.

(** [match.group(1).strip()] of [pattern.search(text)] *)
Definition capture (pattern : Re.regex) (text : string) : option string :=
  match Re.search pattern text 0 with
  | Some m => Some (Str.strip (Re.group1 text m))
  | None => None
  end.

(** A crop region: the page and the rectangle to read on it. *)
Definition CropRegion : Type := (Page * Rect)%type.

(** The tuple that the block generator yields. *)
Record Block : Type := mkBlock {
  block_text : string;
  document : Document;
  page_number : nat;
  page_text : string;
  geometry_dict : gmap string Z;
  current_page : Page
}.

(** ** The parser *)

Definition patient_regex : Re.regex := Patterns.PATIENT_TAG_PATTERN.
Definition patient_response_regex : Re.regex := Patterns.PATIENT_RESPONSE_TAG_PATTERN.

Definition calculate_real_page_width (page : Page) (margin : Q) : Q :=
  let width := (x1 (rect page) * default 1%Q (user_unit page))%Q in
  let width :=
    match py_max_list (map x1 (text_blocks page)) with
    | Some rightmost_text => py_max width rightmost_text
    | None => width                      (* except ValueError: pass *)
    end in
  (width + margin)%Q.

(** The loop of [extract_patient_blocks_from_page] over the matches after the
    first: one block per match, then the final block. *)
Fixpoint blocks_loop (current_page_text : string) (start_position : nat)
    (iterator : list Re.rmatch_obj) : list string :=
  match iterator with
  | m :: iterator' =>
      Str.lstrip_nl (Str.slice current_page_text start_position (Re.m_start m))
      :: blocks_loop current_page_text (Re.m_start m) iterator'
  | [] => [Str.lstrip_nl (Str.sdrop start_position current_page_text)]
  end.

(** The block texts that [extract_patient_blocks_from_page] yields. *)
Definition patient_block_texts (regex : Re.regex) (current_page_text : string)
    : list string :=
  match Re.finditer regex current_page_text with
  | [] => []                                      (* no PATIENT tags found *)
  | first_match :: iterator =>
      blocks_loop current_page_text (Re.m_start first_match) iterator
  end.

Definition extract_patient_blocks_from_page (current_page : Page)
    (document : Document) (page_number : nat) (geometry_dict : gmap string Z)
    : list Block :=
  let current_page_text := get_text current_page in
  map (fun text => mkBlock text document page_number current_page_text
                           geometry_dict current_page)
      (patient_block_texts patient_regex current_page_text).

Definition extract_page_geometry_coordinates (page : Page) (content : string)
    : gmap string Z :=
  let geometry_dict : gmap string Z := ∅ in
  let geometry_dict :=
    match search_for page " DOS " with
    | dos_rectangle :: _ =>
        <["dos_y1" := int (y1 dos_rectangle)]>
          (<["dos_x1" := (int (x1 dos_rectangle) + 30)%Z]>
             (<["dos_x0" := (int (x0 dos_rectangle) - 30)%Z]> geometry_dict))
    | [] => geometry_dict
    end in
  let geometry_dict :=
    match search_for page "ADJ/PROD" with
    | adj_rectangle :: _ =>
        <["adj_x1" := (int (x1 adj_rectangle) + 10)%Z]>
          (<["adj_x0" := (int (x0 adj_rectangle) - 2)%Z]> geometry_dict)
    | [] => geometry_dict
    end in
  match search_for page " MOD " with
  | mod_rectangle :: _ =>
      <["mod_x1" := (int (x1 mod_rectangle) + 20)%Z]>
        (<["mod_x0" := (int (x0 mod_rectangle) - 20)%Z]> geometry_dict)
  | [] => geometry_dict
  end.

(** The body of the page loop of [iterate_all_patient_blocks]: the geometry
    variables after the calibration step on [page]. *)
Definition calibrate (page : Page) (geometry_dict : gmap string Z)
    (geometry_extracted : bool) : gmap string Z * bool :=
  if negb geometry_extracted then
    let content := get_text page in
    match Re.search patient_regex content 0 with
    | Some _ =>
        let geometry_dict := extract_page_geometry_coordinates page content in
        if bool_decide (geometry_dict = ∅) then (geometry_dict, geometry_extracted)
        else (geometry_dict, true)
    | None => (geometry_dict, geometry_extracted)
    end
  else (geometry_dict, geometry_extracted).

Fixpoint iterate_pages (document : Document) (pages : list Page)
    (page_number : nat) (geometry_dict : gmap string Z)
    (geometry_extracted : bool) : list Block :=
  match pages with
  | [] => []
  | page :: pages' =>
      let '(geometry_dict, geometry_extracted) :=
        calibrate page geometry_dict geometry_extracted in
      extract_patient_blocks_from_page page document page_number geometry_dict
      ++ iterate_pages document pages' (S page_number) geometry_dict
           geometry_extracted
  end.

Definition iterate_all_patient_blocks (pdf : File) : result (list Block) :=
  match pdf with
  | Missing => Ok []              (* prints 'Could not find PDF file', returns *)
  | Unreadable => Raise FileDataError
  | Readable document => Ok (iterate_pages document document 0 ∅ false)
  end.

(** One visited page of [get_remaining_patient_block_content]: the crop
    rectangle between the claim-status line (or the default offset 63) and
    [bottom_y_coordinate], recorded and read. *)
Definition stitch_page (page : Page) (bottom_y_coordinate : Q)
    (crop_rectangles_list : list CropRegion) (combined_block_text : string)
    : list CropRegion * string :=
  let page_width := calculate_real_page_width page 0 in
  let top_y_coordinate :=
    match search_for page "CLAIM STATUS" with
    | claim_rectangle :: _ => y1 claim_rectangle
    | [] => 63%Q
    end in
  let crop_rectangle := mkRect 0 top_y_coordinate page_width bottom_y_coordinate in
  let crop_text := get_text_clip page crop_rectangle in
  (crop_rectangles_list ++ [(page, crop_rectangle)],
   combined_block_text +:+ Str.nl
     +:+ Str.strip (Re.sub Patterns.DASH_RUN_PATTERN " " crop_text)).

(** The [while True] loop of [get_remaining_patient_block_content]. *)
Equations? stitch_loop (document : Document) (current_page_number : nat)
    (crop_rectangles_list : list CropRegion) (combined_block_text : string)
    : list CropRegion * string
    by wf (page_count document - current_page_number) lt :=
  stitch_loop document current_page_number crops combined
    with le_lt_dec (page_count document) (S current_page_number) => {
    | left _ => (crops, combined)                                   (* break *)
    | right _ with load_page document (S current_page_number) => {
      | None => (crops, combined)
      | Some page with search_for page "PATIENT:" => {
        | patient_rectangle :: _ =>
            stitch_page page (y0 patient_rectangle) crops combined  (* break *)
        | [] =>
            stitch_loop document (S current_page_number)
              (fst (stitch_page page (height (rect page)) crops combined))
              (snd (stitch_page page (height (rect page)) crops combined)) } } }.
Proof. lia. Qed.

Definition get_remaining_patient_block_content (document : Document)
    (current_page_number : nat) : list CropRegion * string :=
  stitch_loop document current_page_number [] "".

(** [d[key]] on a record *)
Definition getfield (d : gmap string string) (key : string) : result string :=
  match d !! key with
  | Some v => Ok v
  | None => Raise (KeyError key)
  end.

(** The loop [for column, pattern in table: match = pattern.search(text);
    if match: d[column] = match.group(1).strip()]. *)
Definition update_matches (table : list (string * Re.regex)) (text : string)
    (d : gmap string string) : gmap string string :=
  foldl (fun d entry =>
           match capture (snd entry) text with
           | Some value => <[fst entry := value]> d
           | None => d
           end) d table.

(** The loop [for column, pattern in table: d[column] =
    match.group(1).strip() if match else '']. *)
Definition assign_matches (table : list (string * Re.regex)) (text : string)
    (d : gmap string string) : gmap string string :=
  foldl (fun d entry => <[fst entry := default "" (capture (snd entry) text)]> d)
        d table.

Definition extract_header_field_information (page_text : string)
    : gmap string string :=
  let header_data := blank_record Patterns.HEADER_FIELD_PATTERNS in
  update_matches Patterns.HEADER_FIELD_PATTERNS page_text header_data.

Definition get_first_block_section (page : Page) : option CropRegion :=
  let claim_numbers_list := Re.findall Patterns.CLAIM_NUMBER_PATTERN (get_text page) in
  let page_width := calculate_real_page_width page 0 in
  match last claim_numbers_list with
  | Some claim_number =>
      match search_for page claim_number with
      | claim_rectangle :: _ =>
          let top_y_coordinate := (int (y1 claim_rectangle) + 10)%Z in
          Some (page, mkRect 0 (inject_Z top_y_coordinate) page_width (y1 (rect page)))
      | [] => None
      end
  | None => None
  end.

(** [l.index(x)]; [None] stands for the [ValueError]. *)
Fixpoint list_index (x : string) (l : list string) : option nat :=
  match l with
  | [] => None
  | y :: l' => if String.eqb y x then Some 0 else S <$> list_index x l'
  end.

Definition find_next_claim_number (claim_list : list string)
    (current_claim_number : string) : option string :=
  match list_index current_claim_number claim_list with
  | Some index =>
      if index =? length claim_list - 1 then None
      else claim_list !! (index + 1)
  | None => None                                       (* except ValueError *)
  end.

Definition get_bottom_coordinate_by_next_claim (page : Page)
    (claim_number : string) : option Z :=
  let claim_numbers := Re.findall Patterns.CLAIM_NUMBER_PATTERN (get_text page) in
  if length claim_numbers <? 2 then None
  else
    match find_next_claim_number claim_numbers claim_number with
    | None => None
    | Some next_claim =>
        if Str.is_empty next_claim then None          (* [not next_claim] *)
        else
          match search_for page next_claim with
          | rectangle :: _ => Some (int (y0 rectangle) - 20)%Z
          | [] => None
          end
    end.

Definition find_bottom_of_last_patient_response (page : Page)
    (claim_number : string) : option Q :=
  let page_width := calculate_real_page_width page 0 in
  match search_for page claim_number with
  | [] => None
  | claim_hit :: _ =>
      let clip_rectangle := mkRect 0 (y0 claim_hit) page_width (y1 (rect page)) in
      py_max_list (map y0 (search_for_clip page "PAT RESP:" clip_rectangle))
  end.

(** [a or b] for an [int]-or-[None] left operand: [None] and [0] are falsy. *)
Definition py_or (a : option Z) (b : option Q) : option Q :=
  match a with
  | Some z => if (z =? 0)%Z then b else Some (inject_Z z)
  | None => b
  end.

Definition create_claim_block_crop_rectangle (page : Page)
    (claim_number original_reference_number : string) : option Rect :=
  let page_width := calculate_real_page_width page 0 in
  match search_for page claim_number with
  | [] => None
  | claim_hit :: _ =>
      let top_y_coordinate := (int (y1 claim_hit) + 30)%Z in
      let bottom_y_coordinate :=
        match search_for page original_reference_number with
        | reference_hit :: _ => Some (inject_Z (int (y0 reference_hit)))
        | [] =>
            py_or (get_bottom_coordinate_by_next_claim page claim_number)
                  (find_bottom_of_last_patient_response page claim_number)
        end in
      match bottom_y_coordinate with
      | None => None
      | Some bottom =>
          if Qle_bool bottom (inject_Z top_y_coordinate) then None
          else Some (mkRect 0 (inject_Z top_y_coordinate) page_width bottom)
      end
  end.

(** The loop [for line in lines: line = line.strip(); if line and line not in
    seen_values: seen_values.add(line); ordered_values.append(line)]. *)
Fixpoint collect_lines (lines : list string) (seen_values : gset string)
    (ordered_values : list string) : gset string * list string :=
  match lines with
  | [] => (seen_values, ordered_values)
  | line :: lines' =>
      let line := Str.strip line in
      if negb (Str.is_empty line) && bool_decide (line ∉ seen_values) then
        collect_lines lines' ({[line]} ∪ seen_values) (ordered_values ++ [line])
      else collect_lines lines' seen_values ordered_values
  end.

(** The rectangle of one column between two heights: [fitz.Rect(g[left], top,
    g[right] (- 35), bottom)], the keys looked up from left to right. *)
Definition column_rectangle (geometry_dict : gmap string Z) (left right : string)
    (right_edge : Z -> Z) (top bottom : Q) : result Rect :=
  a ← getitem geometry_dict left;
  b ← getitem geometry_dict right;
  mret (mkRect (inject_Z a) top (inject_Z (right_edge b)) bottom).

Definition dos_edge (z : Z) : Z := (z - 35)%Z.

Definition extract_patient_dates_of_service (page : Page) (patient_rectangle : Rect)
    (geometry_dict : gmap string Z) : result string :=
  clip_rectangle ← column_rectangle geometry_dict "dos_x0" "dos_x1" dos_edge
                     (y0 patient_rectangle) (y1 patient_rectangle);
  let ordered_values :=
    snd (collect_lines (Str.splitlines (get_text_clip page clip_rectangle)) ∅ []) in
  mret (match ordered_values with
        | [] => ""
        | _ => Str.join "," ordered_values
        end).

(** [first_page_data, *middle_pages_data, last_page_data = l] *)
Definition unpack_first_middle_last {A} (l : list A) : result (A * list A * A) :=
  match l with
  | first :: second :: rest =>
      Ok (first, removelast (second :: rest), List.last rest second)
  | _ => Raise ValueError
  end.

(** The loop over the middle pages. *)
Fixpoint middle_pages_loop (geometry_dict : gmap string Z) (left right : string)
    (right_edge : Z -> Z) (middle_pages_data : list CropRegion)
    (state : gset string * list string) : result (gset string * list string) :=
  match middle_pages_data with
  | [] => Ok state
  | (middle_page, middle_rectangle) :: rest =>
      clip ← column_rectangle geometry_dict left right right_edge
               (y0 middle_rectangle + 20)%Q (y1 middle_rectangle);
      middle_pages_loop geometry_dict left right right_edge rest
        (collect_lines (Str.splitlines (get_text_clip middle_page clip))
           (fst state) (snd state))
  end.

(** The common body of the three [extract_..._from_multiple_pages] methods,
    which differ in the two keys and in the 35 taken off the right edge of
    the date column. *)
Definition extract_column_from_multiple_pages (left right : string)
    (right_edge : Z -> Z) (crop_rectangles_list : list CropRegion)
    (geometry_dict : gmap string Z) : result string :=
  match crop_rectangles_list with
  | [] => Ok ""
  | _ =>
      '(first_page_data, middle_pages_data, last_page_data) ←
        unpack_first_middle_last crop_rectangles_list;
      let '(first_page, first_rectangle) := first_page_data in
      first_clip ← column_rectangle geometry_dict left right right_edge
                     (y0 first_rectangle + 20)%Q (y1 first_rectangle);
      let state :=
        collect_lines (Str.splitlines (get_text_clip first_page first_clip)) ∅ [] in
      state ← middle_pages_loop geometry_dict left right right_edge
                middle_pages_data state;
      let '(last_page, last_rectangle) := last_page_data in
      last_clip ← column_rectangle geometry_dict left right right_edge
                    (y0 last_rectangle + 20)%Q (y1 last_rectangle - 20)%Q;
      let state :=
        collect_lines (Str.splitlines (get_text_clip last_page last_clip))
          (fst state) (snd state) in
      mret (Str.join "," (snd state))
  end.

Definition extract_dates_of_service_from_multiple_pages :=
  extract_column_from_multiple_pages "dos_x0" "dos_x1" dos_edge.
Definition extract_service_codes_from_multiple_pages :=
  extract_column_from_multiple_pages "adj_x0" "adj_x1" id.
Definition extract_modifiers_from_multiple_pages :=
  extract_column_from_multiple_pages "mod_x0" "mod_x1" id.

(** The loop [for line in lines: if line.strip(): s.add(line.strip())], the
    set kept as the sequence of its insertions. *)
Definition set_add_lines (lines : list string) : list string :=
  fold_left (fun s line =>
               if Str.is_empty (Str.strip line) then s else s ++ [Str.strip line])
            lines [].

Section Parser.

(** [list(s)] for a set [s] of strings built by the given insertions: the
    order in which the interpreter enumerates it.  Python leaves it
    unspecified and CPython derives it from string hashes that are salted
    per process. *)
Variable set_order : list string -> list string.

(** The common body of [extract_patient_service_codes] and
    [extract_patient_modifiers]. *)
Definition extract_set_column (left right : string) (page : Page)
    (patient_rectangle : Rect) (geometry_dict : gmap string Z) : result string :=
  clip ← column_rectangle geometry_dict left right id
           (y0 patient_rectangle) (y1 patient_rectangle);
  let code_set := set_add_lines (Str.splitlines (get_text_clip page clip)) in
  mret (Str.join "," (set_order code_set)).

Definition extract_patient_service_codes := extract_set_column "adj_x0" "adj_x1".
Definition extract_patient_modifiers := extract_set_column "mod_x0" "mod_x1".

(** The branch of [process_individual_patient_block] for a block without
    the closing marker: the extended block text and the record so far. *)
Definition process_multi_page_block (block : Block) (base_data : gmap string string)
    : result (string * gmap string string) :=
  let crop_rectangles_list :=
    match get_first_block_section (current_page block) with
    | Some first_rectangle_block => [first_rectangle_block]
    | None => []
    end in
  let '(rectangle_list, remaining_block_text) :=
    get_remaining_patient_block_content (document block) (page_number block) in
  let crop_rectangles_list := crop_rectangles_list ++ rectangle_list in
  let block_text := block_text block +:+ Str.nl +:+ remaining_block_text in
  let base_data :=
    assign_matches Patterns.CLAIM_REFERENCE_PATTERNS block_text base_data in
  claim_number ← getfield base_data "Claim Number";
  dates_of_service ← extract_dates_of_service_from_multiple_pages
                       crop_rectangles_list (geometry_dict block);
  let base_data := <["Date Of Service" := dates_of_service]> base_data in
  service_codes ← extract_service_codes_from_multiple_pages
                    crop_rectangles_list (geometry_dict block);
  let base_data := <["Service Code" := service_codes]> base_data in
  modifiers ← extract_modifiers_from_multiple_pages
                crop_rectangles_list (geometry_dict block);
  let base_data := <["Modifier" := modifiers]> base_data in
  mret (block_text, base_data).

(** The branch for a block with the closing marker. *)
Definition process_single_page_block (block : Block) (base_data : gmap string string)
    : result (string * gmap string string) :=
  let base_data :=
    assign_matches Patterns.CLAIM_REFERENCE_PATTERNS (block_text block) base_data in
  claim_number ← getfield base_data "Claim Number";
  orig_ref_num ← getfield base_data "Orig Ref Num";
  match create_claim_block_crop_rectangle (current_page block) claim_number
          orig_ref_num with
  | Some block_rectangle =>
      if Rect_bool block_rectangle then
        dates_of_service ← extract_patient_dates_of_service (current_page block)
                             block_rectangle (geometry_dict block);
        let base_data := <["Date Of Service" := dates_of_service]> base_data in
        service_codes ← extract_patient_service_codes (current_page block)
                          block_rectangle (geometry_dict block);
        let base_data := <["Service Code" := service_codes]> base_data in
        modifiers ← extract_patient_modifiers (current_page block)
                      block_rectangle (geometry_dict block);
        let base_data := <["Modifier" := modifiers]> base_data in
        mret (block_text block, base_data)
      else mret (block_text block, base_data)
  | None => mret (block_text block, base_data)  (* prints 'Could not find block rectangle' *)
  end.

Definition process_individual_patient_block (block : Block)
    : result (list (gmap string string)) :=
  let base_data := blank_record Patterns.FIELD_EXTRACTION_PATTERNS in
  '(block_text, base_data) ←
    match Re.search patient_response_regex (block_text block) Patterns.DOTALL with
    | None => process_multi_page_block block base_data
    | Some _ => process_single_page_block block base_data
    end;
  let base_data :=
    update_matches Patterns.FIELD_EXTRACTION_PATTERNS block_text base_data in
  let header_data := extract_header_field_information (page_text block) in
  let final_data := header_data ∪ base_data in     (* copy(), update(header_data) *)
  claim_number ← getfield base_data "Claim Number";
  mret [final_data].

(** The loop of [process_pdf_and_create_dataframe] over the blocks. *)
Fixpoint process_blocks (blocks : list Block) (all_rows : list (gmap string string))
    : result (list (gmap string string)) :=
  match blocks with
  | [] => Ok all_rows
  | patient_block :: blocks' =>
      processed_rows ← process_individual_patient_block patient_block;
      process_blocks blocks' (all_rows ++ processed_rows)
  end.

(** [process_pdf_and_create_dataframe], up to the rows the data frame is
    built from. *)
Definition process_pdf_and_create_dataframe (pdf : File)
    : result (list (gmap string string)) :=
  blocks ← iterate_all_patient_blocks pdf;
  process_blocks blocks [].

End Parser.

(** ** The notions the properties are phrased in *)

(** Start offsets of the occurrences of the patient tag in a page text. *)
Definition tag_starts (text : string) : list nat :=
  map Re.m_start (Re.finditer patient_regex text).

(** From each offset to the next, the last one to [stop]. *)
Fixpoint spans (starts : list nat) (stop : nat) : list (nat * nat) :=
  match starts with
  | [] => []
  | a :: rest => (a, hd stop rest) :: spans rest stop
  end.

(** [s.startswith(prefix)], with what follows the prefix. *)
Fixpoint strip_prefix (prefix s : string) : option string :=
  match prefix, s with
  | EmptyString, _ => Some s
  | String a prefix', String b s' =>
      if Ascii.eqb a b then strip_prefix prefix' s' else None
  | String _ _, EmptyString => None
  end.

(** The text begins with "PATIENT", optional whitespace and ":". *)
Definition starts_with_tag (s : string) : bool :=
  match strip_prefix "PATIENT" s with
  | Some rest =>
      match Str.lstrip rest with
      | String c _ => Ascii.eqb c ":"
      | EmptyString => false
      end
  | None => false
  end.

(** "PATIENT" followed by optional whitespace and ":" stands at offset [i]. *)
Definition tag_occurs_at (text : string) (i : nat) : Prop :=
  starts_with_tag (Str.sdrop i text) = true.

(** The profile a page yields to the calibration step: the one derived from
    its landmarks, when the page carries a patient tag and at least one
    landmark resolves. *)
Definition page_profile (page : Page) : option (gmap string Z) :=
  match Re.search patient_regex (get_text page) 0 with
  | Some _ =>
      let g := extract_page_geometry_coordinates page (get_text page) in
      if bool_decide (g = ∅) then None else Some g
  | None => None
  end.

(** The blocks of consecutive pages, the first of them numbered [first], all
    carrying the profile [g]. *)
Fixpoint blocks_with_profile (doc : Document) (g : gmap string Z) (first : nat)
    (pages : list Page) : list Block :=
  match pages with
  | [] => []
  | page :: pages' =>
      extract_patient_blocks_from_page page doc first g
      ++ blocks_with_profile doc g (S first) pages'
  end.

(** The page shows the starting landmark "PATIENT:". *)
Definition has_landmark (page : Page) : bool :=
  match search_for page "PATIENT:" with
  | [] => false
  | _ :: _ => true
  end.

(** Distinct items in first-seen order. *)
Definition first_seen_step (acc : list string) (x : string) : list string :=
  if bool_decide (x ∈ acc) then acc else acc ++ [x].

Definition first_seen (l : list string) : list string :=
  fold_left first_seen_step l [].

(** The set of seen lines holds what the ordered list holds. *)
Definition agrees (state : gset string * list string) : Prop :=
  forall x, x ∈ fst state <-> x ∈ snd state.

(** The non-empty stripped lines of a text, in order. *)
Definition stripped_lines (text : string) : list string :=
  List.filter (fun line => negb (Str.is_empty line))
              (map Str.strip (Str.splitlines text)).

(** The column rectangle that the code reads inside a recorded crop region:
    the top of every region is moved down by 20, the bottom of the last
    region is moved up by 20. *)
Definition region_clip (a b : Z) (right_edge : Z -> Z) (is_last : bool) (r : Rect)
    : Rect :=
  mkRect (inject_Z a) (y0 r + 20)%Q (inject_Z (right_edge b))
         (if is_last then (y1 r - 20)%Q else y1 r).

Fixpoint region_clips (a b : Z) (right_edge : Z -> Z) (crops : list CropRegion)
    : list CropRegion :=
  match crops with
  | [] => []
  | (page, r) :: crops' =>
      match crops' with
      | [] => [(page, region_clip a b right_edge true r)]
      | _ :: _ =>
          (page, region_clip a b right_edge false r)
          :: region_clips a b right_edge crops'
      end
  end.

(** The comma-joined distinct lines, in first-seen order, of the given
    rectangles. *)
Definition joined_lines (clips : list CropRegion) : string :=
  Str.join ","
    (first_seen
       (concat (map (fun c => stripped_lines (get_text_clip (fst c) (snd c))) clips))).

Definition column_value (a b : Z) (right_edge : Z -> Z) (crops : list CropRegion)
    : string :=
  joined_lines (region_clips a b right_edge crops).

(** The reading of the specification: only the top of the first region is
    moved down and only the bottom of the last region is moved up. *)
Definition claimed_region_clip (a b : Z) (right_edge : Z -> Z)
    (is_first is_last : bool) (r : Rect) : Rect :=
  mkRect (inject_Z a) (if is_first then (y0 r + 20)%Q else y0 r)
         (inject_Z (right_edge b)) (if is_last then (y1 r - 20)%Q else y1 r).

Fixpoint claimed_region_clips (a b : Z) (right_edge : Z -> Z) (is_first : bool)
    (crops : list CropRegion) : list CropRegion :=
  match crops with
  | [] => []
  | (page, r) :: crops' =>
      match crops' with
      | [] => [(page, claimed_region_clip a b right_edge is_first true r)]
      | _ :: _ =>
          (page, claimed_region_clip a b right_edge is_first false r)
          :: claimed_region_clips a b right_edge false crops'
      end
  end.

Definition claimed_column_value (a b : Z) (right_edge : Z -> Z)
    (crops : list CropRegion) : string :=
  joined_lines (claimed_region_clips a b right_edge true crops).

(** The block lacks the closing marker, so its table continues on later
    pages. *)
Definition is_continuation (b : Block) : bool :=
  match Re.search patient_response_regex (block_text b) Patterns.DOTALL with
  | None => true
  | Some _ => false
  end.

(** The crop regions recorded for a continuation block. *)
Definition continuation_regions (b : Block) : list CropRegion :=
  match get_first_block_section (current_page b) with
  | Some first_rectangle_block => [first_rectangle_block]
  | None => []
  end
  ++ fst (get_remaining_patient_block_content (document b) (page_number b)).

(** The text of a continuation block, extended by the stitched pages. *)
Definition continuation_text (b : Block) : string :=
  block_text b +:+ Str.nl
  +:+ snd (get_remaining_patient_block_content (document b) (page_number b)).

Definition claim_number_of (text : string) : string :=
  default "" (capture Patterns.CLAIM_NUMBER_PATTERN text).

Definition orig_ref_num_of (text : string) : string :=
  default "" (capture Patterns.ORIG_REF_NUMBER_PATTERN text).

(** The crop rectangle of a single-page block. *)
Definition single_page_rectangle (b : Block) : option Rect :=
  create_claim_block_crop_rectangle (current_page b)
    (claim_number_of (block_text b)) (orig_ref_num_of (block_text b)).

(** Spatial extraction has a region to read for the block. *)
Definition resolves_crop_region (b : Block) : bool :=
  if is_continuation b then
    match continuation_regions b with
    | [] => false
    | _ :: _ => true
    end
  else
    match single_page_rectangle b with
    | Some _ => true
    | None => false
    end.

(** The three geometry-derived fields of the record are the empty string. *)
Definition geometry_fields_blank (r : gmap string string) : Prop :=
  r !! "Date Of Service" = Some ""
  /\ r !! "Service Code" = Some ""
  /\ r !! "Modifier" = Some "".

(** The record holds none of the three geometry-derived keys. *)
Definition geometry_fields_absent (r : gmap string string) : Prop :=
  r !! "Date Of Service" = None
  /\ r !! "Service Code" = None
  /\ r !! "Modifier" = None.

(** The names of a pattern table. *)
Definition columns (table : list (string * Re.regex)) : list string :=
  map fst table.

(** The computation raises only exceptions that satisfy [P]. *)
Definition raises_only {A} (P : exn -> Prop) (m : result A) : Prop :=
  forall e, m = Raise e -> P e.

(** The exception does not come from opening the document. *)
Definition not_open_failure (e : exn) : Prop := e <> FileDataError.

(** An enumeration of sets: without repetition, and of exactly the inserted
    items. *)
Definition valid_set_order (f : list string -> list string) : Prop :=
  forall l, NoDup (f l) /\ forall x, x ∈ f l <-> x ∈ l.

(** An enumeration in the reverse of first-seen order. *)
Definition reversed_first_seen (l : list string) : list string :=
  rev (first_seen l).

(** Two runs end the same way: both raise the same exception, or both
    return and the results are related. *)
Definition outcomes_agree {A} (R : A -> A -> Prop) (m1 m2 : result A) : Prop :=
  match m1, m2 with
  | Ok a1, Ok a2 => R a1 a2
  | Raise e1, Raise e2 => e1 = e2
  | _, _ => False
  end.

(** Two records agree on every key, except that "Service Code" and
    "Modifier" may be the comma-joined forms of two item lists related by
    [I]. *)
Definition same_up_to_items (I : list string -> list string -> Prop)
    (r1 r2 : gmap string string) : Prop :=
  forall k,
    r1 !! k = r2 !! k
    \/ ((k = "Service Code" \/ k = "Modifier")
        /\ exists l1 l2,
             r1 !! k = Some (Str.join "," l1)
             /\ r2 !! k = Some (Str.join "," l2)
             /\ I l1 l2).

(** ** Sample pages and documents *)

Module Samples.

(** A search that answers from a table of needles. *)
Definition needle_table (table : list (string * list Rect)) (needle : string)
    : list Rect :=
  match List.find (fun entry => String.eqb (fst entry) needle) table with
  | Some entry => snd entry
  | None => []
  end.

Definition box (a b c d : Z) : Rect :=
  mkRect (inject_Z a) (inject_Z b) (inject_Z c) (inject_Z d).

Definition letter : Rect := box 0 0 612 792.

Definition lines (l : list string) : string := Str.join Str.nl l.

(** A page whose text opens with the tag, no newline before it. *)
Definition page_leading_tag : Page :=
  mkPage letter None [] "PATIENT: DOE" (fun _ => "") (needle_table [])
         (fun _ _ => []).

(** A cover page without any patient tag. *)
Definition page_cover : Page :=
  mkPage letter None [] (lines ["REMITTANCE ADVICE"; "PAGE 1"]) (fun _ => "")
         (needle_table [(" DOS ", [box 300 50 330 60])]) (fun _ _ => []).

(** Two pages with patient tags and different column layouts. *)
Definition page_layout_a : Page :=
  mkPage letter None []
    (lines ["CLAIM STATUS: PAID"; "PATIENT: DOE JOHN"; "CLM #:A1"; "PAT RESP: 0"; ""])
    (fun _ => "")
    (needle_table [(" DOS ", [box 100 50 130 60]); ("ADJ/PROD", [box 200 50 260 60])])
    (fun _ _ => []).

Definition page_layout_b : Page :=
  mkPage letter None []
    (lines ["CLAIM STATUS: PAID"; "PATIENT: ROE JANE"; "CLM #:B2"; "PAT RESP: 0";
            "PATIENT: POE ANNE"; "CLM #:B3"; "PAT RESP: 0"; ""])
    (fun _ => "")
    (needle_table [(" DOS ", [box 400 50 430 60]); (" MOD ", [box 500 50 530 60])])
    (fun _ _ => []).

Definition profile_a : gmap string Z :=
  extract_page_geometry_coordinates page_layout_a (get_text page_layout_a).

(** A resolved profile. *)
Definition profile_full : gmap string Z :=
  <["mod_x1" := 350%Z]> (<["mod_x0" := 280%Z]> (<["adj_x1" := 270%Z]>
    (<["adj_x0" := 198%Z]> (<["dos_y1" := 60%Z]> (<["dos_x1" := 160%Z]>
      (<["dos_x0" := 70%Z]> ∅)))))).

(** A continuation page: the line of the "CLAIM STATUS" label lies at height
    100, the table rows below it. *)
Definition page_table_rows : Page :=
  mkPage letter None [] (lines ["0101 99213 25"; "0102 99214 59"])
    (fun r => if Qle_bool (y0 r) 100 then lines ["CLAIM STATUS"; "0102"]
              else lines ["0101"; "0102"; "0101"])
    (needle_table [("CLAIM STATUS", [box 20 90 90 100])]) (fun _ _ => []).

Definition crops_two : list CropRegion :=
  [(page_table_rows, box 0 120 612 792); (page_table_rows, box 0 100 612 400)].

Definition crops_one : list CropRegion := [(page_table_rows, box 0 120 612 792)].

(** A page without any landmark: one block with the closing marker; its
    claim number is found at heights 100 to 110 and "PAT RESP:" at 300. *)
Definition page_no_landmarks : Page :=
  mkPage letter None []
    (lines ["CLAIM STATUS: PAID"; "PATIENT: DOE JOHN PATIENT ID #: 77 CONTRACT";
            "CLM #:A1"; "0101 99213 25"; "PAT RESP: 0"; ""])
    (fun _ => lines ["0101"])
    (needle_table [("A1", [box 10 100 50 110])])
    (fun needle _ => if String.eqb needle "PAT RESP:" then [box 10 300 60 310] else []).

(** A page without any landmark whose only block lacks the closing marker
    and whose claim number is not found on the page. *)
Definition page_open_block : Page :=
  mkPage letter None []
    (lines ["CLAIM STATUS: PAID"; "PATIENT: DOE JOHN PATIENT ID #: 77 CONTRACT";
            "CLM #:A1"; "0101 99213 25"; ""])
    (fun _ => lines ["0101"]) (needle_table []) (fun _ _ => []).

Definition landmarks : list (string * list Rect) :=
  [(" DOS ", [box 100 50 130 60]); ("ADJ/PROD", [box 200 50 260 60]);
   (" MOD ", [box 300 50 330 60])].

Definition closed_block_text : string :=
  lines ["CLAIM STATUS: PAID"; "PATIENT: DOE JOHN PATIENT ID #: 77 CONTRACT";
         "CLM #:A1"; "0101 99213 25"; "PAT RESP: 0"; ""].

(** A calibrated page with one closed block whose claim number the spatial
    search does not find. *)
Definition page_claim_not_found : Page :=
  mkPage letter None [] closed_block_text (fun _ => lines ["0101"])
    (needle_table landmarks) (fun _ _ => []).

(** A calibrated page with one closed block: the claim number lies at
    heights 100 to 110 and "PAT RESP:" at 130, above the top bound 140. *)
Definition page_tight_block : Page :=
  mkPage letter None [] closed_block_text (fun _ => lines ["0101"])
    (needle_table (("A1", [box 10 100 50 110]) :: landmarks))
    (fun needle _ => if String.eqb needle "PAT RESP:" then [box 10 130 60 140] else []).

(** A page with two claims; the first hit for the second claim number lies
    at height 20.5, and "PAT RESP:" at 500. *)
Definition page_next_claim_at_top : Page :=
  mkPage letter None []
    (lines ["CLAIM STATUS: PAID"; "PATIENT: DOE JOHN"; "CLM #:A1"; "PAT RESP: 0";
            "PATIENT: ROE JANE"; "CLM #:B2"; "PAT RESP: 0"; ""])
    (fun _ => lines ["0101"])
    (needle_table (("A1", [box 10 100 50 110])
                   :: ("B2", [mkRect 10 (41 # 2) 50 30; box 10 600 50 610])
                   :: landmarks))
    (fun needle _ => if String.eqb needle "PAT RESP:" then [box 10 500 60 510] else []).

(** A calibrated page with one closed block that resolves its crop
    rectangle; every column reads the two lines "99213" and "99214". *)
Definition page_two_codes : Page :=
  mkPage letter None [] closed_block_text (fun _ => lines ["99213"; "99214"; "99213"])
    (needle_table (("A1", [box 10 100 50 110]) :: landmarks))
    (fun needle _ => if String.eqb needle "PAT RESP:" then [box 10 300 60 310] else []).

End Samples.

(** ** Further notions and sample inputs *)

(** The block that the generator yields first on a one-page document. *)
Definition first_block_of (page : Page) (g : gmap string Z) : Block :=
  mkBlock (default "" (head (patient_block_texts patient_regex (get_text page))))
          [page] 0 (get_text page) g page.

(** All columns of the three pattern tables. *)
Definition pattern_columns : list string :=
  columns Patterns.FIELD_EXTRACTION_PATTERNS
  ++ columns Patterns.CLAIM_REFERENCE_PATTERNS
  ++ columns Patterns.HEADER_FIELD_PATTERNS.

Definition geometry_columns : list string :=
  ["Date Of Service"; "Service Code"; "Modifier"].

(** The number of patient-tag occurrences in the pages of a document. *)
Definition tag_count (pages : list Page) : nat :=
  sum_list (map (fun p => length (tag_starts (get_text p))) pages).

(** The keys a profile can hold. *)
Definition profile_keys : list string :=
  ["dos_x0"; "dos_x1"; "dos_y1"; "adj_x0"; "adj_x1"; "mod_x0"; "mod_x1"].

(** The spatial search finds the needle on the page. *)
Definition found (page : Page) (needle : string) : Prop :=
  search_for page needle <> [].

(** The pages that continuation stitching visits from an origin page: those
    after it, up to and including the first that shows "PATIENT:". *)
Definition pages_stitched (document : Document) (origin : nat) : list Page :=
  let later := drop (S origin) document in
  match list_find (fun p => has_landmark p = true) later with
  | Some (i, _) => take (S i) later
  | None => later
  end.

(** The crop region that one visited page contributes: from the bottom of
    the first "CLAIM STATUS" hit (63 without one) to the top of the first
    "PATIENT:" hit (the page height without one). *)
Definition stitch_region (page : Page) : CropRegion :=
  (page,
   mkRect 0
     match search_for page "CLAIM STATUS" with
     | claim_rectangle :: _ => y1 claim_rectangle
     | [] => 63%Q
     end
     (calculate_real_page_width page 0)
     match search_for page "PATIENT:" with
     | patient_rectangle :: _ => y0 patient_rectangle
     | [] => height (rect page)
     end).

(** The text that one visited page contributes. *)
Definition stitch_text (page : Page) : string :=
  Str.nl +:+ Str.strip (Re.sub Patterns.DASH_RUN_PATTERN " "
                          (get_text_clip page (snd (stitch_region page)))).

Definition concat_strings (l : list string) : string :=
  fold_right String.append "" l.

(** The non-empty stripped lines of a text. *)
Definition is_item_of (text : string) (x : string) : Prop :=
  x <> "" /\ exists line, line ∈ Str.splitlines text /\ Str.strip line = x.

(** ** The data frame and the sheet written from it *)

(** [expected_columns] of [process_pdf_and_create_dataframe]. *)
Definition expected_columns : list string :=
  columns Patterns.FIELD_EXTRACTION_PATTERNS
  ++ columns Patterns.CLAIM_REFERENCE_PATTERNS
  ++ columns Patterns.HEADER_FIELD_PATTERNS
  ++ ["Date Of Service"; "Service Code"; "Modifier"].

(** [col in dataframe.columns]: the data frame is built with the keys of the
    first record as its columns, or with the expected columns when there is
    no record. *)
Definition dataframe_has_column (all_rows : list (gmap string string))
    (col : string) : bool :=
  match all_rows with
  | first_row :: _ => bool_decide (is_Some (first_row !! col))
  | [] => bool_decide (col ∈ expected_columns)
  end.

(** [column_order] of [save_results_to_excel]. *)
Definition column_order : list string :=
  ["Patient Name"; "Patient ID"; "Provider Name"; "Provider ID";
   "CLAIM STATUS"; "Claim Number"; "Orig Ref Num"; "Patient CTRL";
   "Provider CTRL"; "Date Of Service"; "Service Code"; "Modifier";
   "Charge"; "Payment"; "PAYEE"; "PAYEE ID"; "VENDOR"; "Pay Date";
   "CHECK/EFT"; "CHECK/EFT Date"].

(** [[col for col in column_order if col in dataframe.columns]], the columns
    of the sheet that [save_results_to_excel] writes. *)
Definition available_columns (all_rows : list (gmap string string))
    : list string :=
  List.filter (dataframe_has_column all_rows) column_order.

(** The block records its three service columns: it is a continuation
    block, or its crop rectangle resolves. *)
Definition records_service_columns (b : Block) : bool :=
  is_continuation b || bool_decide (is_Some (single_page_rectangle b)).

(** The value a computation returns, if it returns. *)
Definition answer {A} (m : result A) : option A :=
  match m with
  | Ok a => Some a
  | Raise _ => None
  end.

(** The profile keys that the extractions read. *)
Definition column_keys : list string :=
  ["dos_x0"; "dos_x1"; "adj_x0"; "adj_x1"; "mod_x0"; "mod_x1"].

Definition holds_column_keys (g : gmap string Z) : Prop :=
  forall k, k ∈ column_keys -> is_Some (g !! k).

(** The string begins with a dash. *)
Definition starts_with_dash (s : string) : bool :=
  match s with
  | String a _ => Str.is_dash a
  | EmptyString => false
  end.

(** Two dashes stand next to each other somewhere in the string. *)
Fixpoint has_dash_run (s : string) : bool :=
  match s with
  | String a s' => (Str.is_dash a && starts_with_dash s') || has_dash_run s'
  | EmptyString => false
  end.

(** ** Parsing one claim line *)

(** [r"\s+"] *)
Definition WHITESPACE_RUN_PATTERN : Re.regex :=
  Re.Seq (Re.Sym Str.is_space) (Re.Rep true Str.is_space).

Fixpoint split_loop (text : string) (pos : nat) (ms : list Re.rmatch_obj)
    : list string :=
  match ms with
  | [] => [Str.sdrop pos text]
  | m :: ms' => Str.slice text pos (Re.m_start m) :: split_loop text (Re.m_end m) ms'
  end.

(** [re.split(pattern, text)] for a pattern without groups that matches no
    empty string *)
Definition re_split (r : Re.regex) (text : string) : list string :=
  split_loop text 0 (Re.finditer r text).

Definition parse_individual_claim_line (line : string) : string * string * string :=
  let tokens := re_split WHITESPACE_RUN_PATTERN (Str.strip line) in
  if 5 <=? length tokens then
    (nth 2 tokens "", nth 3 tokens "", nth 4 tokens "")
  else ("", "", "").

(** The string holds a whitespace character. *)
Fixpoint has_space (s : string) : bool :=
  match s with
  | String a s' => Str.is_space a || has_space s'
  | EmptyString => false
  end.

Module MoreSamples.
Import Samples.

(** A calibrated page whose only block lacks the closing marker; its claim
    number is found on the page. *)
Definition page_open_located : Page :=
  mkPage letter None []
    (lines ["CLAIM STATUS: PAID"; "PATIENT: DOE JOHN PATIENT ID #: 77 CONTRACT";
            "CLM #:A1"; "0101 99213 25"; ""])
    (fun _ => lines ["0101"])
    (needle_table (("A1", [box 10 100 50 110]) :: landmarks)) (fun _ _ => []).

End MoreSamples.

(** * Properties *)

(** ** Strings *)

Lemma length_sdrop n s : String.length (Str.sdrop n s) = String.length s - n.
Proof.
  revert s; induction n as [|n IH]; intros s; simpl.
  - lia.
  - destruct s as [|a s]; simpl; [reflexivity | apply IH].
Qed.

Lemma stake_all n s : String.length s <= n -> Str.stake n s = s.
Proof.
  revert n; induction s as [|a s IH]; intros n Hn.
  - destruct n; reflexivity.
  - destruct n as [|n]; simpl in *; [lia|]. rewrite IH; [reflexivity | lia].
Qed.

Lemma slice_to_end text a :
  Str.slice text a (String.length text) = Str.sdrop a text.
Proof. unfold Str.slice. apply stake_all. rewrite length_sdrop. lia. Qed.

Lemma sdrop_S i s a s' :
  Str.sdrop i s = String a s' -> Str.sdrop (S i) s = s'.
Proof.
  revert s; induction i as [|i IH]; intros s H; simpl in *.
  - subst. reflexivity.
  - destruct s as [|b s]; [discriminate|]. destruct i; simpl in *.
    + subst. reflexivity.
    + destruct s; [discriminate|]. apply (IH (String a0 s)). exact H.
Qed.

Lemma sdrop_tail i b s : Str.sdrop (S i) (String b s) = Str.sdrop i s.
Proof. reflexivity. Qed.

Lemma is_nl_char a : Str.is_nl a = true -> a = ascii_of_nat 10.
Proof.
  unfold Str.is_nl, Str.code. intros H. apply Nat.eqb_eq in H.
  rewrite <- (ascii_nat_embedding a), H. reflexivity.
Qed.

(** ** The matcher *)

Lemma match_at_start r pos s m : Re.match_at r pos s = Some m -> Re.m_start m = pos.
Proof.
  unfold Re.match_at. destruct (Re.rmatch _ _ _ _ _) as [[e g]|]; [|discriminate].
  intros [= <-]. reflexivity.
Qed.

Lemma finditer_from_starts r s : forall pos skip,
  Forall (fun m => pos + skip <= Re.m_start m) (Re.finditer_from r pos s skip)
  /\ StronglySorted lt (map Re.m_start (Re.finditer_from r pos s skip)).
Proof.
  induction s as [|a s IH]; intros pos skip.
  - destruct skip; simpl.
    + destruct (Re.match_at r pos EmptyString) as [m|] eqn:E; simpl.
      * apply match_at_start in E. split.
        -- constructor; [lia | constructor].
        -- repeat constructor.
      * split; constructor.
    + split; constructor.
  - destruct skip as [|n]; simpl.
    + destruct (Re.match_at r pos (String a s)) as [m|] eqn:E; simpl.
      * apply match_at_start in E.
        destruct (IH (S pos) (Re.m_end m - pos - 1)) as [Hge Hsorted]. split.
        -- constructor; [lia|]. eapply Forall_impl; [exact Hge|]. simpl. intros; lia.
        -- constructor; [exact Hsorted|]. rewrite Forall_map.
           eapply Forall_impl; [exact Hge|]. simpl. intros; lia.
      * destruct (IH (S pos) 0) as [Hge Hsorted]. split; [|exact Hsorted].
        eapply Forall_impl; [exact Hge|]. simpl. intros; lia.
    + destruct (IH (S pos) n) as [Hge Hsorted]. split; [|exact Hsorted].
      eapply Forall_impl; [exact Hge|]. simpl. intros; lia.
Qed.

Lemma tag_starts_sorted text : StronglySorted lt (tag_starts text).
Proof. apply finditer_from_starts. Qed.

(** ** Block segmentation *)

Lemma blocks_loop_spans text a ms :
  blocks_loop text a ms
  = map (fun ab => Str.lstrip_nl (Str.slice text ab.1 ab.2))
        (spans (a :: map Re.m_start ms) (String.length text)).
Proof.
  revert a; induction ms as [|m ms IH]; intros a; simpl.
  - rewrite slice_to_end. reflexivity.
  - rewrite IH. reflexivity.
Qed.

Lemma length_spans starts stop : length (spans starts stop) = length starts.
Proof. induction starts; simpl; congruence. Qed.

Lemma patient_block_texts_spans text :
  patient_block_texts patient_regex text
  = map (fun ab => Str.lstrip_nl (Str.slice text ab.1 ab.2))
        (spans (tag_starts text) (String.length text)).
Proof.
  unfold patient_block_texts, tag_starts.
  destruct (Re.finditer patient_regex text) as [|m ms]; [reflexivity|].
  apply blocks_loop_spans.
Qed.

(** C8.  Block segmentation of a page: the block texts are, in text order, the
    spans of the page's reading-order text from each occurrence of the patient
    tag (its start offset, so the tag is part of the span) to the start of
    the next occurrence, the last span running to the end of the text, each
    with its leading newlines removed; there are exactly as many blocks as
    occurrences (none when there is no occurrence), and the occurrences are
    in strictly increasing offset order. *)
Theorem block_segmentation_spans (page : Page) (doc : Document) (n : nat)
    (g : gmap string Z) :
  let text := get_text page in
  let blocks := extract_patient_blocks_from_page page doc n g in
  map block_text blocks
    = map (fun ab => Str.lstrip_nl (Str.slice text ab.1 ab.2))
          (spans (tag_starts text) (String.length text))
  /\ length blocks = length (tag_starts text)
  /\ StronglySorted lt (tag_starts text).
Proof.
  cbv zeta. unfold extract_patient_blocks_from_page.
  rewrite map_map, length_map. simpl. rewrite map_id.
  rewrite patient_block_texts_spans, length_map, length_spans.
  split; [reflexivity|]. split; [reflexivity|]. apply tag_starts_sorted.
Qed.

(** ** The patient tag needs a newline before it *)

#[local] Arguments Ascii.eqb : simpl never.

Lemma rep_greedy_then_colon (k : nat -> string -> option Re.outcome) s :
  (forall pos s' o, k pos s' = Some o -> exists rest, s' = String ":" rest) ->
  forall pos o,
  Re.rep_greedy Str.is_space k pos s = Some o ->
  exists rest, Str.lstrip s = String ":" rest.
Proof.
  intros Hk. induction s as [|a s IH]; intros pos o H; simpl in H.
  - apply Hk in H. destruct H as [rest H]. discriminate.
  - destruct (Str.is_space a) eqn:Hsp.
    + destruct (Re.rep_greedy _ _ (S pos) s) as [o'|] eqn:Hrec.
      * simpl. rewrite Hsp. eapply IH. exact Hrec.
      * apply Hk in H. destruct H as [rest [= -> _]]. discriminate.
    + apply Hk in H. destruct H as [rest [= -> ->]]. simpl. eauto.
Qed.

(** A match of the patient tag pattern starts on a newline character, and
    "PATIENT", optional whitespace and ":" follow it. *)
Lemma match_at_patient_tag pos s m :
  Re.match_at patient_regex pos s = Some m ->
  exists s', s = String (ascii_of_nat 10) s' /\ starts_with_tag s' = true.
Proof.
  unfold Re.match_at.
  destruct (Re.rmatch _ _ _ _ _) as [o|] eqn:H; [|discriminate]. intros _.
  unfold patient_regex, Patterns.PATIENT_TAG_PATTERN in H. simpl in H.
  destruct s as [|c0 s]; [discriminate|].
  destruct (Str.is_nl c0) eqn:Hnl; [|discriminate].
  apply is_nl_char in Hnl. subst c0. exists s. split; [reflexivity|].
  unfold starts_with_tag.
  repeat (simpl in H;
    match type of H with
    | match ?t with EmptyString => _ | String _ _ => _ end = Some _ =>
        let c := fresh "c" in let E := fresh "E" in
        destruct t as [|c t]; [discriminate|]; simpl in H;
        match type of H with
        | (if ?b then _ else _) = _ => destruct b eqn:E; [|discriminate]
        end;
        simpl; rewrite ?E
    end).
  simpl in H.
  apply rep_greedy_then_colon in H.
  - destruct H as [rest ->]. reflexivity.
  - intros pos' s' o' Hs'. destruct s' as [|x s']; [discriminate|].
    destruct (Ascii.eqb ":" x) eqn:Hx; [|discriminate].
    apply Ascii.eqb_eq in Hx. subst x. eauto.
Qed.

Lemma finditer_from_nil r s : forall pos skip,
  (forall i, Re.match_at r (pos + i) (Str.sdrop i s) = None) ->
  Re.finditer_from r pos s skip = [].
Proof.
  induction s as [|a s IH]; intros pos skip H.
  - destruct skip; simpl; [|reflexivity].
    specialize (H 0). rewrite Nat.add_0_r in H. simpl in H. rewrite H. reflexivity.
  - assert (forall i, Re.match_at r (S pos + i) (Str.sdrop i s) = None) as H'.
    { intros i. specialize (H (S i)). rewrite Nat.add_succ_r in H. exact H. }
    destruct skip as [|n]; simpl.
    + pose proof (H 0) as H0. rewrite Nat.add_0_r in H0. simpl in H0. rewrite H0.
      apply IH, H'.
    + apply IH, H'.
Qed.

Lemma search_from_none r s : forall pos,
  (forall i, Re.match_at r (pos + i) (Str.sdrop i s) = None) ->
  Re.search_from r pos s = None.
Proof.
  induction s as [|a s IH]; intros pos H; simpl.
  - specialize (H 0). rewrite Nat.add_0_r in H. simpl in H. rewrite H. reflexivity.
  - pose proof (H 0) as H0. rewrite Nat.add_0_r in H0. simpl in H0. rewrite H0.
    apply IH. intros i. specialize (H (S i)). rewrite Nat.add_succ_r in H. exact H.
Qed.

Lemma no_tag_match_without_newline text :
  (forall i, tag_occurs_at text i -> i = 0) ->
  forall pos i, Re.match_at patient_regex pos (Str.sdrop i text) = None.
Proof.
  intros H pos i.
  destruct (Re.match_at patient_regex pos (Str.sdrop i text)) as [m|] eqn:E;
    [|reflexivity].
  apply match_at_patient_tag in E. destruct E as (s' & Hs & Htag).
  apply sdrop_S in Hs. subst s'. apply H in Htag. discriminate.
Qed.

(** C10.  When "PATIENT", optional whitespace and ":" stand at the very start
    of a page's reading-order text and nowhere else, the patient tag pattern
    has no match at that occurrence (offset 0 carries no newline), the
    pattern has no match in the text at all, the page contributes no block,
    and the calibration step leaves the geometry variables as they were. *)
Theorem leading_tag_is_no_boundary (page : Page) (doc : Document) (n : nat)
    (g : gmap string Z) :
  tag_occurs_at (get_text page) 0 ->
  (forall i, tag_occurs_at (get_text page) i -> i = 0) ->
  Re.match_at patient_regex 0 (get_text page) = None
  /\ tag_starts (get_text page) = []
  /\ extract_patient_blocks_from_page page doc n g = []
  /\ calibrate page g false = (g, false).
Proof.
  intros H0 Honly.
  pose proof (no_tag_match_without_newline _ Honly) as Hnone.
  assert (Re.finditer patient_regex (get_text page) = []) as Hfind.
  { apply finditer_from_nil. intros i. apply Hnone. }
  split; [exact (Hnone 0 0)|]. split.
  - unfold tag_starts. rewrite Hfind. reflexivity.
  - split.
    + unfold extract_patient_blocks_from_page, patient_block_texts.
      rewrite Hfind. reflexivity.
    + unfold calibrate, Re.search. simpl negb. cbv iota.
      destruct (String.length (get_text page) <? 0) eqn:Hlen; [reflexivity|].
      rewrite search_from_none; [reflexivity|]. intros i. apply Hnone.
Qed.

(** ** Calibration happens once *)

Lemma calibrate_miss page :
  page_profile page = None -> calibrate page ∅ false = (∅, false).
Proof.
  unfold page_profile, calibrate. simpl negb. cbv iota.
  destruct (Re.search patient_regex (get_text page) 0); [|reflexivity]. cbv zeta.
  destruct (bool_decide (extract_page_geometry_coordinates page (get_text page) = ∅))
    eqn:E; [|discriminate].
  apply bool_decide_eq_true in E. rewrite E. reflexivity.
Qed.

Lemma calibrate_hit page g g0 :
  page_profile page = Some g -> calibrate page g0 false = (g, true).
Proof.
  unfold page_profile, calibrate. simpl negb. cbv iota.
  destruct (Re.search patient_regex (get_text page) 0); [|discriminate]. cbv zeta.
  destruct (bool_decide _); [discriminate|]. intros [= <-]. reflexivity.
Qed.

Lemma iterate_pages_frozen doc g pages : forall n,
  iterate_pages doc pages n g true = blocks_with_profile doc g n pages.
Proof.
  induction pages as [|page pages IH]; intros n; simpl; [reflexivity|].
  rewrite IH. reflexivity.
Qed.

Lemma iterate_pages_uncalibrated doc pre rest : forall n,
  Forall (fun p => page_profile p = None) pre ->
  iterate_pages doc (pre ++ rest) n ∅ false
  = blocks_with_profile doc ∅ n pre
    ++ iterate_pages doc rest (n + length pre) ∅ false.
Proof.
  induction pre as [|page pre IH]; intros n Hpre; simpl.
  - rewrite Nat.add_0_r. reflexivity.
  - inversion Hpre as [|? ? Hpage Hpre']; subst.
    rewrite (calibrate_miss _ Hpage), IH by assumption.
    rewrite <- app_assoc, Nat.add_succ_r. reflexivity.
Qed.

Lemma blocks_with_profile_elem doc g pages : forall n b,
  b ∈ blocks_with_profile doc g n pages ->
  geometry_dict b = g /\ n <= page_number b < n + length pages.
Proof.
  induction pages as [|page pages IH]; intros n b Hb; simpl in Hb.
  - inversion Hb.
  - apply elem_of_app in Hb. destruct Hb as [Hb|Hb].
    + unfold extract_patient_blocks_from_page in Hb.
      apply list_elem_of_fmap in Hb. destruct Hb as (t & -> & _). simpl.
      split; [reflexivity | lia].
    + apply IH in Hb. simpl. split; [tauto | lia].
Qed.

(** C6.  Once a page yields a non-empty profile [g] (no page before it
    having yielded one), the blocks of that page and of every later page are
    exactly the blocks the segmenter cuts from those pages, each carrying
    [g], whatever landmarks the later pages show; the blocks of the earlier
    pages carry the empty profile. *)
Theorem profile_frozen_after_first_qualifying_page (pre : list Page) (page : Page)
    (post : list Page) (g : gmap string Z) :
  Forall (fun p => page_profile p = None) pre ->
  page_profile page = Some g ->
  let doc := pre ++ page :: post in
  iterate_all_patient_blocks (Readable doc)
    = Ok (blocks_with_profile doc ∅ 0 pre
          ++ blocks_with_profile doc g (length pre) (page :: post))
  /\ forall blocks b,
       iterate_all_patient_blocks (Readable doc) = Ok blocks ->
       b ∈ blocks -> length pre <= page_number b -> geometry_dict b = g.
Proof.
  intros Hpre Hpage doc.
  assert (iterate_pages doc doc 0 ∅ false
          = blocks_with_profile doc ∅ 0 pre
            ++ blocks_with_profile doc g (length pre) (page :: post)) as Heq.
  { unfold doc at 2. rewrite iterate_pages_uncalibrated by assumption.
    f_equal. simpl. rewrite (calibrate_hit _ _ _ Hpage).
    rewrite iterate_pages_frozen. reflexivity. }
  split.
  - simpl. rewrite Heq. reflexivity.
  - intros blocks b [= <-] Hb Hn. rewrite Heq in Hb.
    apply elem_of_app in Hb. destruct Hb as [Hb|Hb].
    + apply blocks_with_profile_elem in Hb. lia.
    + apply blocks_with_profile_elem in Hb. tauto.
Qed.

(** ** Continuation stitching *)

Lemma stitch_page_regions page bottom crops combined :
  map fst (fst (stitch_page page bottom crops combined)) = map fst crops ++ [page].
Proof. unfold stitch_page. simpl. rewrite map_app. reflexivity. Qed.

Lemma has_landmark_nil page : search_for page "PATIENT:" = [] -> has_landmark page = false.
Proof. unfold has_landmark. intros ->. reflexivity. Qed.

Lemma has_landmark_cons page r l :
  search_for page "PATIENT:" = r :: l -> has_landmark page = true.
Proof. unfold has_landmark. intros ->. reflexivity. Qed.

Lemma stitch_loop_visits doc n crops combined :
  map fst (fst (stitch_loop doc n crops combined))
  = map fst crops
    ++ match list_find (fun p => has_landmark p = true) (drop (S n) doc) with
       | Some (i, _) => take (S i) (drop (S n) doc)
       | None => drop (S n) doc
       end.
Proof.
  funelim (stitch_loop doc n crops combined).
  - rewrite drop_ge by (unfold page_count in *; lia). simpl.
    rewrite app_nil_r. reflexivity.
  - unfold load_page in *. apply lookup_ge_None in Heq.
    unfold page_count in *. lia.
  - rewrite H. rewrite stitch_page_regions.
    unfold load_page in *. rewrite (drop_S _ _ _ Heq0). simpl.
    rewrite (has_landmark_nil _ Heq). rewrite decide_False by discriminate.
    rewrite <- app_assoc. simpl.
    destruct (list_find _ (drop (S (S _)) _)) as [[i y]|]; reflexivity.
  - rewrite stitch_page_regions.
    unfold load_page in *. rewrite (drop_S _ _ _ Heq0). simpl.
    rewrite (has_landmark_cons _ _ _ Heq). rewrite decide_True by reflexivity.
    simpl. rewrite take_0. reflexivity.
Qed.

(** C7.  Continuation stitching is a total function of the document and the
    origin page.  The pages it visits (one crop region is recorded per
    visited page) are the pages after the origin, in order, up to and
    including the first one that shows the landmark "PATIENT:", or all of
    them when none does; so it never visits more than the pages that follow
    the origin, which are fewer than [page_count]. *)
Theorem stitching_stops_at_landmark_or_last_page (doc : Document) (origin : nat) :
  let later := drop (S origin) doc in
  let visited := map fst (fst (get_remaining_patient_block_content doc origin)) in
  visited = match list_find (fun p => has_landmark p = true) later with
            | Some (i, _) => take (S i) later
            | None => later
            end
  /\ length visited <= page_count doc - S origin
  /\ length visited <= page_count doc.
Proof.
  cbv zeta. unfold get_remaining_patient_block_content.
  rewrite stitch_loop_visits. simpl.
  assert (length (drop (S origin) doc) = page_count doc - S origin) as Hlen
    by (unfold page_count; apply length_drop).
  split; [reflexivity|].
  destruct (list_find _ (drop (S origin) doc)) as [[i y]|].
  - rewrite length_take. lia.
  - lia.
Qed.

(** ** The properties at sample inputs *)

Lemma sample_leading_tag_only_at_start i :
  tag_occurs_at (get_text Samples.page_leading_tag) i -> i = 0.
Proof.
  unfold tag_occurs_at. intros H.
  do 13 (destruct i as [|i]; [first [reflexivity | discriminate H]|]).
  discriminate H.
Qed.

Lemma leading_tag_witness :
  tag_occurs_at (get_text Samples.page_leading_tag) 0
  /\ (forall i, tag_occurs_at (get_text Samples.page_leading_tag) i -> i = 0)
  /\ Re.match_at patient_regex 0 (get_text Samples.page_leading_tag) = None
  /\ tag_starts (get_text Samples.page_leading_tag) = []
  /\ extract_patient_blocks_from_page Samples.page_leading_tag
       [Samples.page_leading_tag] 0 ∅ = []
  /\ calibrate Samples.page_leading_tag ∅ false = (∅, false).
Proof.
  split; [reflexivity|].
  split; [exact sample_leading_tag_only_at_start|].
  apply (leading_tag_is_no_boundary Samples.page_leading_tag
           [Samples.page_leading_tag] 0 ∅).
  - reflexivity.
  - exact sample_leading_tag_only_at_start.
Defined.

Lemma profile_frozen_witness :
  Forall (fun p => page_profile p = None) [Samples.page_cover]
  /\ page_profile Samples.page_layout_a = Some Samples.profile_a
  /\ page_profile Samples.page_layout_b <> Some Samples.profile_a
  /\ forall blocks b,
       iterate_all_patient_blocks
         (Readable [Samples.page_cover; Samples.page_layout_a; Samples.page_layout_b])
         = Ok blocks ->
       b ∈ blocks -> 1 <= page_number b -> geometry_dict b = Samples.profile_a.
Proof.
  assert (Forall (fun p => page_profile p = None) [Samples.page_cover]) as Hpre
    by (constructor; [vm_compute; reflexivity | constructor]).
  assert (page_profile Samples.page_layout_a = Some Samples.profile_a) as Hpage
    by (vm_compute; reflexivity).
  split; [exact Hpre|]. split; [exact Hpage|].
  split.
  { intros H. apply (f_equal (fun o => o ≫= (fun g : gmap string Z => g !! "dos_x0"))) in H.
    vm_compute in H. discriminate H. }
  exact (proj2 (profile_frozen_after_first_qualifying_page [Samples.page_cover]
                  Samples.page_layout_a [Samples.page_layout_b] Samples.profile_a
                  Hpre Hpage)).
Defined.

(** ** Extraction across several pages *)

Lemma collect_lines_first_seen lines : forall seen ordered,
  agrees (seen, ordered) ->
  agrees (collect_lines lines seen ordered)
  /\ snd (collect_lines lines seen ordered)
     = fold_left first_seen_step
         (List.filter (fun line => negb (Str.is_empty line)) (map Str.strip lines))
         ordered.
Proof.
  induction lines as [|line lines IH]; intros seen ordered Hagree; simpl.
  - split; [exact Hagree | reflexivity].
  - destruct (Str.is_empty (Str.strip line)) eqn:Hempty; simpl.
    + apply IH, Hagree.
    + unfold first_seen_step at 2.
      destruct (bool_decide (Str.strip line ∉ seen)) eqn:Hseen.
      * apply bool_decide_eq_true in Hseen.
        rewrite bool_decide_eq_false_2 by (intros Hin; apply Hseen, Hagree, Hin).
        apply IH. intros x. simpl. specialize (Hagree x). simpl in Hagree.
        rewrite elem_of_union, elem_of_singleton, elem_of_app, list_elem_of_singleton.
        tauto.
      * apply bool_decide_eq_false in Hseen.
        rewrite bool_decide_eq_true_2.
        -- apply IH, Hagree.
        -- apply Hagree. simpl. destruct (decide (Str.strip line ∈ seen)); tauto.
Qed.

Lemma column_rectangle_ok g left right edge top bottom a b :
  g !! left = Some a -> g !! right = Some b ->
  column_rectangle g left right edge top bottom
  = Ok (mkRect (inject_Z a) top (inject_Z (edge b)) bottom).
Proof.
  intros Ha Hb. unfold column_rectangle, getitem. rewrite Ha. simpl.
  rewrite Hb. reflexivity.
Qed.

Lemma middle_pages_loop_ok g left right edge a b middle :
  g !! left = Some a -> g !! right = Some b ->
  forall state, agrees state ->
  exists state',
    middle_pages_loop g left right edge middle state = Ok state'
    /\ agrees state'
    /\ snd state'
       = fold_left first_seen_step
           (concat (map (fun c => stripped_lines (get_text_clip (fst c) (snd c)))
                        (map (fun c => (fst c, region_clip a b edge false (snd c)))
                             middle)))
           (snd state).
Proof.
  intros Ha Hb. induction middle as [|[page r] middle IH]; intros state Hagree.
  - exists state. simpl. auto.
  - simpl. rewrite (column_rectangle_ok _ _ _ _ _ _ _ _ Ha Hb). simpl.
    destruct state as [seen ordered].
    destruct (collect_lines_first_seen
                (Str.splitlines (get_text_clip page
                   (mkRect (inject_Z a) (y0 r + 20)%Q (inject_Z (edge b)) (y1 r))))
                seen ordered Hagree) as [Hagree' Hsnd].
    destruct (IH _ Hagree') as (state' & Hrun & Hagree'' & Hsnd').
    exists state'. split; [exact Hrun|]. split; [exact Hagree''|].
    rewrite Hsnd', Hsnd, fold_left_app. reflexivity.
Qed.

Lemma last_cons_default {A} (l : list A) : forall x y,
  List.last (y :: l) x = List.last l y.
Proof.
  induction l as [|z l IH]; intros x y; [reflexivity|].
  change (List.last (y :: z :: l) x) with (List.last (z :: l) x).
  rewrite (IH x z), (IH y z). reflexivity.
Qed.

Lemma removelast_last_cons {A} (x : A) l :
  x :: l = removelast (x :: l) ++ [List.last l x].
Proof.
  rewrite <- (last_cons_default l x x).
  apply app_removelast_last. discriminate.
Qed.

Lemma region_clips_snoc a b edge l page r :
  region_clips a b edge (l ++ [(page, r)])
  = map (fun c => (fst c, region_clip a b edge false (snd c))) l
    ++ [(page, region_clip a b edge true r)].
Proof.
  induction l as [|[p q] l IH]; [reflexivity|].
  simpl app at 1. simpl region_clips. rewrite IH.
  destruct l; reflexivity.
Qed.

Lemma extract_column_from_multiple_pages_ok left right edge crops g a b :
  2 <= length crops ->
  g !! left = Some a -> g !! right = Some b ->
  extract_column_from_multiple_pages left right edge crops g
  = Ok (column_value a b edge crops).
Proof.
  intros Hlen Ha Hb.
  destruct crops as [|[first_page first_rectangle] [|second rest]];
    simpl in Hlen; [lia | lia |].
  unfold extract_column_from_multiple_pages, unpack_first_middle_last.
  cbn [mbind result_bind].
  pose proof (removelast_last_cons second rest) as Hsplit.
  set (middle := removelast (second :: rest)) in *. clearbody middle.
  rewrite (column_rectangle_ok _ _ _ _ _ _ _ _ Ha Hb). cbn [mbind result_bind].
  assert (agrees (∅, [])) as H0 by (intros x; simpl; set_solver).
  destruct (collect_lines_first_seen
              (Str.splitlines (get_text_clip first_page
                 (mkRect (inject_Z a) (y0 first_rectangle + 20)%Q
                         (inject_Z (edge b)) (y1 first_rectangle))))
              ∅ [] H0) as [H1 Hs1].
  destruct (middle_pages_loop_ok g left right edge a b middle Ha Hb _ H1)
    as (state & Hrun & H2 & Hs2).
  rewrite Hrun. cbn [mbind result_bind].
  destruct (List.last rest second) as [last_page last_rectangle] eqn:Hlast.
  rewrite (column_rectangle_ok _ _ _ _ _ _ _ _ Ha Hb).
  cbn [mbind result_bind mret result_ret].
  destruct state as [seen ordered].
  destruct (collect_lines_first_seen
              (Str.splitlines (get_text_clip last_page
                 (mkRect (inject_Z a) (y0 last_rectangle + 20)%Q
                         (inject_Z (edge b)) (y1 last_rectangle - 20)%Q)))
              seen ordered H2) as [_ Hs3].
  cbn [fst snd]. rewrite Hs3. cbn [snd] in Hs2. rewrite Hs2, Hs1.
  f_equal. unfold column_value, joined_lines, first_seen. f_equal.
  rewrite Hsplit.
  change (region_clips a b edge
            ((first_page, first_rectangle) :: middle ++ [(last_page, last_rectangle)]))
    with (region_clips a b edge
            (((first_page, first_rectangle) :: middle)
             ++ [(last_page, last_rectangle)])).
  rewrite region_clips_snoc, map_app, concat_app, fold_left_app.
  simpl. rewrite ?app_nil_r, !fold_left_app. reflexivity.
Qed.

(** A list of one crop region cannot be unpacked into a first and a last
    element: the extraction raises, whatever the profile. *)
Lemma single_region_unpack_fails left right edge c g :
  extract_column_from_multiple_pages left right edge [c] g = Raise ValueError.
Proof. reflexivity. Qed.

(** C4 (as amended).  For a continuation block with at least two recorded
    crop regions and a profile that holds the six column keys, each of the
    three geometry-derived fields is the comma-joined list of the distinct
    non-empty stripped lines, in first-seen order across the regions, read
    inside the field's column bounds on every recorded region, where the top
    of every region is moved down by 20 and the bottom of the last region is
    moved up by 20. *)
Theorem multi_page_extraction_clips (crops : list CropRegion) (g : gmap string Z)
    (dos_x0 dos_x1 adj_x0 adj_x1 mod_x0 mod_x1 : Z) :
  2 <= length crops ->
  g !! "dos_x0" = Some dos_x0 -> g !! "dos_x1" = Some dos_x1 ->
  g !! "adj_x0" = Some adj_x0 -> g !! "adj_x1" = Some adj_x1 ->
  g !! "mod_x0" = Some mod_x0 -> g !! "mod_x1" = Some mod_x1 ->
  extract_dates_of_service_from_multiple_pages crops g
    = Ok (column_value dos_x0 dos_x1 dos_edge crops)
  /\ extract_service_codes_from_multiple_pages crops g
    = Ok (column_value adj_x0 adj_x1 id crops)
  /\ extract_modifiers_from_multiple_pages crops g
    = Ok (column_value mod_x0 mod_x1 id crops).
Proof.
  intros Hlen Hd0 Hd1 Ha0 Ha1 Hm0 Hm1.
  unfold extract_dates_of_service_from_multiple_pages,
    extract_service_codes_from_multiple_pages, extract_modifiers_from_multiple_pages.
  repeat split; apply extract_column_from_multiple_pages_ok; assumption.
Qed.

Lemma multi_page_extraction_witness :
  2 <= length Samples.crops_two
  /\ extract_dates_of_service_from_multiple_pages Samples.crops_two Samples.profile_full
     = Ok "0101,0102"
  /\ extract_service_codes_from_multiple_pages Samples.crops_two Samples.profile_full
     = Ok "0101,0102"
  /\ extract_modifiers_from_multiple_pages Samples.crops_two Samples.profile_full
     = Ok "0101,0102".
Proof.
  split; [simpl; lia|].
  exact (multi_page_extraction_clips Samples.crops_two Samples.profile_full
           70 160 198 270 280 350 (le_n 2)
           eq_refl eq_refl eq_refl eq_refl eq_refl eq_refl).
Defined.

(** The reading of the specification, with the top of a region that is not
    the first left where it is, differs from the code on two regions: the
    code reads the second region from 20 below its top and so leaves out the
    line that lies there. *)
Lemma multi_page_clip_counterexample :
  Samples.crops_two <> []
  /\ Samples.profile_full !! "dos_x0" = Some 70%Z
  /\ Samples.profile_full !! "dos_x1" = Some 160%Z
  /\ extract_dates_of_service_from_multiple_pages Samples.crops_two Samples.profile_full
     = Ok "0101,0102"
  /\ claimed_column_value 70 160 dos_edge Samples.crops_two = "0101,0102,CLAIM STATUS"
  /\ extract_dates_of_service_from_multiple_pages Samples.crops_two Samples.profile_full
     <> Ok (claimed_column_value 70 160 dos_edge Samples.crops_two).
Proof.
  split; [discriminate|].
  split; [reflexivity|]. split; [reflexivity|].
  split; [vm_compute; reflexivity|]. split; [vm_compute; reflexivity|].
  vm_compute. discriminate.
Qed.

(** ** Records *)

Lemma update_matches_lookup_other table text k : forall d,
  k ∉ columns table -> update_matches table text d !! k = d !! k.
Proof.
  unfold update_matches, columns.
  induction table as [|[column pattern] table IH]; intros d Hk; simpl; [reflexivity|].
  simpl in Hk. rewrite not_elem_of_cons in Hk. destruct Hk as [Hne Hk].
  rewrite IH by exact Hk.
  destruct (capture pattern text); [|reflexivity].
  apply lookup_insert_ne. congruence.
Qed.

Lemma assign_matches_lookup_other table text k : forall d,
  k ∉ columns table -> assign_matches table text d !! k = d !! k.
Proof.
  unfold assign_matches, columns.
  induction table as [|[column pattern] table IH]; intros d Hk; simpl; [reflexivity|].
  simpl in Hk. rewrite not_elem_of_cons in Hk. destruct Hk as [Hne Hk].
  rewrite IH by exact Hk. apply lookup_insert_ne. congruence.
Qed.

Lemma blank_record_lookup_other table k :
  k ∉ columns table -> blank_record table !! k = None.
Proof.
  unfold blank_record, columns. intros Hk.
  rewrite <- (lookup_empty (M := gmap string) (A := string) k).
  generalize (∅ : gmap string string).
  induction table as [|[column pattern] table IH]; intros d0; simpl; [reflexivity|].
  simpl in Hk. rewrite not_elem_of_cons in Hk. destruct Hk as [Hne Hk].
  rewrite IH by exact Hk. apply lookup_insert_ne. congruence.
Qed.

Lemma claim_number_lookup text d :
  getfield (assign_matches Patterns.CLAIM_REFERENCE_PATTERNS text d) "Claim Number"
  = Ok (claim_number_of text).
Proof.
  unfold assign_matches, getfield. simpl.
  rewrite lookup_insert_ne by discriminate. rewrite lookup_insert_eq. reflexivity.
Qed.

Lemma orig_ref_num_lookup text d :
  getfield (assign_matches Patterns.CLAIM_REFERENCE_PATTERNS text d) "Orig Ref Num"
  = Ok (orig_ref_num_of text).
Proof.
  unfold assign_matches, getfield. simpl. rewrite lookup_insert_eq. reflexivity.
Qed.

Lemma geometry_key_not_pattern_column k :
  k ∈ ["Date Of Service"; "Service Code"; "Modifier"] ->
  (k ∉ columns Patterns.FIELD_EXTRACTION_PATTERNS)
  /\ (k ∉ columns Patterns.CLAIM_REFERENCE_PATTERNS)
  /\ (k ∉ columns Patterns.HEADER_FIELD_PATTERNS).
Proof.
  intros Hk. repeat (apply elem_of_cons in Hk; destruct Hk as [->|Hk]);
    [| | |inversion Hk];
    (split; [|split]); apply (bool_decide_unpack _); vm_compute; exact I.
Qed.

(** A key outside the three pattern tables is in the final record what it
    is in the block's record. *)
Lemma final_record_lookup page_text text bd k :
  k ∉ columns Patterns.FIELD_EXTRACTION_PATTERNS ->
  k ∉ columns Patterns.HEADER_FIELD_PATTERNS ->
  (extract_header_field_information page_text
   ∪ update_matches Patterns.FIELD_EXTRACTION_PATTERNS text bd) !! k = bd !! k.
Proof.
  intros Hf Hh. rewrite lookup_union_r.
  - apply update_matches_lookup_other, Hf.
  - unfold extract_header_field_information.
    rewrite update_matches_lookup_other by exact Hh.
    apply blank_record_lookup_other, Hh.
Qed.

Lemma getitem_empty k : getitem ∅ k = Raise (KeyError k).
Proof. unfold getitem. rewrite lookup_empty. reflexivity. Qed.

(** The rectangle of a single-page block is never the all-zero rectangle. *)
Lemma create_claim_block_crop_rectangle_truthy page claim orig r :
  create_claim_block_crop_rectangle page claim orig = Some r -> Rect_bool r = true.
Proof.
  unfold create_claim_block_crop_rectangle.
  destruct (search_for page claim) as [|claim_hit hits]; [discriminate|].
  match goal with
  | |- match ?bottom with Some _ => _ | None => _ end = _ -> _ =>
      destruct bottom as [bottom_y|]; [|discriminate]
  end.
  destruct (Qle_bool bottom_y _) eqn:Hle; [discriminate|].
  intros [= <-]. unfold Rect_bool. simpl.
  destruct (Qeq_bool (inject_Z (int (y1 claim_hit) + 30)) 0) eqn:Htop;
    [|reflexivity].
  destruct (Qeq_bool (calculate_real_page_width page 0) 0); [|reflexivity].
  destruct (Qeq_bool bottom_y 0) eqn:Hbottom; [|reflexivity].
  apply Qeq_bool_iff in Htop, Hbottom.
  assert (Qle_bool bottom_y (inject_Z (int (y1 claim_hit) + 30)) = true) as Hc.
  { apply Qle_bool_iff. rewrite Htop, Hbottom. apply Qle_refl. }
  congruence.
Qed.

(** ** One block *)

Lemma multi_page_no_regions b bd :
  continuation_regions b = [] ->
  process_multi_page_block b bd
  = Ok (continuation_text b,
        <["Modifier" := ""]> (<["Service Code" := ""]> (<["Date Of Service" := ""]>
          (assign_matches Patterns.CLAIM_REFERENCE_PATTERNS (continuation_text b) bd)))).
Proof.
  unfold continuation_regions, continuation_text, process_multi_page_block.
  destruct (get_remaining_patient_block_content (document b) (page_number b))
    as [rectangle_list remaining]. simpl fst. simpl snd.
  intros Hnil. rewrite Hnil. rewrite claim_number_lookup. reflexivity.
Qed.

Lemma extract_column_empty_profile left right edge c crops :
  exists e, extract_column_from_multiple_pages left right edge (c :: crops) ∅ = Raise e.
Proof.
  destruct crops as [|c2 crops].
  - exists ValueError. reflexivity.
  - exists (KeyError left). destruct c as [page r].
    unfold extract_column_from_multiple_pages, unpack_first_middle_last.
    cbn [mbind result_bind]. unfold column_rectangle. rewrite getitem_empty.
    reflexivity.
Qed.

Lemma multi_page_regions_raise b bd :
  geometry_dict b = ∅ -> continuation_regions b <> [] ->
  exists e, process_multi_page_block b bd = Raise e.
Proof.
  unfold continuation_regions, process_multi_page_block.
  destruct (get_remaining_patient_block_content (document b) (page_number b))
    as [rectangle_list remaining]. simpl fst.
  intros Hg Hregions. rewrite claim_number_lookup. cbn [mbind result_bind].
  destruct (_ ++ rectangle_list) as [|c crops]; [congruence|].
  rewrite Hg. unfold extract_dates_of_service_from_multiple_pages.
  destruct (extract_column_empty_profile "dos_x0" "dos_x1" dos_edge c crops)
    as [e ->].
  exists e. reflexivity.
Qed.

Lemma single_page_no_rectangle set_order b bd :
  single_page_rectangle b = None ->
  process_single_page_block set_order b bd
  = Ok (block_text b,
        assign_matches Patterns.CLAIM_REFERENCE_PATTERNS (block_text b) bd).
Proof.
  unfold single_page_rectangle, process_single_page_block. intros Hnone.
  rewrite claim_number_lookup. cbn [mbind result_bind].
  rewrite orig_ref_num_lookup. cbn [mbind result_bind].
  rewrite Hnone. reflexivity.
Qed.

Lemma single_page_rectangle_raise set_order b bd r :
  geometry_dict b = ∅ -> single_page_rectangle b = Some r ->
  process_single_page_block set_order b bd = Raise (KeyError "dos_x0").
Proof.
  unfold single_page_rectangle, process_single_page_block. intros Hg Hsome.
  rewrite claim_number_lookup. cbn [mbind result_bind].
  rewrite orig_ref_num_lookup. cbn [mbind result_bind].
  rewrite Hsome. rewrite (create_claim_block_crop_rectangle_truthy _ _ _ _ Hsome).
  rewrite Hg. unfold extract_patient_dates_of_service, column_rectangle.
  rewrite getitem_empty. reflexivity.
Qed.

Lemma claim_number_survives text bd :
  getfield (update_matches Patterns.FIELD_EXTRACTION_PATTERNS text bd) "Claim Number"
  = getfield bd "Claim Number".
Proof.
  unfold getfield. rewrite update_matches_lookup_other; [reflexivity|].
  apply (bool_decide_unpack _). vm_compute. exact I.
Qed.

(** A single-page block whose crop rectangle does not resolve yields one
    record, and the record holds none of the three geometry-derived keys. *)
Lemma single_page_unresolved_record set_order b :
  is_continuation b = false -> single_page_rectangle b = None ->
  exists r, process_individual_patient_block set_order b = Ok [r]
            /\ geometry_fields_absent r.
Proof.
  unfold is_continuation, process_individual_patient_block. intros Hc Hnone.
  destruct (Re.search patient_response_regex (block_text b) Patterns.DOTALL);
    [|discriminate].
  rewrite (single_page_no_rectangle _ _ _ Hnone). cbn [mbind result_bind].
  rewrite claim_number_survives, claim_number_lookup.
  cbn [mbind result_bind mret result_ret].
  eexists. split; [reflexivity|].
  unfold geometry_fields_absent.
  repeat split;
    (rewrite final_record_lookup;
     [rewrite assign_matches_lookup_other;
      [apply blank_record_lookup_other|] |..];
     apply (bool_decide_unpack _); vm_compute; exact I).
Qed.

(** A continuation block without any crop region yields one record, and the
    three geometry-derived fields of the record are the empty string. *)
Lemma continuation_without_regions_record set_order b :
  is_continuation b = true -> continuation_regions b = [] ->
  exists r, process_individual_patient_block set_order b = Ok [r]
            /\ geometry_fields_blank r.
Proof.
  unfold is_continuation, process_individual_patient_block. intros Hc Hnil.
  destruct (Re.search patient_response_regex (block_text b) Patterns.DOTALL);
    [discriminate|].
  rewrite (multi_page_no_regions _ _ Hnil). cbn [mbind result_bind].
  rewrite claim_number_survives. unfold getfield at 1.
  rewrite !lookup_insert_ne by discriminate.
  fold (getfield (assign_matches Patterns.CLAIM_REFERENCE_PATTERNS
                    (continuation_text b)
                    (blank_record Patterns.FIELD_EXTRACTION_PATTERNS))
                 "Claim Number").
  rewrite claim_number_lookup. cbn [mbind result_bind mret result_ret].
  eexists. split; [reflexivity|].
  unfold geometry_fields_blank.
  repeat split;
    (rewrite final_record_lookup;
     [| apply (bool_decide_unpack _); vm_compute; exact I ..]).
  - rewrite !lookup_insert_ne by discriminate. apply lookup_insert_eq.
  - rewrite lookup_insert_ne by discriminate. apply lookup_insert_eq.
  - apply lookup_insert_eq.
Qed.

(** With an empty profile a block that has a crop region to read raises. *)
Lemma resolved_region_raises set_order b :
  geometry_dict b = ∅ -> resolves_crop_region b = true ->
  exists e, process_individual_patient_block set_order b = Raise e.
Proof.
  unfold resolves_crop_region, is_continuation, process_individual_patient_block.
  intros Hg Hres.
  destruct (Re.search patient_response_regex (block_text b) Patterns.DOTALL)
    as [marker|].
  - destruct (single_page_rectangle b) as [r|] eqn:Hrect; [|discriminate].
    rewrite (single_page_rectangle_raise _ _ _ _ Hg Hrect). eexists. reflexivity.
  - destruct (continuation_regions b) eqn:Hregions; [discriminate|].
    destruct (multi_page_regions_raise b
                (blank_record Patterns.FIELD_EXTRACTION_PATTERNS) Hg) as [e ->].
    + congruence.
    + exists e. reflexivity.
Qed.

Lemma unresolved_region_record set_order b :
  resolves_crop_region b = false ->
  exists r, process_individual_patient_block set_order b = Ok [r]
            /\ (is_continuation b = true -> geometry_fields_blank r).
Proof.
  unfold resolves_crop_region. intros Hres.
  destruct (is_continuation b) eqn:Hc.
  - destruct (continuation_regions b) eqn:Hregions; [|discriminate].
    destruct (continuation_without_regions_record set_order b Hc Hregions)
      as (r & Hrun & Hblank).
    exists r. auto.
  - destruct (single_page_rectangle b) eqn:Hrect; [discriminate|].
    destruct (single_page_unresolved_record set_order b Hc Hrect) as (r & Hrun & _).
    exists r. split; [exact Hrun | discriminate].
Qed.

(** ** A run on a document without landmarks *)

Lemma process_blocks_empty_profile set_order blocks :
  Forall (fun b => geometry_dict b = ∅) blocks ->
  forall acc,
  (Forall (fun b => resolves_crop_region b = false) blocks ->
   exists rows,
     process_blocks set_order blocks acc = Ok (acc ++ rows)
     /\ Forall2 (fun b r => is_continuation b = true -> geometry_fields_blank r)
                blocks rows)
  /\ (Exists (fun b => resolves_crop_region b = true) blocks ->
      exists e, process_blocks set_order blocks acc = Raise e).
Proof.
  induction 1 as [|b blocks Hg Hgs IH]; intros acc.
  - split.
    + intros _. exists []. rewrite app_nil_r. split; [reflexivity | constructor].
    + intros Hex. inversion Hex.
  - split.
    + intros Hall. inversion Hall as [|? ? Hb Hrest]; subst.
      destruct (unresolved_region_record set_order b Hb) as (r & Hrun & Hr).
      destruct (proj1 (IH (acc ++ [r])) Hrest) as (rows & Hruns & Hrows).
      exists (r :: rows). simpl. rewrite Hrun. cbn [mbind result_bind].
      rewrite Hruns, <- app_assoc. split; [reflexivity|].
      constructor; assumption.
    + intros Hex. simpl.
      destruct (resolves_crop_region b) eqn:Hb.
      * destruct (resolved_region_raises set_order b Hg Hb) as [e ->].
        exists e. reflexivity.
      * destruct (unresolved_region_record set_order b Hb) as (r & -> & _).
        cbn [mbind result_bind]. apply IH.
        inversion Hex as [? ? Hhead|? ? Htail]; subst; [congruence | exact Htail].
Qed.

Lemma iterate_pages_empty_profile doc pages n :
  Forall (fun p => page_profile p = None) pages ->
  iterate_pages doc pages n ∅ false = blocks_with_profile doc ∅ n pages.
Proof.
  intros Hpages.
  rewrite <- (app_nil_r pages) at 1.
  rewrite iterate_pages_uncalibrated by exact Hpages.
  simpl. apply app_nil_r.
Qed.

(** C1 (as amended).  In a document in which calibration resolves no
    landmark every block carries the empty profile.  The run then completes
    without raising when no block has a crop region to read (no crop region
    is recorded for a continuation block, no crop rectangle resolves for a
    single-page block); it emits one record per block, and in the record of
    every continuation block the three geometry-derived fields are the empty
    string.  When some block has a crop region to read, the run raises. *)
Theorem empty_profile_run (set_order : list string -> list string) (doc : Document) :
  Forall (fun p => page_profile p = None) doc ->
  exists blocks,
    iterate_all_patient_blocks (Readable doc) = Ok blocks
    /\ Forall (fun b => geometry_dict b = ∅) blocks
    /\ (Forall (fun b => resolves_crop_region b = false) blocks ->
        exists rows,
          process_pdf_and_create_dataframe set_order (Readable doc) = Ok rows
          /\ Forall2 (fun b r => is_continuation b = true -> geometry_fields_blank r)
                     blocks rows)
    /\ (Exists (fun b => resolves_crop_region b = true) blocks ->
        exists e, process_pdf_and_create_dataframe set_order (Readable doc) = Raise e).
Proof.
  intros Hdoc. exists (blocks_with_profile doc ∅ 0 doc).
  assert (Forall (fun b => geometry_dict b = ∅) (blocks_with_profile doc ∅ 0 doc))
    as Hempty.
  { apply Forall_forall. intros b Hb. apply blocks_with_profile_elem in Hb. tauto. }
  split; [|split; [exact Hempty|]].
  - simpl. rewrite iterate_pages_empty_profile by exact Hdoc. reflexivity.
  - unfold process_pdf_and_create_dataframe. simpl.
    rewrite iterate_pages_empty_profile by exact Hdoc. cbn [mbind result_bind].
    exact (process_blocks_empty_profile set_order _ Hempty []).
Qed.

Lemma empty_profile_run_witness :
  Forall (fun p => page_profile p = None) [Samples.page_open_block]
  /\ is_ok (process_pdf_and_create_dataframe first_seen
              (Readable [Samples.page_open_block])) = true
  /\ exists blocks,
       iterate_all_patient_blocks (Readable [Samples.page_open_block]) = Ok blocks
       /\ Forall (fun b => geometry_dict b = ∅) blocks
       /\ (Forall (fun b => resolves_crop_region b = false) blocks ->
           exists rows,
             process_pdf_and_create_dataframe first_seen
               (Readable [Samples.page_open_block]) = Ok rows
             /\ Forall2 (fun b r => is_continuation b = true -> geometry_fields_blank r)
                        blocks rows)
       /\ (Exists (fun b => resolves_crop_region b = true) blocks ->
           exists e, process_pdf_and_create_dataframe first_seen
                       (Readable [Samples.page_open_block]) = Raise e).
Proof.
  assert (Forall (fun p => page_profile p = None) [Samples.page_open_block]) as H
    by (constructor; [vm_compute; reflexivity | constructor]).
  split; [exact H|]. split; [vm_compute; reflexivity|].
  exact (empty_profile_run first_seen [Samples.page_open_block] H).
Defined.

(** A document without landmarks whose block resolves its crop rectangle:
    the profile stays empty and the run raises on the missing key. *)
Lemma empty_profile_counterexample :
  Forall (fun p => page_profile p = None) [Samples.page_no_landmarks]
  /\ process_pdf_and_create_dataframe first_seen (Readable [Samples.page_no_landmarks])
     = Raise (KeyError "dos_x0").
Proof.
  split.
  - constructor; [vm_compute; reflexivity | constructor].
  - vm_compute. reflexivity.
Qed.

(** ** Records without the geometry-derived keys *)

(** C2, at a block the code handles otherwise.  The document has one
    calibrated page with one closed block whose claim number the spatial
    search does not find.  One record is emitted; it holds the tag-based,
    claim-reference and header keys, and none of "Date Of Service", "Service
    Code" and "Modifier". *)
Theorem closed_block_record_lacks_geometry_keys (set_order : list string -> list string) :
  match process_pdf_and_create_dataframe set_order
          (Readable [Samples.page_claim_not_found]) with
  | Ok [r] =>
      geometry_fields_absent r
      /\ r !! "Claim Number" = Some "A1"
      /\ r !! "Patient Name" = Some "DOE JOHN"
      /\ r !! "CLAIM STATUS" = Some "PAID"
      /\ size r = 17
  | _ => False
  end.
Proof. vm_compute. repeat split; reflexivity. Qed.

(** C5, at a block the code handles otherwise.  The closed block's claim
    number is found on the page, so the top bound is 140; no reference
    number and no next claim resolve, and the lowest "PAT RESP:" lies at 130,
    not below the top.  The crop rectangle is not created and the run does
    not fail, but the emitted record holds none of the three geometry-derived
    keys instead of holding them with the empty string. *)
Theorem skipped_extraction_leaves_keys_out (set_order : list string -> list string) :
  search_for Samples.page_tight_block "A1" <> []
  /\ create_claim_block_crop_rectangle Samples.page_tight_block "A1" "" = None
  /\ match process_pdf_and_create_dataframe set_order
             (Readable [Samples.page_tight_block]) with
     | Ok [r] => r !! "Claim Number" = Some "A1" /\ geometry_fields_absent r
     | _ => False
     end.
Proof.
  split; [vm_compute; discriminate|]. split; [vm_compute; reflexivity|].
  vm_compute. repeat split; reflexivity.
Qed.

(** The bound from the next claim number is passed over when it computes to
    zero: [or] takes it for a missing value, and the bound from "PAT RESP:"
    is used although the second priority resolved. *)
Lemma next_claim_bound_zero_is_passed_over :
  get_bottom_coordinate_by_next_claim Samples.page_next_claim_at_top "A1" = Some 0%Z
  /\ find_bottom_of_last_patient_response Samples.page_next_claim_at_top "A1"
     = Some (inject_Z 500)
  /\ create_claim_block_crop_rectangle Samples.page_next_claim_at_top "A1" ""
     = Some (mkRect 0 (inject_Z 140) 612 (inject_Z 500)).
Proof. repeat split; vm_compute; reflexivity. Qed.

(** ** Which exceptions a run raises *)

Lemma raises_only_ok {A} P (a : A) : raises_only P (Ok a).
Proof. intros e H. discriminate. Qed.

Lemma raises_only_raise {A} (P : exn -> Prop) e : P e -> raises_only P (@Raise A e).
Proof. intros HP e' [= <-]. exact HP. Qed.

Lemma raises_only_bind {A B} P (m : result A) (f : A -> result B) :
  raises_only P m -> (forall a, raises_only P (f a)) -> raises_only P (m ≫= f).
Proof.
  intros Hm Hf e. destruct m as [a|e0]; simpl.
  - apply Hf.
  - intros [= <-]. apply Hm. reflexivity.
Qed.

Lemma raises_only_getitem d k : raises_only not_open_failure (getitem d k).
Proof.
  unfold getitem. destruct (d !! k).
  - apply raises_only_ok.
  - apply raises_only_raise. discriminate.
Qed.

Lemma raises_only_getfield d k : raises_only not_open_failure (getfield d k).
Proof.
  unfold getfield. destruct (d !! k).
  - apply raises_only_ok.
  - apply raises_only_raise. discriminate.
Qed.

Ltac raises_step :=
  first
    [ apply raises_only_ok
    | apply raises_only_getitem
    | apply raises_only_getfield
    | apply raises_only_bind; [|intros ?] ].

Lemma raises_only_column_rectangle g left right edge top bottom :
  raises_only not_open_failure (column_rectangle g left right edge top bottom).
Proof. unfold column_rectangle. repeat raises_step. Qed.

Lemma raises_only_middle_pages_loop g left right edge middle : forall state,
  raises_only not_open_failure (middle_pages_loop g left right edge middle state).
Proof.
  induction middle as [|[page r] middle IH]; intros state; simpl.
  - apply raises_only_ok.
  - apply raises_only_bind; [apply raises_only_column_rectangle|].
    intros clip. apply IH.
Qed.

Lemma raises_only_extract_column left right edge crops g :
  raises_only not_open_failure
    (extract_column_from_multiple_pages left right edge crops g).
Proof.
  unfold extract_column_from_multiple_pages.
  destruct crops as [|c crops]; [apply raises_only_ok|].
  apply raises_only_bind.
  - unfold unpack_first_middle_last. destruct crops.
    + apply raises_only_raise. discriminate.
    + apply raises_only_ok.
  - intros [[[first_page first_rectangle] middle] [last_page last_rectangle]].
    apply raises_only_bind; [apply raises_only_column_rectangle|]. intros c1.
    apply raises_only_bind; [apply raises_only_middle_pages_loop|]. intros st.
    apply raises_only_bind; [apply raises_only_column_rectangle|]. intros c2.
    apply raises_only_ok.
Qed.

Lemma raises_only_multi_page_block b bd :
  raises_only not_open_failure (process_multi_page_block b bd).
Proof.
  unfold process_multi_page_block.
  destruct (get_remaining_patient_block_content _ _) as [rectangle_list remaining].
  apply raises_only_bind; [apply raises_only_getfield|]. intros cn.
  apply raises_only_bind; [apply raises_only_extract_column|]. intros v1.
  apply raises_only_bind; [apply raises_only_extract_column|]. intros v2.
  apply raises_only_bind; [apply raises_only_extract_column|]. intros v3.
  apply raises_only_ok.
Qed.

Lemma raises_only_dates_of_service page r g :
  raises_only not_open_failure (extract_patient_dates_of_service page r g).
Proof.
  unfold extract_patient_dates_of_service.
  apply raises_only_bind; [apply raises_only_column_rectangle|].
  intros clip. apply raises_only_ok.
Qed.

Lemma raises_only_set_column set_order left right page r g :
  raises_only not_open_failure (extract_set_column set_order left right page r g).
Proof.
  unfold extract_set_column.
  apply raises_only_bind; [apply raises_only_column_rectangle|].
  intros clip. apply raises_only_ok.
Qed.

Lemma raises_only_single_page_block set_order b bd :
  raises_only not_open_failure (process_single_page_block set_order b bd).
Proof.
  unfold process_single_page_block.
  apply raises_only_bind; [apply raises_only_getfield|]. intros cn.
  apply raises_only_bind; [apply raises_only_getfield|]. intros orn.
  destruct (create_claim_block_crop_rectangle _ _ _) as [r|];
    [|apply raises_only_ok].
  destruct (Rect_bool r); [|apply raises_only_ok].
  apply raises_only_bind; [apply raises_only_dates_of_service|]. intros v1.
  apply raises_only_bind; [apply raises_only_set_column|]. intros v2.
  apply raises_only_bind; [apply raises_only_set_column|]. intros v3.
  apply raises_only_ok.
Qed.

Lemma raises_only_block set_order b :
  raises_only not_open_failure (process_individual_patient_block set_order b).
Proof.
  unfold process_individual_patient_block.
  apply raises_only_bind.
  - destruct (Re.search _ _ _).
    + apply raises_only_single_page_block.
    + apply raises_only_multi_page_block.
  - intros [text bd]. apply raises_only_bind; [apply raises_only_getfield|].
    intros cn. apply raises_only_ok.
Qed.

Lemma raises_only_blocks set_order blocks : forall acc,
  raises_only not_open_failure (process_blocks set_order blocks acc).
Proof.
  induction blocks as [|b blocks IH]; intros acc; simpl.
  - apply raises_only_ok.
  - apply raises_only_bind; [apply raises_only_block|]. intros rows. apply IH.
Qed.

(** C3 (as amended).  A run on a path where no file exists completes
    normally with the empty record sequence (only a message is printed); a
    run on a file that exists and cannot be opened raises the error of the
    document library to the caller and yields no records; and a run on a
    document that opens never raises that error. *)
Theorem open_failure_outcomes (set_order : list string -> list string) :
  process_pdf_and_create_dataframe set_order Missing = Ok []
  /\ process_pdf_and_create_dataframe set_order Unreadable = Raise FileDataError
  /\ forall doc,
       process_pdf_and_create_dataframe set_order (Readable doc) <> Raise FileDataError.
Proof.
  split; [reflexivity|]. split; [reflexivity|].
  intros doc Hraise. unfold process_pdf_and_create_dataframe in Hraise.
  simpl in Hraise. apply raises_only_blocks in Hraise. apply Hraise. reflexivity.
Qed.

(** A run on a path where no file exists is not aborted, and a run on a
    document that opens can still be aborted by a [KeyError]. *)
Lemma open_failure_counterexample :
  process_pdf_and_create_dataframe first_seen Missing = Ok []
  /\ process_pdf_and_create_dataframe first_seen (Readable [Samples.page_no_landmarks])
     = Raise (KeyError "dos_x0").
Proof. split; [reflexivity | vm_compute; reflexivity]. Qed.

(** * Further properties of the parser *)

(** ** The order in which sets are enumerated *)

Lemma first_seen_fold l : forall acc,
  NoDup acc ->
  NoDup (fold_left first_seen_step l acc)
  /\ forall x, x ∈ fold_left first_seen_step l acc <-> x ∈ acc \/ x ∈ l.
Proof.
  induction l as [|y l IH]; intros acc Hacc; simpl.
  - split; [exact Hacc|]. intros x. rewrite elem_of_nil. tauto.
  - unfold first_seen_step at 2 4. destruct (bool_decide (y ∈ acc)) eqn:Hy.
    + apply bool_decide_eq_true in Hy.
      destruct (IH acc Hacc) as [Hnd Hin]. split; [exact Hnd|].
      intros x. rewrite Hin, elem_of_cons.
      split; [tauto|]. intros [H|[->|H]]; tauto.
    + apply bool_decide_eq_false in Hy.
      assert (NoDup (acc ++ [y])) as Hacc'.
      { apply NoDup_app. split; [exact Hacc|]. split.
        - intros z Hz Hz'. apply list_elem_of_singleton in Hz'. subst. tauto.
        - apply NoDup_singleton. }
      destruct (IH _ Hacc') as [Hnd Hin]. split; [exact Hnd|].
      intros x. rewrite Hin, elem_of_app, list_elem_of_singleton, elem_of_cons.
      tauto.
Qed.

Lemma first_seen_valid : valid_set_order first_seen.
Proof.
  intros l. unfold first_seen.
  destruct (first_seen_fold l [] (NoDup_nil_2)) as [Hnd Hin].
  split; [exact Hnd|]. intros x. rewrite Hin, elem_of_nil. tauto.
Qed.

Lemma reversed_first_seen_valid : valid_set_order reversed_first_seen.
Proof.
  intros l. unfold reversed_first_seen. destruct (first_seen_valid l) as [Hnd Hin].
  split.
  - apply NoDup_ListNoDup. apply List.NoDup_rev. apply NoDup_ListNoDup. exact Hnd.
  - intros x. rewrite <- Hin. rewrite !list_elem_of_In. symmetry. apply List.in_rev.
Qed.

Lemma valid_set_orders_permutation o1 o2 l :
  valid_set_order o1 -> valid_set_order o2 -> o1 l ≡ₚ o2 l.
Proof.
  intros H1 H2. destruct (H1 l) as [Hnd1 Hin1]. destruct (H2 l) as [Hnd2 Hin2].
  apply NoDup_Permutation; [exact Hnd1 | exact Hnd2|].
  intros x. rewrite Hin1, Hin2. reflexivity.
Qed.

Section SetOrder.

Variables o1 o2 : list string -> list string.
Variable I : list string -> list string -> Prop.
Hypothesis enumerations_related : forall l, I (o1 l) (o2 l).

Lemma same_up_to_items_refl d : same_up_to_items I d d.
Proof. intros k. left. reflexivity. Qed.

Lemma same_up_to_items_insert column value d1 d2 :
  same_up_to_items I d1 d2 ->
  same_up_to_items I (<[column := value]> d1) (<[column := value]> d2).
Proof.
  intros H k. destruct (decide (column = k)) as [->|Hne].
  - left. rewrite !lookup_insert_eq. reflexivity.
  - rewrite !lookup_insert_ne by exact Hne. apply H.
Qed.

Lemma same_up_to_items_update table text : forall d1 d2,
  same_up_to_items I d1 d2 ->
  same_up_to_items I (update_matches table text d1) (update_matches table text d2).
Proof.
  unfold update_matches.
  induction table as [|[column pattern] table IH]; intros d1 d2 H; simpl; [exact H|].
  apply IH. destruct (capture pattern text); [|exact H].
  apply same_up_to_items_insert, H.
Qed.

Lemma same_up_to_items_union (h d1 d2 : gmap string string) :
  same_up_to_items I d1 d2 -> same_up_to_items I (h ∪ d1) (h ∪ d2).
Proof.
  intros H k. destruct (h !! k) as [x|] eqn:Hk.
  - left. rewrite !(lookup_union_Some_l _ _ _ _ Hk). reflexivity.
  - rewrite !(lookup_union_r _ _ _ Hk). apply H.
Qed.

Lemma same_up_to_items_set_columns d v1 v2 w1 w2 :
  I v1 v2 -> I w1 w2 ->
  same_up_to_items I
    (<["Modifier" := Str.join "," w1]> (<["Service Code" := Str.join "," v1]> d))
    (<["Modifier" := Str.join "," w2]> (<["Service Code" := Str.join "," v2]> d)).
Proof.
  intros Hv Hw k. destruct (decide (k = "Modifier")) as [->|Hm].
  - right. split; [tauto|]. exists w1, w2.
    split; [|split; [|exact Hw]]; apply lookup_insert_eq.
  - destruct (decide (k = "Service Code")) as [->|Hs].
    + right. split; [tauto|]. exists v1, v2.
      split; [|split; [|exact Hv]];
        (rewrite lookup_insert_ne by discriminate; apply lookup_insert_eq).
    + left. rewrite !lookup_insert_ne by congruence. reflexivity.
Qed.

Lemma single_page_block_agree b bd :
  outcomes_agree (fun p1 p2 => fst p1 = fst p2 /\ same_up_to_items I (snd p1) (snd p2))
    (process_single_page_block o1 b bd) (process_single_page_block o2 b bd).
Proof.
  unfold process_single_page_block.
  destruct (getfield _ "Claim Number") as [cn|e]; [|reflexivity].
  cbn [mbind result_bind].
  destruct (getfield _ "Orig Ref Num") as [orn|e]; [|reflexivity].
  cbn [mbind result_bind].
  destruct (create_claim_block_crop_rectangle _ _ _) as [r|];
    [|split; [reflexivity | apply same_up_to_items_refl]].
  destruct (Rect_bool r); [|split; [reflexivity | apply same_up_to_items_refl]].
  destruct (extract_patient_dates_of_service _ _ _) as [dos|e]; [|reflexivity].
  cbn [mbind result_bind].
  unfold extract_patient_service_codes, extract_patient_modifiers, extract_set_column.
  destruct (column_rectangle _ "adj_x0" _ _ _ _) as [clip1|e]; [|reflexivity].
  cbn [mbind result_bind mret result_ret].
  destruct (column_rectangle _ "mod_x0" _ _ _ _) as [clip2|e]; [|reflexivity].
  cbn [mbind result_bind mret result_ret outcomes_agree fst snd].
  split; [reflexivity|].
  apply same_up_to_items_set_columns; apply enumerations_related.
Qed.

Lemma block_agree b :
  outcomes_agree (Forall2 (same_up_to_items I))
    (process_individual_patient_block o1 b) (process_individual_patient_block o2 b).
Proof.
  unfold process_individual_patient_block.
  destruct (Re.search patient_response_regex (block_text b) Patterns.DOTALL).
  - pose proof (single_page_block_agree b
                  (blank_record Patterns.FIELD_EXTRACTION_PATTERNS)) as H.
    destruct (process_single_page_block o1 b _) as [[t1 d1]|e1];
      destruct (process_single_page_block o2 b _) as [[t2 d2]|e2];
      simpl in H; try contradiction; [|subst; reflexivity].
    destruct H as [<- Hd]. cbn [mbind result_bind].
    pose proof (same_up_to_items_update Patterns.FIELD_EXTRACTION_PATTERNS t1 _ _ Hd)
      as Hu.
    unfold getfield. destruct (Hu "Claim Number") as [Heq|[[Hk|Hk] _]];
      [|discriminate Hk|discriminate Hk].
    rewrite <- Heq. destruct (update_matches _ t1 d1 !! "Claim Number");
      [|reflexivity].
    cbn [mbind result_bind mret result_ret outcomes_agree].
    constructor; [|constructor]. apply same_up_to_items_union, Hu.
  - destruct (process_multi_page_block b _) as [[t d]|e]; [|reflexivity].
    cbn [mbind result_bind]. destruct (getfield _ "Claim Number"); [|reflexivity].
    cbn [mbind result_bind mret result_ret outcomes_agree].
    constructor; [|constructor]. apply same_up_to_items_refl.
Qed.

Lemma blocks_agree blocks : forall acc1 acc2,
  Forall2 (same_up_to_items I) acc1 acc2 ->
  outcomes_agree (Forall2 (same_up_to_items I))
    (process_blocks o1 blocks acc1) (process_blocks o2 blocks acc2).
Proof.
  induction blocks as [|b blocks IH]; intros acc1 acc2 Hacc; simpl; [exact Hacc|].
  pose proof (block_agree b) as H.
  destruct (process_individual_patient_block o1 b) as [rows1|e1];
    destruct (process_individual_patient_block o2 b) as [rows2|e2];
    simpl in H; try contradiction; [|exact H].
  cbn [mbind result_bind]. apply IH. apply Forall2_app; assumption.
Qed.

Lemma runs_agree pdf :
  outcomes_agree (Forall2 (same_up_to_items I))
    (process_pdf_and_create_dataframe o1 pdf) (process_pdf_and_create_dataframe o2 pdf).
Proof.
  unfold process_pdf_and_create_dataframe.
  destruct (iterate_all_patient_blocks pdf) as [blocks|e]; [|reflexivity].
  cbn [mbind result_bind]. apply blocks_agree. constructor.
Qed.

End SetOrder.

(** X1.  Two runs on the same file, under any two orders in which the
    interpreter may enumerate a set of strings, end the same way: both raise
    the same exception, or both return equally many records that agree on
    every key, except that "Service Code" and "Modifier" may list the same
    comma-separated items in a different order. *)
Theorem runs_agree_up_to_set_order (o1 o2 : list string -> list string) (pdf : File) :
  valid_set_order o1 -> valid_set_order o2 ->
  outcomes_agree (Forall2 (same_up_to_items Permutation))
    (process_pdf_and_create_dataframe o1 pdf) (process_pdf_and_create_dataframe o2 pdf).
Proof.
  intros H1 H2. apply runs_agree. intros l.
  apply valid_set_orders_permutation; assumption.
Qed.

Lemma runs_agree_up_to_set_order_witness :
  valid_set_order first_seen /\ valid_set_order reversed_first_seen
  /\ outcomes_agree (Forall2 (same_up_to_items Permutation))
       (process_pdf_and_create_dataframe first_seen
          (Readable [Samples.page_two_codes]))
       (process_pdf_and_create_dataframe reversed_first_seen
          (Readable [Samples.page_two_codes])).
Proof.
  split; [exact first_seen_valid|]. split; [exact reversed_first_seen_valid|].
  exact (runs_agree_up_to_set_order first_seen reversed_first_seen
           (Readable [Samples.page_two_codes])
           first_seen_valid reversed_first_seen_valid).
Defined.

Lemma same_up_to_equal_items (r1 r2 : gmap string string) :
  same_up_to_items eq r1 r2 -> r1 = r2.
Proof.
  intros H. apply map_eq. intros k.
  destruct (H k) as [Heq|[_ (l1 & l2 & -> & -> & ->)]]; [exact Heq | reflexivity].
Qed.

(** The run depends on the enumeration order only through the orders
    it gives to the sets the run builds: two enumerations that agree on
    every insertion sequence give the same outcome, record for record. *)
Theorem runs_equal_under_same_set_order (o1 o2 : list string -> list string)
    (pdf : File) :
  (forall l, o1 l = o2 l) ->
  process_pdf_and_create_dataframe o1 pdf = process_pdf_and_create_dataframe o2 pdf.
Proof.
  intros H. pose proof (runs_agree o1 o2 eq H pdf) as Hagree.
  destruct (process_pdf_and_create_dataframe o1 pdf) as [rows1|e1];
    destruct (process_pdf_and_create_dataframe o2 pdf) as [rows2|e2];
    simpl in Hagree; try contradiction; [|congruence].
  f_equal. induction Hagree as [|r1 r2 l1 l2 Hr _ IH]; [reflexivity|].
  rewrite (same_up_to_equal_items _ _ Hr), IH. reflexivity.
Qed.

(** The order of the items does depend on the enumeration. *)
Lemma set_order_shows_in_service_codes :
  match process_pdf_and_create_dataframe first_seen (Readable [Samples.page_two_codes]),
        process_pdf_and_create_dataframe reversed_first_seen
          (Readable [Samples.page_two_codes]) with
  | Ok [r1], Ok [r2] =>
      r1 !! "Service Code" = Some "99213,99214"
      /\ r2 !! "Service Code" = Some "99214,99213"
      /\ r1 !! "Date Of Service" = Some "99213,99214"
      /\ r2 !! "Date Of Service" = Some "99213,99214"
  | _, _ => False
  end.
Proof. vm_compute. repeat split; reflexivity. Qed.

(** ** Blocks and the geometry-derived keys *)

(** X2.  A continuation block for which no crop region is recorded is
    processed without consulting the profile: it yields one record, whose
    three geometry-derived fields are the empty string. *)
Theorem continuation_block_without_regions (set_order : list string -> list string)
    (b : Block) :
  is_continuation b = true -> continuation_regions b = [] ->
  exists r, process_individual_patient_block set_order b = Ok [r]
            /\ geometry_fields_blank r.
Proof. apply continuation_without_regions_record. Qed.

Lemma continuation_block_without_regions_witness :
  is_continuation (first_block_of Samples.page_open_block ∅) = true
  /\ continuation_regions (first_block_of Samples.page_open_block ∅) = []
  /\ exists r,
       process_individual_patient_block first_seen
         (first_block_of Samples.page_open_block ∅) = Ok [r]
       /\ geometry_fields_blank r.
Proof.
  assert (is_continuation (first_block_of Samples.page_open_block ∅) = true) as H1
    by (vm_compute; reflexivity).
  assert (continuation_regions (first_block_of Samples.page_open_block ∅) = []) as H2
    by (vm_compute; reflexivity).
  split; [exact H1|]. split; [exact H2|].
  exact (continuation_block_without_regions first_seen _ H1 H2).
Defined.

(** X3.  A block with the closing marker whose crop rectangle does not
    resolve yields one record, and that record holds none of the keys "Date
    Of Service", "Service Code" and "Modifier": the single-page branch sets
    them only under a resolved rectangle and nothing defaults them. *)
Theorem closed_block_without_rectangle (set_order : list string -> list string)
    (b : Block) :
  is_continuation b = false -> single_page_rectangle b = None ->
  exists r, process_individual_patient_block set_order b = Ok [r]
            /\ geometry_fields_absent r.
Proof. apply single_page_unresolved_record. Qed.

Lemma closed_block_without_rectangle_witness :
  is_continuation (first_block_of Samples.page_claim_not_found Samples.profile_full)
    = false
  /\ single_page_rectangle
       (first_block_of Samples.page_claim_not_found Samples.profile_full) = None
  /\ exists r,
       process_individual_patient_block first_seen
         (first_block_of Samples.page_claim_not_found Samples.profile_full) = Ok [r]
       /\ geometry_fields_absent r.
Proof.
  assert (is_continuation
            (first_block_of Samples.page_claim_not_found Samples.profile_full)
          = false) as H1 by (vm_compute; reflexivity).
  assert (single_page_rectangle
            (first_block_of Samples.page_claim_not_found Samples.profile_full)
          = None) as H2 by (vm_compute; reflexivity).
  split; [exact H1|]. split; [exact H2|].
  exact (closed_block_without_rectangle first_seen _ H1 H2).
Defined.

Lemma stitch_loop_past_last_page doc n crops combined :
  page_count doc <= S n -> stitch_loop doc n crops combined = (crops, combined).
Proof.
  intros Hn. rewrite stitch_loop_equation_1.
  destruct (le_lt_dec (page_count doc) (S n)) as [Hle|Hlt]; [reflexivity | lia].
Qed.

(** X4.  A continuation block for which exactly one crop region is recorded
    cannot be processed: unpacking the list into a first and a last region
    raises [ValueError], whatever the profile holds. *)
Theorem continuation_block_with_one_region_raises
    (set_order : list string -> list string) (b : Block) :
  is_continuation b = true -> length (continuation_regions b) = 1 ->
  process_individual_patient_block set_order b = Raise ValueError.
Proof.
  unfold is_continuation, continuation_regions, process_individual_patient_block,
    process_multi_page_block.
  intros Hc Hlen.
  destruct (Re.search patient_response_regex (block_text b) Patterns.DOTALL);
    [discriminate|].
  destruct (get_remaining_patient_block_content (document b) (page_number b))
    as [rectangle_list remaining]. simpl fst in Hlen.
  rewrite claim_number_lookup. cbn [mbind result_bind].
  destruct (_ ++ rectangle_list) as [|c [|c2 crops]]; simpl in Hlen; try lia.
  reflexivity.
Qed.

(** X5.  In particular the last block of a document, when it lacks the
    closing marker and its page's last claim number is found on the page,
    aborts the run: the first section is the only crop region. *)
Theorem open_block_on_last_page_raises (set_order : list string -> list string)
    (b : Block) (c : CropRegion) :
  is_continuation b = true ->
  get_first_block_section (current_page b) = Some c ->
  page_count (document b) <= S (page_number b) ->
  process_individual_patient_block set_order b = Raise ValueError.
Proof.
  intros Hc Hfirst Hlast.
  apply continuation_block_with_one_region_raises; [exact Hc|].
  unfold continuation_regions, get_remaining_patient_block_content.
  rewrite Hfirst, stitch_loop_past_last_page by exact Hlast. reflexivity.
Qed.

Lemma open_block_on_last_page_witness :
  is_continuation
    (first_block_of MoreSamples.page_open_located Samples.profile_full) = true
  /\ process_individual_patient_block first_seen
       (first_block_of MoreSamples.page_open_located Samples.profile_full)
     = Raise ValueError.
Proof.
  assert (is_continuation
            (first_block_of MoreSamples.page_open_located Samples.profile_full)
          = true) as H1 by (vm_compute; reflexivity).
  split; [exact H1|].
  refine (open_block_on_last_page_raises first_seen _
            (MoreSamples.page_open_located,
             mkRect 0 (inject_Z 120)
                    (calculate_real_page_width MoreSamples.page_open_located 0)
                    (y1 (rect MoreSamples.page_open_located)))
            H1 _ _).
  - vm_compute. reflexivity.
  - simpl. lia.
Defined.

Lemma continuation_block_with_one_region_witness :
  is_continuation
    (first_block_of MoreSamples.page_open_located Samples.profile_full) = true
  /\ length (continuation_regions
               (first_block_of MoreSamples.page_open_located Samples.profile_full)) = 1
  /\ process_individual_patient_block reversed_first_seen
       (first_block_of MoreSamples.page_open_located Samples.profile_full)
     = Raise ValueError.
Proof.
  assert (is_continuation
            (first_block_of MoreSamples.page_open_located Samples.profile_full)
          = true) as H1 by (vm_compute; reflexivity).
  assert (length (continuation_regions
            (first_block_of MoreSamples.page_open_located Samples.profile_full)) = 1)
    as H2 by (vm_compute; reflexivity).
  split; [exact H1|]. split; [exact H2|].
  exact (continuation_block_with_one_region_raises reversed_first_seen _ H1 H2).
Defined.

(** ** The keys of an emitted record *)

Lemma update_matches_is_Some table text k : forall d,
  is_Some (d !! k) -> is_Some (update_matches table text d !! k).
Proof.
  unfold update_matches.
  induction table as [|[column pattern] table IH]; intros d Hd; simpl; [exact Hd|].
  apply IH. destruct (capture pattern text); [|exact Hd].
  apply lookup_insert_is_Some. destruct (decide (column = k)); auto.
Qed.

Lemma assign_matches_is_Some table text k : forall d,
  is_Some (d !! k) \/ k ∈ columns table ->
  is_Some (assign_matches table text d !! k).
Proof.
  unfold assign_matches, columns.
  induction table as [|[column pattern] table IH]; intros d Hd; simpl.
  - destruct Hd as [Hd|Hd]; [exact Hd | inversion Hd].
  - apply IH. simpl in Hd. rewrite elem_of_cons in Hd.
    rewrite lookup_insert_is_Some.
    destruct (decide (column = k)) as [->|Hne]; [left; left; reflexivity|].
    destruct Hd as [Hd|[Hd|Hd]]; [left; right; auto | congruence | right; exact Hd].
Qed.

Lemma blank_record_is_Some table k :
  k ∈ columns table -> is_Some (blank_record table !! k).
Proof.
  unfold blank_record, columns. intros Hk.
  assert (is_Some ((∅ : gmap string string) !! k) \/ k ∈ map fst table) as H
    by (right; exact Hk).
  clear Hk. revert H. generalize (∅ : gmap string string).
  induction table as [|[column pattern] table IH]; intros d Hd; simpl.
  - destruct Hd as [Hd|Hd]; [exact Hd | inversion Hd].
  - apply IH. simpl in Hd. rewrite elem_of_cons in Hd.
    rewrite lookup_insert_is_Some.
    destruct (decide (column = k)) as [->|Hne]; [left; left; reflexivity|].
    destruct Hd as [Hd|[Hd|Hd]]; [left; right; auto | congruence | right; exact Hd].
Qed.

Lemma process_block_shape set_order b rows :
  process_individual_patient_block set_order b = Ok rows ->
  exists text d,
    match Re.search patient_response_regex (block_text b) Patterns.DOTALL with
    | None =>
        process_multi_page_block b (blank_record Patterns.FIELD_EXTRACTION_PATTERNS)
    | Some _ =>
        process_single_page_block set_order b
          (blank_record Patterns.FIELD_EXTRACTION_PATTERNS)
    end = Ok (text, d)
    /\ rows = [extract_header_field_information (page_text b)
               ∪ update_matches Patterns.FIELD_EXTRACTION_PATTERNS text d].
Proof.
  unfold process_individual_patient_block.
  destruct (match Re.search _ _ _ with None => _ | Some _ => _ end)
    as [[text d]|e]; [|discriminate].
  cbn [mbind result_bind]. destruct (getfield _ _); [|discriminate].
  cbn [mbind result_bind mret result_ret]. intros [= <-]. eauto.
Qed.

Lemma is_ok_Ok {A} (m : result A) : is_ok m = true -> exists a, m = Ok a.
Proof. destruct m as [a|e]; [eauto | discriminate]. Qed.

Lemma multi_page_block_keys b bd text d k :
  process_multi_page_block b bd = Ok (text, d) ->
  is_Some (bd !! k) \/ k ∈ columns Patterns.CLAIM_REFERENCE_PATTERNS
    \/ k ∈ geometry_columns ->
  is_Some (d !! k).
Proof.
  unfold process_multi_page_block.
  destruct (get_remaining_patient_block_content _ _) as [rectangle_list remaining].
  rewrite claim_number_lookup. cbn [mbind result_bind].
  destruct (extract_dates_of_service_from_multiple_pages _ _) as [v1|e];
    [|discriminate]. cbn [mbind result_bind].
  destruct (extract_service_codes_from_multiple_pages _ _) as [v2|e];
    [|discriminate]. cbn [mbind result_bind].
  destruct (extract_modifiers_from_multiple_pages _ _) as [v3|e];
    [|discriminate]. cbn [mbind result_bind mret result_ret].
  intros [= <- <-] Hk. do 3 rewrite lookup_insert_is_Some.
  destruct (decide ("Modifier" = k)); [auto|].
  destruct (decide ("Service Code" = k)); [auto 6|].
  destruct (decide ("Date Of Service" = k)); [auto 8|].
  right. split; [assumption|]. right. split; [assumption|].
  right. split; [assumption|].
  apply (assign_matches_is_Some Patterns.CLAIM_REFERENCE_PATTERNS
           (block_text b +:+ Str.nl +:+ remaining) k bd).
  destruct Hk as [Hk|[Hk|Hk]]; [auto | auto |].
  unfold geometry_columns in Hk.
  repeat (apply elem_of_cons in Hk; destruct Hk as [Hk|Hk]; [congruence|]).
  inversion Hk.
Qed.

Lemma single_page_block_keys set_order b bd text d k :
  process_single_page_block set_order b bd = Ok (text, d) ->
  is_Some (bd !! k) \/ k ∈ columns Patterns.CLAIM_REFERENCE_PATTERNS ->
  is_Some (d !! k).
Proof.
  unfold process_single_page_block.
  rewrite claim_number_lookup. cbn [mbind result_bind].
  rewrite orig_ref_num_lookup. cbn [mbind result_bind].
  intros Hrun Hk.
  assert (is_Some (assign_matches Patterns.CLAIM_REFERENCE_PATTERNS (block_text b) bd
                   !! k)) as Hbase by (apply assign_matches_is_Some; exact Hk).
  destruct (create_claim_block_crop_rectangle _ _ _) as [r|];
    [|injection Hrun as <- <-; exact Hbase].
  destruct (Rect_bool r); [|injection Hrun as <- <-; exact Hbase].
  destruct (extract_patient_dates_of_service _ _ _) as [v1|e]; [|discriminate].
  cbn [mbind result_bind] in Hrun.
  destruct (extract_patient_service_codes _ _ _ _) as [v2|e]; [|discriminate].
  cbn [mbind result_bind] in Hrun.
  destruct (extract_patient_modifiers _ _ _ _) as [v3|e]; [|discriminate].
  cbn [mbind result_bind mret result_ret] in Hrun.
  injection Hrun as <- <-. do 3 rewrite lookup_insert_is_Some.
  destruct (decide ("Modifier" = k)); [auto|].
  destruct (decide ("Service Code" = k)); [auto 6|].
  destruct (decide ("Date Of Service" = k)); [auto 8|].
  right. split; [assumption|]. right. split; [assumption|].
  right. split; [assumption|]. exact Hbase.
Qed.

(** X6.  Every record a block yields holds every column of the three
    pattern tables: the nine tag-based columns, the two claim-reference
    columns and the six header columns. *)
Theorem record_holds_pattern_columns (set_order : list string -> list string)
    (b : Block) :
  is_ok (process_individual_patient_block set_order b) = true ->
  exists r,
    process_individual_patient_block set_order b = Ok [r]
    /\ forall k, k ∈ pattern_columns -> is_Some (r !! k).
Proof.
  intros Hok. apply is_ok_Ok in Hok. destruct Hok as [rows Hrun].
  destruct (process_block_shape _ _ _ Hrun) as (text & d & Hbranch & ->).
  eexists. split; [exact Hrun|]. intros k Hk.
  unfold pattern_columns in Hk. rewrite !elem_of_app in Hk.
  apply lookup_union_is_Some.
  destruct Hk as [Hk|[Hk|Hk]].
  - right. apply update_matches_is_Some.
    destruct (Re.search _ _ _).
    + eapply single_page_block_keys; [exact Hbranch|].
      left. apply blank_record_is_Some, Hk.
    + eapply multi_page_block_keys; [exact Hbranch|].
      left. apply blank_record_is_Some, Hk.
  - right. apply update_matches_is_Some.
    destruct (Re.search _ _ _).
    + eapply single_page_block_keys; [exact Hbranch|]. right. exact Hk.
    + eapply multi_page_block_keys; [exact Hbranch|]. right. left. exact Hk.
  - left. unfold extract_header_field_information.
    apply update_matches_is_Some, blank_record_is_Some, Hk.
Qed.

Lemma record_holds_pattern_columns_witness :
  is_ok (process_individual_patient_block first_seen
           (first_block_of Samples.page_claim_not_found Samples.profile_full)) = true
  /\ exists r,
       process_individual_patient_block first_seen
         (first_block_of Samples.page_claim_not_found Samples.profile_full) = Ok [r]
       /\ forall k, k ∈ pattern_columns -> is_Some (r !! k).
Proof.
  assert (is_ok (process_individual_patient_block first_seen
            (first_block_of Samples.page_claim_not_found Samples.profile_full))
          = true) as H by (vm_compute; reflexivity).
  split; [exact H|].
  exact (record_holds_pattern_columns first_seen _ H).
Defined.

Lemma geometry_column_cases k :
  k ∈ geometry_columns -> k = "Date Of Service" \/ k = "Service Code" \/ k = "Modifier".
Proof.
  unfold geometry_columns. intros Hk.
  repeat (apply elem_of_cons in Hk; destruct Hk as [Hk|Hk]; [auto|]).
  inversion Hk.
Qed.

Lemma single_page_geometry_key set_order b bd text d k :
  process_single_page_block set_order b bd = Ok (text, d) ->
  bd !! k = None -> k ∈ geometry_columns ->
  (is_Some (d !! k) <-> is_Some (single_page_rectangle b)).
Proof.
  unfold process_single_page_block, single_page_rectangle.
  rewrite claim_number_lookup. cbn [mbind result_bind].
  rewrite orig_ref_num_lookup. cbn [mbind result_bind].
  intros Hrun Hbd Hk.
  assert (assign_matches Patterns.CLAIM_REFERENCE_PATTERNS (block_text b) bd !! k
          = None) as Hbase.
  { rewrite assign_matches_lookup_other; [exact Hbd|].
    apply geometry_key_not_pattern_column, Hk. }
  destruct (create_claim_block_crop_rectangle _ _ _) as [r|] eqn:Hrect.
  - rewrite (create_claim_block_crop_rectangle_truthy _ _ _ _ Hrect) in Hrun.
    destruct (extract_patient_dates_of_service _ _ _) as [v1|e]; [|discriminate].
    cbn [mbind result_bind] in Hrun.
    destruct (extract_patient_service_codes _ _ _ _) as [v2|e]; [|discriminate].
    cbn [mbind result_bind] in Hrun.
    destruct (extract_patient_modifiers _ _ _ _) as [v3|e]; [|discriminate].
    cbn [mbind result_bind mret result_ret] in Hrun.
    injection Hrun as <- <-. split; [eauto|]. intros _.
    do 3 rewrite lookup_insert_is_Some.
    destruct (geometry_column_cases _ Hk) as [-> | [-> | ->]].
    + right. split; [discriminate|]. right. split; [discriminate|]. left. reflexivity.
    + right. split; [discriminate|]. left. reflexivity.
    + left. reflexivity.
  - injection Hrun as <- <-. split; [|intros [x Hx]; discriminate].
    intros [x Hx].
    assert (@None string = Some x) as Habs by (rewrite <- Hbase; exact Hx).
    discriminate.
Qed.

(** X7.  The record of a block holds the three geometry-derived keys exactly
    when the block is a continuation block or its crop rectangle resolves. *)
Theorem geometry_keys_present_iff (set_order : list string -> list string) (b : Block) :
  is_ok (process_individual_patient_block set_order b) = true ->
  exists r,
    process_individual_patient_block set_order b = Ok [r]
    /\ forall k, k ∈ geometry_columns ->
         (is_Some (r !! k)
          <-> is_continuation b = true \/ is_Some (single_page_rectangle b)).
Proof.
  intros Hok. apply is_ok_Ok in Hok. destruct Hok as [rows Hrun].
  destruct (process_block_shape _ _ _ Hrun) as (text & d & Hbranch & ->).
  eexists. split; [exact Hrun|]. intros k Hk.
  destruct (geometry_key_not_pattern_column k Hk) as (Hf & Hc & Hh).
  rewrite final_record_lookup by assumption.
  unfold is_continuation.
  destruct (Re.search patient_response_regex (block_text b) Patterns.DOTALL).
  - rewrite (single_page_geometry_key _ _ _ _ _ _ Hbranch
               (blank_record_lookup_other _ _ Hf) Hk).
    split; [auto|]. intros [H|H]; [discriminate | exact H].
  - split; [auto|]. intros _.
    eapply multi_page_block_keys; [exact Hbranch|]. right. right. exact Hk.
Qed.

Lemma geometry_keys_present_iff_witness :
  is_ok (process_individual_patient_block first_seen
           (first_block_of Samples.page_two_codes Samples.profile_full)) = true
  /\ exists r,
       process_individual_patient_block first_seen
         (first_block_of Samples.page_two_codes Samples.profile_full) = Ok [r]
       /\ forall k, k ∈ geometry_columns ->
            (is_Some (r !! k)
             <-> is_continuation
                   (first_block_of Samples.page_two_codes Samples.profile_full) = true
                 \/ is_Some (single_page_rectangle
                      (first_block_of Samples.page_two_codes Samples.profile_full))).
Proof.
  assert (is_ok (process_individual_patient_block first_seen
            (first_block_of Samples.page_two_codes Samples.profile_full)) = true)
    as H by (vm_compute; reflexivity).
  split; [exact H|].
  exact (geometry_keys_present_iff first_seen _ H).
Defined.

(** ** What the textual fields hold *)

Lemma update_matches_lookup_capture table text k p : forall d,
  NoDup (columns table) -> (k, p) ∈ table -> d !! k = Some "" ->
  update_matches table text d !! k = Some (default "" (capture p text)).
Proof.
  unfold update_matches, columns.
  induction table as [|[column pattern] table IH]; intros d Hnd Hin Hd.
  - inversion Hin.
  - simpl in Hnd. apply NoDup_cons in Hnd. destruct Hnd as [Hfresh Hnd].
    apply elem_of_cons in Hin. simpl. destruct Hin as [[= <- <-]|Hin].
    + fold (update_matches table text
              (match capture p text with
               | Some value => <[k := value]> d
               | None => d
               end)).
      rewrite update_matches_lookup_other by exact Hfresh.
      destruct (capture p text); simpl; [apply lookup_insert_eq | exact Hd].
    + apply IH; [exact Hnd | exact Hin|].
      assert (column <> k) as Hne.
      { intros ->. apply Hfresh. apply list_elem_of_fmap. exists (k, p). auto. }
      destruct (capture pattern text); [|exact Hd].
      rewrite lookup_insert_ne by exact Hne. exact Hd.
Qed.

Lemma assign_matches_lookup_capture table text k p : forall d,
  NoDup (columns table) -> (k, p) ∈ table ->
  assign_matches table text d !! k = Some (default "" (capture p text)).
Proof.
  unfold assign_matches, columns.
  induction table as [|[column pattern] table IH]; intros d Hnd Hin.
  - inversion Hin.
  - simpl in Hnd. apply NoDup_cons in Hnd. destruct Hnd as [Hfresh Hnd].
    apply elem_of_cons in Hin. simpl. destruct Hin as [[= <- <-]|Hin].
    + fold (assign_matches table text (<[k := default "" (capture p text)]> d)).
      rewrite assign_matches_lookup_other by exact Hfresh.
      apply lookup_insert_eq.
    + apply IH; [exact Hnd | exact Hin].
Qed.

Lemma blank_fold_lookup_other (table : list (string * Re.regex)) k :
  forall d : gmap string string,
  k ∉ map fst table ->
  foldl (fun d entry => <[fst entry := ""]> d) d table !! k = d !! k.
Proof.
  induction table as [|[column pattern] table IH]; intros d Hk; simpl; [reflexivity|].
  simpl in Hk. rewrite not_elem_of_cons in Hk. destruct Hk as [Hne Hk].
  rewrite IH by exact Hk. apply lookup_insert_ne. congruence.
Qed.

Lemma blank_record_lookup table k :
  k ∈ columns table -> blank_record table !! k = Some "".
Proof.
  unfold blank_record, columns. generalize (∅ : gmap string string).
  induction table as [|[column pattern] table IH]; intros d Hk.
  - inversion Hk.
  - simpl in Hk. apply elem_of_cons in Hk. simpl.
    destruct (decide (k ∈ map fst table)) as [Hin|Hout].
    + apply IH, Hin.
    + destruct Hk as [->|Hk]; [|contradiction].
      rewrite blank_fold_lookup_other by exact Hout. apply lookup_insert_eq.
Qed.

Lemma tag_columns_apart :
  Forall (fun k => (k ∉ columns Patterns.CLAIM_REFERENCE_PATTERNS)
                   /\ (k ∉ columns Patterns.HEADER_FIELD_PATTERNS)
                   /\ (k ∉ geometry_columns))
         (columns Patterns.FIELD_EXTRACTION_PATTERNS).
Proof. apply (bool_decide_unpack _). vm_compute. exact I. Qed.

Lemma claim_columns_apart :
  Forall (fun k => (k ∉ columns Patterns.FIELD_EXTRACTION_PATTERNS)
                   /\ (k ∉ columns Patterns.HEADER_FIELD_PATTERNS)
                   /\ (k ∉ geometry_columns))
         (columns Patterns.CLAIM_REFERENCE_PATTERNS).
Proof. apply (bool_decide_unpack _). vm_compute. exact I. Qed.

Lemma tables_without_repetition :
  NoDup (columns Patterns.FIELD_EXTRACTION_PATTERNS)
  /\ NoDup (columns Patterns.CLAIM_REFERENCE_PATTERNS)
  /\ NoDup (columns Patterns.HEADER_FIELD_PATTERNS).
Proof. repeat split; apply (bool_decide_unpack _); vm_compute; exact I. Qed.

Lemma elem_of_columns (table : list (string * Re.regex)) k p :
  (k, p) ∈ table -> k ∈ columns table.
Proof. intros H. apply list_elem_of_fmap. exists (k, p). auto. Qed.

Lemma multi_page_block_other_keys b bd text d k :
  process_multi_page_block b bd = Ok (text, d) ->
  k ∉ geometry_columns ->
  text = continuation_text b
  /\ d !! k = assign_matches Patterns.CLAIM_REFERENCE_PATTERNS text bd !! k.
Proof.
  unfold process_multi_page_block, continuation_text.
  destruct (get_remaining_patient_block_content _ _) as [rectangle_list remaining].
  rewrite claim_number_lookup. cbn [mbind result_bind].
  destruct (extract_dates_of_service_from_multiple_pages _ _) as [v1|e];
    [|discriminate]. cbn [mbind result_bind].
  destruct (extract_service_codes_from_multiple_pages _ _) as [v2|e];
    [|discriminate]. cbn [mbind result_bind].
  destruct (extract_modifiers_from_multiple_pages _ _) as [v3|e];
    [|discriminate]. cbn [mbind result_bind mret result_ret].
  intros [= <- <-] Hk. split; [reflexivity|].
  unfold geometry_columns in Hk. rewrite !not_elem_of_cons in Hk.
  destruct Hk as (H1 & H2 & H3 & _).
  do 3 (rewrite lookup_insert_ne by congruence). reflexivity.
Qed.

Lemma single_page_block_other_keys set_order b bd text d k :
  process_single_page_block set_order b bd = Ok (text, d) ->
  k ∉ geometry_columns ->
  text = block_text b
  /\ d !! k = assign_matches Patterns.CLAIM_REFERENCE_PATTERNS text bd !! k.
Proof.
  unfold process_single_page_block.
  rewrite claim_number_lookup. cbn [mbind result_bind].
  rewrite orig_ref_num_lookup. cbn [mbind result_bind].
  intros Hrun Hk.
  destruct (create_claim_block_crop_rectangle _ _ _) as [r|];
    [|injection Hrun as <- <-; split; reflexivity].
  destruct (Rect_bool r); [|injection Hrun as <- <-; split; reflexivity].
  destruct (extract_patient_dates_of_service _ _ _) as [v1|e]; [|discriminate].
  cbn [mbind result_bind] in Hrun.
  destruct (extract_patient_service_codes _ _ _ _) as [v2|e]; [|discriminate].
  cbn [mbind result_bind] in Hrun.
  destruct (extract_patient_modifiers _ _ _ _) as [v3|e]; [|discriminate].
  cbn [mbind result_bind mret result_ret] in Hrun.
  injection Hrun as <- <-. split; [reflexivity|].
  unfold geometry_columns in Hk. rewrite !not_elem_of_cons in Hk.
  destruct Hk as (H1 & H2 & H3 & _).
  do 3 (rewrite lookup_insert_ne by congruence). reflexivity.
Qed.

Lemma branch_other_keys set_order b text d k :
  match Re.search patient_response_regex (block_text b) Patterns.DOTALL with
  | None =>
      process_multi_page_block b (blank_record Patterns.FIELD_EXTRACTION_PATTERNS)
  | Some _ =>
      process_single_page_block set_order b
        (blank_record Patterns.FIELD_EXTRACTION_PATTERNS)
  end = Ok (text, d) ->
  k ∉ geometry_columns ->
  text = (if is_continuation b then continuation_text b else block_text b)
  /\ d !! k = assign_matches Patterns.CLAIM_REFERENCE_PATTERNS text
               (blank_record Patterns.FIELD_EXTRACTION_PATTERNS) !! k.
Proof.
  unfold is_continuation.
  destruct (Re.search patient_response_regex (block_text b) Patterns.DOTALL).
  - apply single_page_block_other_keys.
  - apply multi_page_block_other_keys.
Qed.

(** X8.  The textual fields of a record are what the patterns capture,
    each on its own: every tag-based and claim-reference column holds the
    stripped first group of its pattern's first match in the block text (for
    a continuation block, the block text extended by the stitched pages),
    every header column that of its pattern's first match in the text of the
    block's page, and the empty string when the pattern has no match. *)
Theorem textual_fields_are_captures (set_order : list string -> list string)
    (b : Block) :
  is_ok (process_individual_patient_block set_order b) = true ->
  exists r,
    process_individual_patient_block set_order b = Ok [r]
    /\ (forall k p,
          (k, p) ∈ Patterns.FIELD_EXTRACTION_PATTERNS ++ Patterns.CLAIM_REFERENCE_PATTERNS ->
          r !! k = Some (default "" (capture p
                     (if is_continuation b then continuation_text b
                      else block_text b))))
    /\ (forall k p,
          (k, p) ∈ Patterns.HEADER_FIELD_PATTERNS ->
          r !! k = Some (default "" (capture p (page_text b)))).
Proof.
  intros Hok. apply is_ok_Ok in Hok. destruct Hok as [rows Hrun].
  destruct (process_block_shape _ _ _ Hrun) as (text & d & Hbranch & ->).
  destruct tables_without_repetition as (Hnd1 & Hnd2 & Hnd3).
  eexists. split; [exact Hrun|]. split.
  - intros k p Hin. apply elem_of_app in Hin. destruct Hin as [Hin|Hin].
    + pose proof (elem_of_columns _ _ _ Hin) as Hk.
      destruct (proj1 (Forall_forall _ _) tag_columns_apart k Hk) as (Hc & Hh & Hg).
      destruct (branch_other_keys _ _ _ _ k Hbranch Hg) as [Htext Hd].
      rewrite lookup_union_r.
      * rewrite <- Htext.
        apply update_matches_lookup_capture; [exact Hnd1 | exact Hin|].
        rewrite Hd, assign_matches_lookup_other by exact Hc.
        apply blank_record_lookup, Hk.
      * unfold extract_header_field_information.
        rewrite update_matches_lookup_other by exact Hh.
        apply blank_record_lookup_other, Hh.
    + pose proof (elem_of_columns _ _ _ Hin) as Hk.
      destruct (proj1 (Forall_forall _ _) claim_columns_apart k Hk) as (Hf & Hh & Hg).
      destruct (branch_other_keys _ _ _ _ k Hbranch Hg) as [Htext Hd].
      rewrite lookup_union_r.
      * rewrite update_matches_lookup_other by exact Hf.
        rewrite Hd, <- Htext.
        apply assign_matches_lookup_capture; [exact Hnd2 | exact Hin].
      * unfold extract_header_field_information.
        rewrite update_matches_lookup_other by exact Hh.
        apply blank_record_lookup_other, Hh.
  - intros k p Hin. pose proof (elem_of_columns _ _ _ Hin) as Hk.
    apply lookup_union_Some_l. unfold extract_header_field_information.
    apply update_matches_lookup_capture; [exact Hnd3 | exact Hin|].
    apply blank_record_lookup, Hk.
Qed.

Lemma textual_fields_are_captures_witness :
  is_ok (process_individual_patient_block first_seen
           (first_block_of Samples.page_two_codes Samples.profile_full)) = true
  /\ exists r,
       process_individual_patient_block first_seen
         (first_block_of Samples.page_two_codes Samples.profile_full) = Ok [r]
       /\ (forall k p,
             (k, p) ∈ Patterns.FIELD_EXTRACTION_PATTERNS
                      ++ Patterns.CLAIM_REFERENCE_PATTERNS ->
             r !! k = Some (default "" (capture p
                        (if is_continuation
                              (first_block_of Samples.page_two_codes Samples.profile_full)
                         then continuation_text
                                (first_block_of Samples.page_two_codes Samples.profile_full)
                         else block_text
                                (first_block_of Samples.page_two_codes
                                   Samples.profile_full)))))
       /\ (forall k p,
             (k, p) ∈ Patterns.HEADER_FIELD_PATTERNS ->
             r !! k = Some (default "" (capture p
                        (page_text (first_block_of Samples.page_two_codes
                                      Samples.profile_full))))).
Proof.
  assert (is_ok (process_individual_patient_block first_seen
            (first_block_of Samples.page_two_codes Samples.profile_full)) = true)
    as H by (vm_compute; reflexivity).
  split; [exact H|].
  exact (textual_fields_are_captures first_seen _ H).
Defined.

(** ** Blocks and records of a run *)

Lemma extract_patient_blocks_length page doc n g :
  length (extract_patient_blocks_from_page page doc n g)
  = length (tag_starts (get_text page)).
Proof.
  unfold extract_patient_blocks_from_page.
  rewrite length_map, patient_block_texts_spans, length_map, length_spans.
  reflexivity.
Qed.

Lemma iterate_pages_length doc pages : forall n g extracted,
  length (iterate_pages doc pages n g extracted) = tag_count pages.
Proof.
  unfold tag_count.
  induction pages as [|page pages IH]; intros n g extracted; simpl; [reflexivity|].
  destruct (calibrate page g extracted) as [g' extracted'].
  rewrite length_app, IH, extract_patient_blocks_length. reflexivity.
Qed.

Lemma process_blocks_length set_order blocks : forall acc rows,
  process_blocks set_order blocks acc = Ok rows ->
  length rows = length acc + length blocks.
Proof.
  induction blocks as [|b blocks IH]; intros acc rows; simpl.
  - intros [= <-]. lia.
  - destruct (process_individual_patient_block set_order b) as [rs|e] eqn:Hb;
      [|discriminate].
    cbn [mbind result_bind]. intros Hrest. apply IH in Hrest.
    destruct (process_block_shape _ _ _ Hb) as (text & d & _ & ->).
    rewrite length_app in Hrest. simpl in Hrest. lia.
Qed.

(** X9.  A run that returns emits exactly one record for each occurrence
    of the patient tag in the pages of the document: no block is dropped and
    none is split. *)
Theorem one_record_per_patient_tag (set_order : list string -> list string)
    (doc : Document) :
  is_ok (process_pdf_and_create_dataframe set_order (Readable doc)) = true ->
  exists rows,
    process_pdf_and_create_dataframe set_order (Readable doc) = Ok rows
    /\ length rows = tag_count doc.
Proof.
  intros Hok. apply is_ok_Ok in Hok. destruct Hok as [rows Hrun].
  exists rows. split; [exact Hrun|].
  unfold process_pdf_and_create_dataframe in Hrun. simpl in Hrun.
  apply process_blocks_length in Hrun. rewrite iterate_pages_length in Hrun.
  exact Hrun.
Qed.

Lemma one_record_per_patient_tag_witness :
  is_ok (process_pdf_and_create_dataframe first_seen
           (Readable [Samples.page_cover; Samples.page_two_codes])) = true
  /\ tag_count [Samples.page_cover; Samples.page_two_codes] = 1
  /\ exists rows,
       process_pdf_and_create_dataframe first_seen
         (Readable [Samples.page_cover; Samples.page_two_codes]) = Ok rows
       /\ length rows = tag_count [Samples.page_cover; Samples.page_two_codes].
Proof.
  assert (is_ok (process_pdf_and_create_dataframe first_seen
            (Readable [Samples.page_cover; Samples.page_two_codes])) = true)
    as H by (vm_compute; reflexivity).
  split; [exact H|]. split; [vm_compute; reflexivity|].
  exact (one_record_per_patient_tag first_seen _ H).
Defined.

(** X10.  A document none of whose pages shows the patient tag yields the
    empty record sequence, and the run does not raise, whatever else the
    pages hold. *)
Theorem no_patient_tag_no_record (set_order : list string -> list string)
    (doc : Document) :
  Forall (fun p => tag_starts (get_text p) = []) doc ->
  process_pdf_and_create_dataframe set_order (Readable doc) = Ok [].
Proof.
  intros Hdoc. unfold process_pdf_and_create_dataframe. simpl.
  assert (tag_count doc = 0) as Hcount.
  { unfold tag_count. induction Hdoc as [|p ps Hp _ IH]; [reflexivity|].
    simpl. rewrite Hp, IH. reflexivity. }
  pose proof (iterate_pages_length doc doc 0 ∅ false) as Hlen.
  rewrite Hcount in Hlen. apply nil_length_inv in Hlen. rewrite Hlen. reflexivity.
Qed.

Lemma no_patient_tag_no_record_witness :
  Forall (fun p => tag_starts (get_text p) = [])
         [Samples.page_cover; Samples.page_leading_tag]
  /\ process_pdf_and_create_dataframe first_seen
       (Readable [Samples.page_cover; Samples.page_leading_tag]) = Ok [].
Proof.
  assert (Forall (fun p => tag_starts (get_text p) = [])
                 [Samples.page_cover; Samples.page_leading_tag]) as H
    by (repeat constructor).
  split; [exact H|].
  exact (no_patient_tag_no_record first_seen _ H).
Defined.

Lemma sorted_after_constant n l1 l2 :
  Forall (fun x => x = n) l1 -> Forall (fun x => n <= x) l2 ->
  StronglySorted le l2 -> StronglySorted le (l1 ++ l2).
Proof.
  intros H1 H2 Hs. induction H1 as [|x l1 -> H1 IH]; simpl; [exact Hs|].
  constructor; [exact IH|]. apply Forall_app. split.
  - eapply Forall_impl; [exact H1|]. simpl. intros y ->. lia.
  - exact H2.
Qed.

Lemma iterate_pages_provenance doc pages : forall n g extracted,
  Forall (fun b => document b = doc
                   /\ n <= page_number b
                   /\ pages !! (page_number b - n) = Some (current_page b)
                   /\ page_text b = get_text (current_page b))
         (iterate_pages doc pages n g extracted)
  /\ StronglySorted le (map page_number (iterate_pages doc pages n g extracted)).
Proof.
  induction pages as [|page pages IH]; intros n g extracted; simpl.
  - split; constructor.
  - destruct (calibrate page g extracted) as [g' extracted'].
    destruct (IH (S n) g' extracted') as [Hall Hsorted].
    assert (Forall (fun b => document b = doc /\ page_number b = n
                             /\ current_page b = page
                             /\ page_text b = get_text page)
                   (extract_patient_blocks_from_page page doc n g')) as Hhere.
    { unfold extract_patient_blocks_from_page. apply Forall_fmap.
      apply Forall_forall. intros t _. simpl. auto. }
    split.
    + apply Forall_app. split.
      * eapply Forall_impl; [exact Hhere|]. simpl.
        intros b (Hd & Hn & Hp & Ht). rewrite Hn, Nat.sub_diag, Hp, Ht.
        simpl. auto.
      * eapply Forall_impl; [exact Hall|]. simpl.
        intros b (Hd & Hn & Hp & Ht).
        split; [exact Hd|]. split; [lia|]. split; [|exact Ht].
        replace (page_number b - n) with (S (page_number b - S n)) by lia.
        exact Hp.
    + rewrite map_app. apply (sorted_after_constant n).
      * apply Forall_fmap. eapply Forall_impl; [exact Hhere|]. simpl. tauto.
      * apply Forall_fmap. eapply Forall_impl; [exact Hall|]. simpl.
        intros b (_ & Hn & _). lia.
      * exact Hsorted.
Qed.

(** X11.  The blocks of a document come in document order, and each block
    carries the document, the number and the handle of the page it was cut
    from, and that page's text. *)
Theorem blocks_in_document_order (doc : Document) :
  exists blocks,
    iterate_all_patient_blocks (Readable doc) = Ok blocks
    /\ StronglySorted le (map page_number blocks)
    /\ Forall (fun b => document b = doc
                        /\ doc !! page_number b = Some (current_page b)
                        /\ page_text b = get_text (current_page b))
              blocks.
Proof.
  eexists. split; [reflexivity|].
  destruct (iterate_pages_provenance doc doc 0 ∅ false) as [Hall Hsorted].
  split; [exact Hsorted|].
  eapply Forall_impl; [exact Hall|]. simpl.
  intros b (Hd & _ & Hp & Ht). rewrite Nat.sub_0_r in Hp. auto.
Qed.

(** ** Calibration *)

Lemma int_floor q : (0 <= Qnum q)%Z -> int q = Qfloor q.
Proof.
  destruct q as [n d]. unfold int, Qfloor. simpl. intros Hn.
  apply Z.quot_div_nonneg; lia.
Qed.

Lemma int_ceiling q : (Qnum q < 0)%Z -> int q = Qceiling q.
Proof.
  destruct q as [n d]. unfold int, Qceiling, Qfloor. simpl. intros Hn.
  rewrite <- (Z.opp_involutive n) at 1.
  rewrite Z.quot_opp_l by lia. f_equal. apply Z.quot_div_nonneg; lia.
Qed.

Lemma Qnum_nonneg q : (0 <= Qnum q)%Z <-> (0 <= q)%Q.
Proof. destruct q as [n d]. unfold Qle. simpl. lia. Qed.

(** [int] truncates towards zero, so it keeps the order. *)
Lemma int_monotone q1 q2 : (q1 <= q2)%Q -> (int q1 <= int q2)%Z.
Proof.
  intros Hle.
  destruct (Z_lt_le_dec (Qnum q1) 0) as [H1|H1];
    destruct (Z_lt_le_dec (Qnum q2) 0) as [H2|H2].
  - rewrite !int_ceiling by assumption. apply Qceiling_resp_le, Hle.
  - rewrite (int_ceiling q1), (int_floor q2) by assumption.
    transitivity 0%Z.
    + change 0%Z with (Qceiling 0). apply Qceiling_resp_le.
      apply Qlt_le_weak, Qnot_le_lt. rewrite <- Qnum_nonneg. lia.
    + change 0%Z with (Qfloor 0). apply Qfloor_resp_le. apply Qnum_nonneg, H2.
  - exfalso. apply Qnum_nonneg in H1.
    assert (0 <= q2)%Q as H by (eapply Qle_trans; eassumption).
    apply Qnum_nonneg in H. lia.
  - rewrite !int_floor by assumption. apply Qfloor_resp_le, Hle.
Qed.

#[local] Set Warnings "-clear-no-such-hyp".

Lemma profile_domain (page : Page) (content : string) (k : string) :
  is_Some (extract_page_geometry_coordinates page content !! k) <->
  (k ∈ ["dos_x0"; "dos_x1"; "dos_y1"] /\ found page " DOS ")
  \/ (k ∈ ["adj_x0"; "adj_x1"] /\ found page "ADJ/PROD")
  \/ (k ∈ ["mod_x0"; "mod_x1"] /\ found page " MOD ").
Proof.
  unfold extract_page_geometry_coordinates, found.
  destruct (search_for page " DOS ") as [|dos ?];
    destruct (search_for page "ADJ/PROD") as [|adj ?];
    destruct (search_for page " MOD ") as [|md ?];
    rewrite ?lookup_insert_is_Some', ?lookup_empty, ?is_Some_alt,
      ?elem_of_cons, ?elem_of_nil;
    naive_solver.
Qed.

(** X12.  The profile of a page holds the keys of a column exactly when the
    column's landmark is found on the page, it holds no other key, and it is
    empty exactly when none of the three landmarks is found. *)
Theorem profile_reflects_landmarks (page : Page) (content : string) :
  let g := extract_page_geometry_coordinates page content in
  (forall k, k ∈ ["dos_x0"; "dos_x1"; "dos_y1"] ->
     (is_Some (g !! k) <-> found page " DOS "))
  /\ (forall k, k ∈ ["adj_x0"; "adj_x1"] ->
        (is_Some (g !! k) <-> found page "ADJ/PROD"))
  /\ (forall k, k ∈ ["mod_x0"; "mod_x1"] ->
        (is_Some (g !! k) <-> found page " MOD "))
  /\ (forall k, is_Some (g !! k) -> k ∈ profile_keys)
  /\ (g = ∅ <-> ~ found page " DOS " /\ ~ found page "ADJ/PROD"
                /\ ~ found page " MOD ").
Proof.
  cbv zeta. unfold profile_keys.
  split; [|split; [|split; [|split]]].
  - intros k Hk. rewrite profile_domain.
    rewrite !elem_of_cons, elem_of_nil in Hk.
    rewrite !elem_of_cons, !elem_of_nil. naive_solver.
  - intros k Hk. rewrite profile_domain.
    rewrite !elem_of_cons, elem_of_nil in Hk.
    rewrite !elem_of_cons, !elem_of_nil. naive_solver.
  - intros k Hk. rewrite profile_domain.
    rewrite !elem_of_cons, elem_of_nil in Hk.
    rewrite !elem_of_cons, !elem_of_nil. naive_solver.
  - intros k Hk. apply profile_domain in Hk.
    rewrite !elem_of_cons, !elem_of_nil in Hk.
    rewrite !elem_of_cons, !elem_of_nil. naive_solver.
  - split.
    + intros Hg. repeat split; intros Hf.
      * assert (is_Some (extract_page_geometry_coordinates page content
                           !! "dos_x0")) as [x Hx]
          by (apply profile_domain; left; split; [set_solver | exact Hf]).
        rewrite Hg, lookup_empty in Hx. discriminate.
      * assert (is_Some (extract_page_geometry_coordinates page content
                           !! "adj_x0")) as [x Hx]
          by (apply profile_domain; right; left; split;
              [set_solver | exact Hf]).
        rewrite Hg, lookup_empty in Hx. discriminate.
      * assert (is_Some (extract_page_geometry_coordinates page content
                           !! "mod_x0")) as [x Hx]
          by (apply profile_domain; right; right; split;
              [set_solver | exact Hf]).
        rewrite Hg, lookup_empty in Hx. discriminate.
    + intros (H1 & H2 & H3). apply map_eq. intros k. rewrite lookup_empty.
      apply eq_None_not_Some. rewrite profile_domain. tauto.
Qed.

Lemma profile_lookup_dos page content r rest :
  search_for page " DOS " = r :: rest ->
  let g := extract_page_geometry_coordinates page content in
  g !! "dos_x0" = Some (int (x0 r) - 30)%Z
  /\ g !! "dos_x1" = Some (int (x1 r) + 30)%Z
  /\ g !! "dos_y1" = Some (int (y1 r)).
Proof.
  intros E. cbv zeta. unfold extract_page_geometry_coordinates. rewrite E.
  destruct (search_for page "ADJ/PROD"), (search_for page " MOD ");
    repeat split;
    repeat (rewrite lookup_insert_ne by discriminate);
    rewrite lookup_insert_eq; reflexivity.
Qed.

Lemma profile_lookup_adj page content r rest :
  search_for page "ADJ/PROD" = r :: rest ->
  let g := extract_page_geometry_coordinates page content in
  g !! "adj_x0" = Some (int (x0 r) - 2)%Z
  /\ g !! "adj_x1" = Some (int (x1 r) + 10)%Z.
Proof.
  intros E. cbv zeta. unfold extract_page_geometry_coordinates. rewrite E.
  destruct (search_for page " DOS "), (search_for page " MOD ");
    repeat split;
    repeat (rewrite lookup_insert_ne by discriminate);
    rewrite lookup_insert_eq; reflexivity.
Qed.

Lemma profile_lookup_mod page content r rest :
  search_for page " MOD " = r :: rest ->
  let g := extract_page_geometry_coordinates page content in
  g !! "mod_x0" = Some (int (x0 r) - 20)%Z
  /\ g !! "mod_x1" = Some (int (x1 r) + 20)%Z.
Proof.
  intros E. cbv zeta. unfold extract_page_geometry_coordinates. rewrite E.
  destruct (search_for page " DOS "), (search_for page "ADJ/PROD");
    repeat split;
    repeat (rewrite lookup_insert_ne by discriminate);
    rewrite lookup_insert_eq; reflexivity.
Qed.

Lemma profile_lookup_found page content k v :
  extract_page_geometry_coordinates page content !! k = Some v ->
  (k ∈ ["dos_x0"; "dos_x1"; "dos_y1"]
   /\ exists r rest, search_for page " DOS " = r :: rest)
  \/ (k ∈ ["adj_x0"; "adj_x1"]
      /\ exists r rest, search_for page "ADJ/PROD" = r :: rest)
  \/ (k ∈ ["mod_x0"; "mod_x1"]
      /\ exists r rest, search_for page " MOD " = r :: rest).
Proof.
  intros Hk.
  assert (is_Some (extract_page_geometry_coordinates page content !! k)) as H
    by eauto.
  apply profile_domain in H. unfold found in H.
  destruct H as [[Hin Hf] | [[Hin Hf] | [Hin Hf]]].
  - left. split; [exact Hin|].
    destruct (search_for page " DOS "); [contradiction | eauto].
  - right. left. split; [exact Hin|].
    destruct (search_for page "ADJ/PROD"); [contradiction | eauto].
  - right. right. split; [exact Hin|].
    destruct (search_for page " MOD "); [contradiction | eauto].
Qed.

(** X13.  On a page whose landmark boxes have their left edge at or before
    their right edge, the calibrated columns are never narrower than the
    paddings: 60 points for the dates, 12 for the service codes and 40 for
    the modifiers. *)
Theorem profile_columns_have_width (page : Page) (content : string) :
  (forall needle r rest, search_for page needle = r :: rest -> (x0 r <= x1 r)%Q) ->
  let g := extract_page_geometry_coordinates page content in
  (forall a b, g !! "dos_x0" = Some a -> g !! "dos_x1" = Some b -> (a + 60 <= b)%Z)
  /\ (forall a b, g !! "adj_x0" = Some a -> g !! "adj_x1" = Some b -> (a + 12 <= b)%Z)
  /\ (forall a b, g !! "mod_x0" = Some a -> g !! "mod_x1" = Some b -> (a + 40 <= b)%Z).
Proof.
  intros Hboxes. cbv zeta. repeat split; intros a b Ha Hb.
  - destruct (profile_lookup_found _ _ _ _ Ha)
      as [[_ (r & rest & E)] | [[Hin _] | [Hin _]]];
      [|apply (bool_decide_pack _) in Hin; vm_compute in Hin; contradiction..].
    destruct (profile_lookup_dos page content r rest E) as (H0 & H1 & _).
    rewrite H0 in Ha. rewrite H1 in Hb. injection Ha as <-. injection Hb as <-.
    pose proof (int_monotone _ _ (Hboxes _ _ _ E)). lia.
  - destruct (profile_lookup_found _ _ _ _ Ha)
      as [[Hin _] | [[_ (r & rest & E)] | [Hin _]]];
      [apply (bool_decide_pack _) in Hin; vm_compute in Hin; contradiction| |
       apply (bool_decide_pack _) in Hin; vm_compute in Hin; contradiction].
    destruct (profile_lookup_adj page content r rest E) as (H0 & H1).
    rewrite H0 in Ha. rewrite H1 in Hb. injection Ha as <-. injection Hb as <-.
    pose proof (int_monotone _ _ (Hboxes _ _ _ E)). lia.
  - destruct (profile_lookup_found _ _ _ _ Ha)
      as [[Hin _] | [[Hin _] | [_ (r & rest & E)]]];
      [apply (bool_decide_pack _) in Hin; vm_compute in Hin; contradiction..|].
    destruct (profile_lookup_mod page content r rest E) as (H0 & H1).
    rewrite H0 in Ha. rewrite H1 in Hb. injection Ha as <-. injection Hb as <-.
    pose proof (int_monotone _ _ (Hboxes _ _ _ E)). lia.
Qed.

Lemma landmark_boxes_well_formed :
  forall needle r rest,
    search_for Samples.page_claim_not_found needle = r :: rest -> (x0 r <= x1 r)%Q.
Proof.
  intros needle r rest. unfold Samples.page_claim_not_found, search_for.
  unfold Samples.needle_table, Samples.landmarks. cbn [List.find fst].
  repeat (destruct (String.eqb _ needle); cbn [snd]);
    try discriminate; intros [= <- _]; vm_compute; discriminate.
Qed.

Lemma profile_columns_have_width_witness :
  (forall needle r rest,
     search_for Samples.page_claim_not_found needle = r :: rest ->
     (x0 r <= x1 r)%Q)
  /\ let g := extract_page_geometry_coordinates Samples.page_claim_not_found "" in
  (forall a b, g !! "dos_x0" = Some a -> g !! "dos_x1" = Some b -> (a + 60 <= b)%Z)
  /\ (forall a b, g !! "adj_x0" = Some a -> g !! "adj_x1" = Some b -> (a + 12 <= b)%Z)
  /\ (forall a b, g !! "mod_x0" = Some a -> g !! "mod_x1" = Some b -> (a + 40 <= b)%Z).
Proof.
  split; [exact landmark_boxes_well_formed|].
  exact (profile_columns_have_width Samples.page_claim_not_found ""
           landmark_boxes_well_formed).
Defined.

(** ** Page width and crop rectangles *)

Lemma py_max_ub a b : (a <= py_max a b)%Q /\ (b <= py_max a b)%Q.
Proof.
  unfold py_max. destruct (Qlt_le_dec a b) as [Hlt|Hle].
  - split; [apply Qlt_le_weak, Hlt | apply Qle_refl].
  - split; [apply Qle_refl | exact Hle].
Qed.

Lemma py_max_choice a b : py_max a b = a \/ py_max a b = b.
Proof. unfold py_max. destruct (Qlt_le_dec a b); auto. Qed.

Lemma fold_py_max_ub l : forall q,
  (q <= fold_left py_max l q)%Q
  /\ forall x, x ∈ l -> (x <= fold_left py_max l q)%Q.
Proof.
  induction l as [|y l IH]; intros q; simpl.
  - split; [apply Qle_refl|]. intros x Hx. inversion Hx.
  - destruct (IH (py_max q y)) as [H1 H2].
    destruct (py_max_ub q y) as [Hq Hy]. split.
    + eapply Qle_trans; eassumption.
    + intros x Hx. apply elem_of_cons in Hx. destruct Hx as [->|Hx].
      * eapply Qle_trans; eassumption.
      * apply H2, Hx.
Qed.

Lemma fold_py_max_choice l : forall q,
  fold_left py_max l q = q \/ fold_left py_max l q ∈ l.
Proof.
  induction l as [|y l IH]; intros q; simpl; [left; reflexivity|].
  destruct (IH (py_max q y)) as [H|H].
  - rewrite H. destruct (py_max_choice q y) as [->| ->]; [left; reflexivity|].
    right. apply elem_of_cons. left. reflexivity.
  - right. apply elem_of_cons. right. exact H.
Qed.

Lemma py_max_list_greatest l q :
  py_max_list l = Some q -> q ∈ l /\ forall x, x ∈ l -> (x <= q)%Q.
Proof.
  destruct l as [|y l]; [discriminate|]. simpl. intros [= <-].
  destruct (fold_py_max_ub l y) as [H1 H2]. split.
  - destruct (fold_py_max_choice l y) as [->|H].
    + apply elem_of_cons. left. reflexivity.
    + apply elem_of_cons. right. exact H.
  - intros x Hx. apply elem_of_cons in Hx. destruct Hx as [->|Hx]; auto.
Qed.


Lemma list_index_spec c l : forall i,
  list_index c l = Some i <->
  exists pre post, l = pre ++ c :: post /\ (c ∉ pre) /\ i = length pre.
Proof.
  induction l as [|y l IH]; intros i; simpl.
  - split; [discriminate|]. intros (pre & post & H & _). destruct pre; discriminate.
  - destruct (String.eqb y c) eqn:E.
    + apply String.eqb_eq in E. subst y. split.
      * intros [= <-]. exists [], l. repeat split. intros H. inversion H.
      * intros (pre & post & H & Hn & ->). destruct pre as [|z pre]; [reflexivity|].
        injection H as <- _. exfalso. apply Hn. apply elem_of_cons. left. reflexivity.
    + apply String.eqb_neq in E. split.
      * destruct (list_index c l) as [j|] eqn:Ej; [|discriminate].
        intros [= <-]. destruct (proj1 (IH j) eq_refl) as (pre & post & -> & Hn & ->).
        exists (y :: pre), post. repeat split.
        intros H. apply elem_of_cons in H. destruct H as [H|H]; [congruence | tauto].
      * intros (pre & post & H & Hn & ->). destruct pre as [|z pre].
        { injection H as H _. congruence. }
        injection H as <- H.
        rewrite (proj2 (IH (length pre))); [reflexivity|].
        exists pre, post. repeat split; [exact H|].
        intros Hin. apply Hn. apply elem_of_cons. right. exact Hin.
Qed.

(** X15.  [find_next_claim_number] answers the entry that follows the first
    occurrence of the current claim number, and nothing when the number does
    not occur or its first occurrence is the last entry. *)
Theorem next_claim_follows_first_occurrence (claim_list : list string)
    (current next : string) :
  find_next_claim_number claim_list current = Some next <->
  exists pre post, claim_list = pre ++ current :: next :: post /\ (current ∉ pre).
Proof.
  unfold find_next_claim_number. split.
  - destruct (list_index current claim_list) as [i|] eqn:E; [|discriminate].
    apply list_index_spec in E. destruct E as (pre & post & -> & Hn & ->).
    destruct (_ =? _); [discriminate|].
    rewrite lookup_app_r by lia.
    replace (length pre + 1 - length pre) with 1 by lia.
    destruct post as [|x post]; [discriminate|]. simpl. intros [= ->].
    exists pre, post. split; [reflexivity | exact Hn].
  - intros (pre & post & -> & Hn).
    rewrite (proj2 (list_index_spec current _ (length pre)))
      by (exists pre, (next :: post); repeat split; exact Hn).
    destruct (_ =? _) eqn:E.
    + apply Nat.eqb_eq in E. rewrite length_app in E. simpl in E. lia.
    + rewrite lookup_app_r by lia.
      replace (length pre + 1 - length pre) with 1 by lia. reflexivity.
Qed.

(** X16.  A resolved crop rectangle runs from the left edge to the computed
    page width, starts 30 points below the truncated bottom of the first hit
    of the claim number, and ends strictly below its start.  Its lower edge
    is chosen in a fixed order: the truncated top of the first hit of the
    original reference number when that number is found on the page;
    otherwise the bound taken from the next claim number when there is one
    and it is not 0; otherwise the bound taken from the patient-response
    markers. *)
Theorem crop_rectangle_shape (page : Page) (claim_number reference : string)
    (crop : Rect) :
  create_claim_block_crop_rectangle page claim_number reference = Some crop ->
  exists claim_hit rest,
    search_for page claim_number = claim_hit :: rest
    /\ x0 crop = 0%Q
    /\ x1 crop = calculate_real_page_width page 0
    /\ y0 crop = inject_Z (int (y1 claim_hit) + 30)
    /\ (y0 crop < y1 crop)%Q
    /\ (forall reference_hit rest',
          search_for page reference = reference_hit :: rest' ->
          y1 crop = inject_Z (int (y0 reference_hit)))
    /\ (search_for page reference = [] ->
        match get_bottom_coordinate_by_next_claim page claim_number with
        | Some bound =>
            if (bound =? 0)%Z
            then find_bottom_of_last_patient_response page claim_number
                 = Some (y1 crop)
            else y1 crop = inject_Z bound
        | None =>
            find_bottom_of_last_patient_response page claim_number = Some (y1 crop)
        end).
Proof.
  unfold create_claim_block_crop_rectangle.
  destruct (search_for page claim_number) as [|claim_hit rest] eqn:Hclaim;
    [discriminate|].
  intros H. exists claim_hit, rest. split; [reflexivity|].
  destruct (search_for page reference) as [|reference_hit rest'].
  - destruct (py_or _ _) as [bottom|] eqn:Hor; [|discriminate].
    destruct (Qle_bool bottom _) eqn:E; [discriminate|].
    injection H as <-. simpl. repeat split; try discriminate.
    + apply Qnot_le_lt. intros Hle. apply Qle_bool_iff in Hle. congruence.
    + intros _. unfold py_or in Hor.
      destruct (get_bottom_coordinate_by_next_claim page claim_number) as [bound|];
        [|exact Hor].
      destruct (bound =? 0)%Z; [exact Hor | congruence].
  - destruct (Qle_bool _ _) eqn:E; [discriminate|].
    injection H as <-. simpl. repeat split; try discriminate.
    + apply Qnot_le_lt. intros Hle. apply Qle_bool_iff in Hle. congruence.
    + intros ? ? [= <- _]. reflexivity.
Qed.

Lemma crop_rectangle_shape_witness :
  exists crop,
    create_claim_block_crop_rectangle Samples.page_two_codes "A1" "" = Some crop
    /\ exists claim_hit rest,
         search_for Samples.page_two_codes "A1" = claim_hit :: rest
         /\ x0 crop = 0%Q
         /\ x1 crop = calculate_real_page_width Samples.page_two_codes 0
         /\ y0 crop = inject_Z (int (y1 claim_hit) + 30)
         /\ (y0 crop < y1 crop)%Q
         /\ (forall reference_hit rest',
               search_for Samples.page_two_codes "" = reference_hit :: rest' ->
               y1 crop = inject_Z (int (y0 reference_hit)))
         /\ (search_for Samples.page_two_codes "" = [] ->
             match get_bottom_coordinate_by_next_claim Samples.page_two_codes "A1" with
             | Some bound =>
                 if (bound =? 0)%Z
                 then find_bottom_of_last_patient_response Samples.page_two_codes "A1"
                      = Some (y1 crop)
                 else y1 crop = inject_Z bound
             | None =>
                 find_bottom_of_last_patient_response Samples.page_two_codes "A1"
                 = Some (y1 crop)
             end).
Proof.
  eexists. split; [vm_compute; reflexivity|].
  apply (crop_rectangle_shape Samples.page_two_codes "A1" "").
  vm_compute. reflexivity.
Defined.

(** X17.  The bottom taken from the patient-response markers is the greatest
    top edge among the hits for "PAT RESP:" in the strip that runs from the
    top of the claim number's first hit to the bottom of the page. *)
Theorem last_patient_response_is_lowest (page : Page) (claim_number : string)
    (bottom : Q) :
  find_bottom_of_last_patient_response page claim_number = Some bottom ->
  exists claim_hit rest,
    search_for page claim_number = claim_hit :: rest
    /\ let hits :=
         search_for_clip page "PAT RESP:"
           (mkRect 0 (y0 claim_hit) (calculate_real_page_width page 0)
                   (y1 (rect page))) in
       (exists hit, hit ∈ hits /\ y0 hit = bottom)
       /\ forall hit, hit ∈ hits -> (y0 hit <= bottom)%Q.
Proof.
  unfold find_bottom_of_last_patient_response.
  destruct (search_for page claim_number) as [|claim_hit rest]; [discriminate|].
  intros H. exists claim_hit, rest. split; [reflexivity|]. cbv zeta.
  destruct (py_max_list_greatest _ _ H) as [Hin Hub]. split.
  - apply list_elem_of_fmap in Hin. destruct Hin as (hit & -> & Hhit). eauto.
  - intros hit Hhit. apply Hub. apply list_elem_of_fmap. eauto.
Qed.

Lemma last_patient_response_is_lowest_witness :
  exists bottom,
    find_bottom_of_last_patient_response Samples.page_two_codes "A1" = Some bottom
    /\ exists claim_hit rest,
         search_for Samples.page_two_codes "A1" = claim_hit :: rest
         /\ let hits :=
              search_for_clip Samples.page_two_codes "PAT RESP:"
                (mkRect 0 (y0 claim_hit)
                        (calculate_real_page_width Samples.page_two_codes 0)
                        (y1 (rect Samples.page_two_codes))) in
            (exists hit, hit ∈ hits /\ y0 hit = bottom)
            /\ forall hit, hit ∈ hits -> (y0 hit <= bottom)%Q.
Proof.
  eexists. split; [vm_compute; reflexivity|].
  apply (last_patient_response_is_lowest Samples.page_two_codes "A1").
  vm_compute. reflexivity.
Defined.

(** ** The loop that collects distinct lines *)

Lemma is_empty_true s : Str.is_empty s = true <-> s = "".
Proof. destruct s; simpl; split; congruence. Qed.

Lemma is_empty_false s : Str.is_empty s = false <-> s <> "".
Proof. destruct s; simpl; split; congruence. Qed.

Lemma collect_lines_invariant lines : forall seen ordered,
  agrees (seen, ordered) -> NoDup ordered -> "" ∉ ordered ->
  agrees (collect_lines lines seen ordered)
  /\ NoDup (snd (collect_lines lines seen ordered))
  /\ ("" ∉ snd (collect_lines lines seen ordered))
  /\ (exists added, snd (collect_lines lines seen ordered) = ordered ++ added)
  /\ forall x, x ∈ snd (collect_lines lines seen ordered) <->
       x ∈ ordered
       \/ (x <> "" /\ exists line, line ∈ lines /\ Str.strip line = x).
Proof.
  induction lines as [|line lines IH]; intros seen ordered Hagree Hnodup Hne; simpl.
  - split; [exact Hagree|]. split; [exact Hnodup|]. split; [exact Hne|].
    split; [exists []; rewrite app_nil_r; reflexivity|].
    intros x. split; [auto|].
    intros [H|(_ & l & Hl & _)]; [exact H | inversion Hl].
  - destruct (Str.is_empty (Str.strip line)) eqn:Hempty; simpl.
    + apply is_empty_true in Hempty.
      destruct (IH seen ordered Hagree Hnodup Hne) as (H1 & H2 & H3 & H4 & H5).
      split; [exact H1|]. split; [exact H2|]. split; [exact H3|].
      split; [exact H4|]. intros x. rewrite H5. split.
      * intros [H|(Hx & l & Hl & Hs)]; [auto|]. right. split; [exact Hx|].
        exists l. split; [apply elem_of_cons; auto | exact Hs].
      * intros [H|(Hx & l & Hl & Hs)]; [auto|]. right. split; [exact Hx|].
        apply elem_of_cons in Hl. destruct Hl as [->|Hl]; [congruence|].
        exists l. split; assumption.
    + apply is_empty_false in Hempty.
      destruct (bool_decide (Str.strip line ∉ seen)) eqn:Hseen.
      * apply bool_decide_eq_true in Hseen.
        assert (Str.strip line ∉ ordered) as Hnew
          by (intros Hin; apply Hseen, Hagree, Hin).
        destruct (IH ({[Str.strip line]} ∪ seen) (ordered ++ [Str.strip line]))
          as (H1 & H2 & H3 & H4 & H5).
        { intros x. simpl. specialize (Hagree x). simpl in Hagree.
          rewrite elem_of_union, elem_of_singleton, elem_of_app,
            list_elem_of_singleton. tauto. }
        { apply NoDup_app. split; [exact Hnodup|]. split.
          - intros x Hx Hx'. apply list_elem_of_singleton in Hx'. congruence.
          - apply NoDup_singleton. }
        { rewrite elem_of_app, list_elem_of_singleton. intros [H|H]; [tauto|].
          congruence. }
        split; [exact H1|]. split; [exact H2|]. split; [exact H3|]. split.
        { destruct H4 as [added ->]. exists (Str.strip line :: added).
          rewrite <- app_assoc. reflexivity. }
        intros x. rewrite H5, elem_of_app, list_elem_of_singleton. split.
        -- intros [[H|H]|(Hx & l & Hl & Hs)]; [auto| |].
           ++ right. split; [congruence|]. exists line.
              split; [apply elem_of_cons; auto | congruence].
           ++ right. split; [exact Hx|]. exists l.
              split; [apply elem_of_cons; auto | exact Hs].
        -- intros [H|(Hx & l & Hl & Hs)]; [auto|].
           apply elem_of_cons in Hl. destruct Hl as [->|Hl]; [auto|].
           right. split; [exact Hx|]. exists l. split; assumption.
      * apply bool_decide_eq_false in Hseen.
        assert (Str.strip line ∈ ordered) as Hold.
        { apply Hagree. simpl. destruct (decide (Str.strip line ∈ seen)); tauto. }
        destruct (IH seen ordered Hagree Hnodup Hne) as (H1 & H2 & H3 & H4 & H5).
        split; [exact H1|]. split; [exact H2|]. split; [exact H3|].
        split; [exact H4|]. intros x. rewrite H5. split.
        -- intros [H|(Hx & l & Hl & Hs)]; [auto|]. right. split; [exact Hx|].
           exists l. split; [apply elem_of_cons; auto | exact Hs].
        -- intros [H|(Hx & l & Hl & Hs)]; [auto|].
           apply elem_of_cons in Hl. destruct Hl as [->|Hl]; [left; congruence|].
           right. split; [exact Hx|]. exists l. split; assumption.
Qed.

(** X18.  The loop that collects the lines of a column keeps its two
    variables in step: started with a set and a list that hold the same
    values, the list free of repetitions and of empty strings, it ends with
    such a pair again; the list it started with is a prefix of the final
    list, and the final list holds, besides the old values, exactly the
    non-empty stripped lines. *)
Theorem collected_lines_are_distinct (lines : list string) (seen : gset string)
    (ordered : list string) :
  agrees (seen, ordered) -> NoDup ordered -> "" ∉ ordered ->
  let final := collect_lines lines seen ordered in
  agrees final
  /\ NoDup (snd final)
  /\ ("" ∉ snd final)
  /\ (exists added, snd final = ordered ++ added)
  /\ forall x, x ∈ snd final <->
       x ∈ ordered
       \/ (x <> "" /\ exists line, line ∈ lines /\ Str.strip line = x).
Proof. intros H1 H2 H3. cbv zeta. apply collect_lines_invariant; assumption. Qed.

Lemma agrees_initial : agrees (∅, []).
Proof. intros x. simpl. split; intros H; [set_solver | inversion H]. Qed.

Lemma collected_lines_are_distinct_witness :
  agrees (∅, []) /\ NoDup (@nil string) /\ ("" ∉ @nil string)
  /\ let final := collect_lines ["a"; " a "; ""; "b"] ∅ [] in
     agrees final
     /\ NoDup (snd final)
     /\ ("" ∉ snd final)
     /\ (exists added, snd final = [] ++ added)
     /\ forall x, x ∈ snd final <->
          x ∈ @nil string
          \/ (x <> "" /\ exists line, line ∈ ["a"; " a "; ""; "b"]
                                     /\ Str.strip line = x).
Proof.
  assert ("" ∉ @nil string) as H by (intros H; inversion H).
  split; [exact agrees_initial|]. split; [apply NoDup_nil_2|]. split; [exact H|].
  exact (collected_lines_are_distinct ["a"; " a "; ""; "b"] ∅ []
           agrees_initial (NoDup_nil_2) H).
Defined.

(** ** Single-page extraction *)

(** X19.  Single-page extraction of the dates of service reads the crop
    rectangle itself between the two calibrated edges, the right one moved
    in by 35 points, and answers the distinct non-empty stripped lines in
    order of first appearance, joined by commas; without "dos_x0" in the
    profile it raises [KeyError] for that key, and with it but without
    "dos_x1" for the latter. *)
Theorem single_page_dates_of_service (page : Page) (patient_rectangle : Rect)
    (geometry_dict : gmap string Z) :
  extract_patient_dates_of_service page patient_rectangle geometry_dict
  = match geometry_dict !! "dos_x0", geometry_dict !! "dos_x1" with
    | Some a, Some b =>
        Ok (Str.join ","
              (first_seen
                 (stripped_lines
                    (get_text_clip page
                       (mkRect (inject_Z a) (y0 patient_rectangle)
                               (inject_Z (b - 35)) (y1 patient_rectangle))))))
    | None, _ => Raise (KeyError "dos_x0")
    | Some _, None => Raise (KeyError "dos_x1")
    end.
Proof.
  unfold extract_patient_dates_of_service, column_rectangle, getitem.
  destruct (geometry_dict !! "dos_x0") as [a|]; [|reflexivity].
  destruct (geometry_dict !! "dos_x1") as [b|]; [|reflexivity].
  cbn [mbind result_bind mret result_ret]. unfold dos_edge.
  destruct (collect_lines_first_seen
              (Str.splitlines
                 (get_text_clip page
                    (mkRect (inject_Z a) (y0 patient_rectangle)
                            (inject_Z (b - 35)) (y1 patient_rectangle))))
              ∅ [] agrees_initial) as [_ ->].
  fold (stripped_lines
          (get_text_clip page
             (mkRect (inject_Z a) (y0 patient_rectangle) (inject_Z (b - 35))
                     (y1 patient_rectangle)))).
  fold (first_seen
          (stripped_lines
             (get_text_clip page
                (mkRect (inject_Z a) (y0 patient_rectangle) (inject_Z (b - 35))
                        (y1 patient_rectangle))))).
  destruct (first_seen _); reflexivity.
Qed.

Lemma set_add_lines_fold lines : forall s x,
  x ∈ fold_left (fun s line =>
                   if Str.is_empty (Str.strip line) then s
                   else s ++ [Str.strip line]) lines s
  <-> x ∈ s \/ (x <> "" /\ exists line, line ∈ lines /\ Str.strip line = x).
Proof.
  induction lines as [|line lines IH]; intros s x; simpl.
  - split; [auto|]. intros [H|(_ & l & Hl & _)]; [exact H | inversion Hl].
  - rewrite IH. destruct (Str.is_empty (Str.strip line)) eqn:E.
    + apply is_empty_true in E. split.
      * intros [H|(Hx & l & Hl & Hs)]; [auto|]. right. split; [exact Hx|].
        exists l. split; [apply elem_of_cons; auto | exact Hs].
      * intros [H|(Hx & l & Hl & Hs)]; [auto|].
        apply elem_of_cons in Hl. destruct Hl as [->|Hl]; [congruence|].
        right. split; [exact Hx|]. exists l. split; assumption.
    + apply is_empty_false in E. rewrite elem_of_app, list_elem_of_singleton. split.
      * intros [[H|H]|(Hx & l & Hl & Hs)]; [auto| |].
        -- right. split; [congruence|]. exists line.
           split; [apply elem_of_cons; auto | congruence].
        -- right. split; [exact Hx|]. exists l.
           split; [apply elem_of_cons; auto | exact Hs].
      * intros [H|(Hx & l & Hl & Hs)]; [auto|].
        apply elem_of_cons in Hl. destruct Hl as [->|Hl]; [auto|].
        right. split; [exact Hx|]. exists l. split; assumption.
Qed.

Lemma extract_set_column_items set_order left right page r g a b :
  valid_set_order set_order ->
  g !! left = Some a -> g !! right = Some b ->
  exists items,
    extract_set_column set_order left right page r g = Ok (Str.join "," items)
    /\ NoDup items
    /\ forall x, x ∈ items <->
         is_item_of (get_text_clip page
                       (mkRect (inject_Z a) (y0 r) (inject_Z b) (y1 r))) x.
Proof.
  intros Hvalid Ha Hb. unfold extract_set_column.
  rewrite (column_rectangle_ok g left right id _ _ a b Ha Hb).
  cbn [mbind result_bind mret result_ret]. unfold id.
  eexists. split; [reflexivity|].
  destruct (Hvalid (set_add_lines (Str.splitlines
              (get_text_clip page (mkRect (inject_Z a) (y0 r) (inject_Z b) (y1 r))))))
    as [Hnd Hin].
  split; [exact Hnd|]. intros x. rewrite Hin. unfold set_add_lines, is_item_of.
  rewrite set_add_lines_fold, elem_of_nil. tauto.
Qed.

(** X20.  Whatever order the interpreter enumerates a set in, single-page
    extraction of the service codes and of the modifiers answers a
    comma-joined list without repetition of exactly the non-empty stripped
    lines found between the two calibrated edges of the column, over the
    height of the crop rectangle. *)
Theorem set_columns_hold_each_line_once (set_order : list string -> list string)
    (page : Page) (patient_rectangle : Rect) (geometry_dict : gmap string Z) :
  valid_set_order set_order ->
  (forall a b,
     geometry_dict !! "adj_x0" = Some a -> geometry_dict !! "adj_x1" = Some b ->
     exists items,
       extract_patient_service_codes set_order page patient_rectangle geometry_dict
       = Ok (Str.join "," items)
       /\ NoDup items
       /\ forall x, x ∈ items <->
            is_item_of (get_text_clip page
                          (mkRect (inject_Z a) (y0 patient_rectangle)
                                  (inject_Z b) (y1 patient_rectangle))) x)
  /\ (forall a b,
        geometry_dict !! "mod_x0" = Some a -> geometry_dict !! "mod_x1" = Some b ->
        exists items,
          extract_patient_modifiers set_order page patient_rectangle geometry_dict
          = Ok (Str.join "," items)
          /\ NoDup items
          /\ forall x, x ∈ items <->
               is_item_of (get_text_clip page
                             (mkRect (inject_Z a) (y0 patient_rectangle)
                                     (inject_Z b) (y1 patient_rectangle))) x).
Proof.
  intros Hvalid. split; intros a b Ha Hb.
  - apply extract_set_column_items; assumption.
  - apply extract_set_column_items; assumption.
Qed.

Lemma set_columns_hold_each_line_once_witness :
  valid_set_order reversed_first_seen
  /\ (forall a b,
        Samples.profile_full !! "adj_x0" = Some a ->
        Samples.profile_full !! "adj_x1" = Some b ->
        exists items,
          extract_patient_service_codes reversed_first_seen Samples.page_two_codes
            Samples.letter Samples.profile_full
          = Ok (Str.join "," items)
          /\ NoDup items
          /\ forall x, x ∈ items <->
               is_item_of (get_text_clip Samples.page_two_codes
                             (mkRect (inject_Z a) (y0 Samples.letter)
                                     (inject_Z b) (y1 Samples.letter))) x)
  /\ (forall a b,
        Samples.profile_full !! "mod_x0" = Some a ->
        Samples.profile_full !! "mod_x1" = Some b ->
        exists items,
          extract_patient_modifiers reversed_first_seen Samples.page_two_codes
            Samples.letter Samples.profile_full
          = Ok (Str.join "," items)
          /\ NoDup items
          /\ forall x, x ∈ items <->
               is_item_of (get_text_clip Samples.page_two_codes
                             (mkRect (inject_Z a) (y0 Samples.letter)
                                     (inject_Z b) (y1 Samples.letter))) x).
Proof.
  split; [exact reversed_first_seen_valid|].
  exact (set_columns_hold_each_line_once reversed_first_seen Samples.page_two_codes
           Samples.letter Samples.profile_full reversed_first_seen_valid).
Defined.

(** ** Continuation stitching, page by page *)

Lemma string_app_cons a s t : String a s +:+ t = String a (s +:+ t).
Proof. reflexivity. Qed.

Lemma string_app_nil_r s : s +:+ "" = s.
Proof. induction s as [|a s IH]; [reflexivity|]. rewrite string_app_cons, IH. reflexivity. Qed.

Lemma string_app_assoc s t u : (s +:+ t) +:+ u = s +:+ (t +:+ u).
Proof.
  induction s as [|a s IH]; [reflexivity|].
  rewrite !string_app_cons, IH. reflexivity.
Qed.

Lemma stitch_page_open page crops combined :
  search_for page "PATIENT:" = [] ->
  stitch_page page (height (rect page)) crops combined
  = (crops ++ [stitch_region page], combined +:+ stitch_text page).
Proof.
  intros E. unfold stitch_page, stitch_text, stitch_region. rewrite E. reflexivity.
Qed.

Lemma stitch_page_closing page r l crops combined :
  search_for page "PATIENT:" = r :: l ->
  stitch_page page (y0 r) crops combined
  = (crops ++ [stitch_region page], combined +:+ stitch_text page).
Proof.
  intros E. unfold stitch_page, stitch_text, stitch_region. rewrite E. reflexivity.
Qed.

Lemma stitch_loop_by_page doc n crops combined :
  stitch_loop doc n crops combined
  = (crops ++ map stitch_region (pages_stitched doc n),
     combined +:+ concat_strings (map stitch_text (pages_stitched doc n))).
Proof.
  unfold pages_stitched. cbv zeta.
  funelim (stitch_loop doc n crops combined).
  - rewrite drop_ge by (unfold page_count in *; lia). simpl.
    rewrite app_nil_r, string_app_nil_r. reflexivity.
  - unfold load_page in *. apply lookup_ge_None in Heq.
    unfold page_count in *. lia.
  - rewrite H. rewrite (stitch_page_open _ _ _ Heq). simpl.
    unfold load_page in *. rewrite (drop_S _ _ _ Heq0). simpl.
    rewrite (has_landmark_nil _ Heq). rewrite decide_False by discriminate.
    rewrite <- app_assoc, string_app_assoc. simpl.
    destruct (list_find _ (drop (S (S _)) _)) as [[i y]|]; reflexivity.
  - rewrite (stitch_page_closing _ _ _ _ _ Heq).
    unfold load_page in *. rewrite (drop_S _ _ _ Heq0). simpl.
    rewrite (has_landmark_cons _ _ _ Heq). rewrite decide_True by reflexivity.
    simpl. rewrite ?take_0. simpl. rewrite string_app_nil_r. reflexivity.
Qed.

(** X21.  Continuation stitching works page by page: each visited page
    contributes one crop region and one piece of text that depend on that
    page alone.  The region runs over the computed page width from the
    bottom of the first "CLAIM STATUS" hit (63 when there is none) to the
    top of the first "PATIENT:" hit (the page height when there is none);
    the text is a newline followed by the stripped text of the region with
    every run of two or more dashes replaced by a space. *)
Theorem stitched_content_by_page (doc : Document) (origin : nat) :
  get_remaining_patient_block_content doc origin
  = (map stitch_region (pages_stitched doc origin),
     concat_strings (map stitch_text (pages_stitched doc origin))).
Proof.
  unfold get_remaining_patient_block_content. rewrite stitch_loop_by_page.
  reflexivity.
Qed.

(** ** Blocks begin with the tag and lose no text *)

Lemma rep_greedy_then_colon_end (k : nat -> string -> option Re.outcome) s :
  (forall pos s' o, k pos s' = Some o ->
     exists rest, s' = String ":" rest /\ fst o = S pos) ->
  forall pos o,
  Re.rep_greedy Str.is_space k pos s = Some o ->
  pos < fst o
  /\ forall n, fst o - pos <= n -> exists rest, Str.lstrip (Str.stake n s) = String ":" rest.
Proof.
  intros Hk. induction s as [|a s IH]; intros pos o H; simpl in H.
  - apply Hk in H. destruct H as (rest & H & _). discriminate.
  - destruct (Str.is_space a) eqn:Hsp.
    + destruct (Re.rep_greedy _ _ (S pos) s) as [o'|] eqn:Hrec.
      * injection H as ->. destruct (IH _ _ Hrec) as [Hlt Hn]. split; [lia|].
        intros n Hle. destruct n as [|n]; [lia|]. simpl. rewrite Hsp.
        apply Hn. lia.
      * apply Hk in H. destruct H as (rest & [= -> _] & _). discriminate.
    + apply Hk in H. destruct H as (rest & [= -> ->] & He). split; [lia|].
      intros n Hle. destruct n as [|n]; [lia|]. simpl. eauto.
Qed.

(** A match of the patient tag pattern covers a newline, "PATIENT", optional
    whitespace and ":"; any prefix of the text that reaches the end of the
    match shows the tag after the newline. *)
Lemma match_at_patient_tag_end pos s m :
  Re.match_at patient_regex pos s = Some m ->
  exists s', s = String (ascii_of_nat 10) s'
    /\ pos < Re.m_end m
    /\ forall n, Re.m_end m - pos - 1 <= n -> starts_with_tag (Str.stake n s') = true.
Proof.
  unfold Re.match_at.
  destruct (Re.rmatch _ _ _ _ _) as [[e g]|] eqn:H; [|discriminate].
  intros [= <-]. cbn [Re.m_end].
  unfold patient_regex, Patterns.PATIENT_TAG_PATTERN in H. simpl in H.
  destruct s as [|c0 s]; [discriminate|].
  destruct (Str.is_nl c0) eqn:Hnl; [|discriminate].
  apply is_nl_char in Hnl. subst c0. exists s. split; [reflexivity|].
  repeat (simpl in H;
    match type of H with
    | match ?t with EmptyString => _ | String _ _ => _ end = Some _ =>
        let c := fresh "c" in let E := fresh "E" in
        destruct t as [|c t]; [discriminate|]; simpl in H;
        match type of H with
        | (if ?b then _ else _) = _ =>
            destruct b eqn:E; [|discriminate];
            apply Ascii.eqb_eq in E; subst c
        end
    end).
  simpl in H.
  apply rep_greedy_then_colon_end in H.
  - destruct H as [Hlt Hn]. simpl in Hlt, Hn. split; [lia|].
    intros n Hle. do 7 (destruct n as [|n]; [lia|]).
    unfold starts_with_tag. simpl. rewrite ?Ascii.eqb_refl.
    destruct (Hn n) as [rest ->]; [lia|]. apply Ascii.eqb_refl.
  - intros pos' s' o' Hs'. destruct s' as [|x s']; [discriminate|].
    destruct (Ascii.eqb ":" x) eqn:Hx; [|discriminate].
    apply Ascii.eqb_eq in Hx. subst x. injection Hs' as <-. eauto.
Qed.

Lemma finditer_from_chain r s : forall pos skip,
  Forall (fun m => pos + skip <= Re.m_start m
                   /\ Re.match_at r (Re.m_start m) (Str.sdrop (Re.m_start m - pos) s)
                      = Some m)
         (Re.finditer_from r pos s skip)
  /\ StronglySorted (fun m m' => Re.m_end m <= Re.m_start m')
       (Re.finditer_from r pos s skip).
Proof.
  induction s as [|a s IH]; intros pos skip.
  - destruct skip; simpl.
    + destruct (Re.match_at r pos EmptyString) as [m|] eqn:E; simpl.
      * pose proof (match_at_start _ _ _ _ E) as Hs. split.
        -- constructor; [|constructor]. rewrite Hs, Nat.sub_diag. simpl.
           split; [lia | exact E].
        -- repeat constructor.
      * split; constructor.
    + split; constructor.
  - assert (forall pos' skip' (l : list Re.rmatch_obj),
              Forall (fun m => S pos' + skip' <= Re.m_start m
                        /\ Re.match_at r (Re.m_start m)
                             (Str.sdrop (Re.m_start m - S pos') s) = Some m) l ->
              Forall (fun m => S pos' + skip' <= Re.m_start m
                        /\ Re.match_at r (Re.m_start m)
                             (Str.sdrop (Re.m_start m - pos') (String a s)) = Some m) l)
      as Hshift.
    { intros pos' skip' l Hl. eapply Forall_impl; [exact Hl|]. simpl.
      intros m [Hge Hm]. split; [exact Hge|].
      replace (Re.m_start m - pos') with (S (Re.m_start m - S pos')) by lia.
      exact Hm. }
    destruct skip as [|n]; simpl.
    + destruct (Re.match_at r pos (String a s)) as [m|] eqn:E; simpl.
      * pose proof (match_at_start _ _ _ _ E) as Hs.
        destruct (IH (S pos) (Re.m_end m - pos - 1)) as [Hge Hsorted].
        apply Hshift in Hge. split.
        -- constructor.
           ++ rewrite Hs, Nat.sub_diag. simpl. split; [lia | exact E].
           ++ eapply Forall_impl; [exact Hge|]. simpl. intros m' [H1 H2].
              split; [lia | exact H2].
        -- constructor; [exact Hsorted|].
           eapply Forall_impl; [exact Hge|]. simpl. intros m' [H1 _]. lia.
      * destruct (IH (S pos) 0) as [Hge Hsorted]. apply Hshift in Hge.
        split; [|exact Hsorted].
        eapply Forall_impl; [exact Hge|]. simpl. intros m' [H1 H2].
        split; [lia | exact H2].
    + destruct (IH (S pos) n) as [Hge Hsorted]. apply Hshift in Hge.
      split; [|exact Hsorted].
      eapply Forall_impl; [exact Hge|]. simpl. intros m' [H1 H2].
      split; [lia | exact H2].
Qed.

Lemma stake_sdrop n : forall s, Str.stake n s +:+ Str.sdrop n s = s.
Proof.
  induction n as [|n IH]; intros s; [reflexivity|].
  destruct s as [|a s]; [reflexivity|]. simpl. rewrite string_app_cons, IH.
  reflexivity.
Qed.

Lemma sdrop_sdrop n : forall a s, Str.sdrop n (Str.sdrop a s) = Str.sdrop (a + n) s.
Proof.
  intros a. induction a as [|a IH]; intros s; [reflexivity|].
  destruct s as [|c s]; simpl.
  - destruct n; reflexivity.
  - apply IH.
Qed.

Lemma slice_sdrop text a b :
  a <= b -> Str.slice text a b +:+ Str.sdrop b text = Str.sdrop a text.
Proof.
  intros Hab. unfold Str.slice.
  replace (Str.sdrop b text) with (Str.sdrop (b - a) (Str.sdrop a text))
    by (rewrite sdrop_sdrop; f_equal; lia).
  apply stake_sdrop.
Qed.

Lemma starts_with_tag_lstrip_nl s : starts_with_tag s = true -> Str.lstrip_nl s = s.
Proof.
  unfold starts_with_tag. destruct s as [|c s]; [reflexivity|]. simpl.
  destruct (Ascii.eqb "P" c) eqn:E; [|discriminate].
  apply Ascii.eqb_eq in E. subst c. reflexivity.
Qed.

Lemma blocks_loop_tagged text ms : forall m0,
  Forall (fun m => Re.match_at patient_regex (Re.m_start m)
                     (Str.sdrop (Re.m_start m) text) = Some m) (m0 :: ms) ->
  StronglySorted (fun m m' => Re.m_end m <= Re.m_start m') (m0 :: ms) ->
  Forall (fun b => starts_with_tag b = true) (blocks_loop text (Re.m_start m0) ms)
  /\ concat_strings (map (fun b => Str.nl +:+ b) (blocks_loop text (Re.m_start m0) ms))
     = Str.sdrop (Re.m_start m0) text.
Proof.
  induction ms as [|m1 ms IH]; intros m0 Hall Hsorted; simpl.
  - apply Forall_cons in Hall. destruct Hall as [H0 _].
    apply match_at_patient_tag in H0. destruct H0 as (s' & Hs & Htag).
    rewrite Hs. simpl. rewrite (starts_with_tag_lstrip_nl _ Htag). split.
    + constructor; [exact Htag | constructor].
    + unfold concat_strings. simpl. rewrite string_app_nil_r. reflexivity.
  - apply Forall_cons in Hall. destruct Hall as [H0 Hall].
    apply StronglySorted_inv in Hsorted. destruct Hsorted as [Hsorted Hle].
    apply Forall_cons in Hle. destruct Hle as [Hle _].
    destruct (IH m1 Hall Hsorted) as [Htags Hconcat].
    apply match_at_patient_tag_end in H0.
    destruct H0 as (s' & Hs & Hlt & Hn).
    assert (Str.slice text (Re.m_start m0) (Re.m_start m1)
            = String (ascii_of_nat 10)
                (Str.stake (Re.m_start m1 - Re.m_start m0 - 1) s')) as Hslice.
    { unfold Str.slice. rewrite Hs.
      destruct (Re.m_start m1 - Re.m_start m0) as [|k] eqn:Hk; [lia|].
      simpl. rewrite Nat.sub_0_r. reflexivity. }
    assert (starts_with_tag (Str.stake (Re.m_start m1 - Re.m_start m0 - 1) s') = true)
      as Htag by (apply Hn; lia).
    rewrite Hslice. simpl. rewrite (starts_with_tag_lstrip_nl _ Htag). split.
    + constructor; assumption.
    + unfold concat_strings in *. simpl. rewrite Hconcat.
      change (Str.nl +:+ Str.stake (Re.m_start m1 - Re.m_start m0 - 1) s')
        with (String (ascii_of_nat 10)
                (Str.stake (Re.m_start m1 - Re.m_start m0 - 1) s')).
      rewrite <- Hslice. apply slice_sdrop. lia.
Qed.

Lemma patient_block_texts_tagged text :
  Forall (fun b => starts_with_tag b = true) (patient_block_texts patient_regex text)
  /\ concat_strings (map (fun b => Str.nl +:+ b) (patient_block_texts patient_regex text))
     = match tag_starts text with
       | a :: _ => Str.sdrop a text
       | [] => ""
       end.
Proof.
  unfold patient_block_texts, tag_starts.
  destruct (finditer_from_chain patient_regex text 0 0) as [Hall Hsorted].
  fold (Re.finditer patient_regex text) in Hall, Hsorted.
  destruct (Re.finditer patient_regex text) as [|m0 ms]; [split; [constructor | reflexivity]|].
  simpl. apply blocks_loop_tagged; [|exact Hsorted].
  eapply Forall_impl; [exact Hall|]. simpl. intros m [_ Hm].
  rewrite Nat.sub_0_r in Hm. exact Hm.
Qed.

(** X22.  Every block of a page begins with the patient tag ("PATIENT",
    optional whitespace, ":"), and the blocks lose no text: each block put
    back behind the newline that was stripped from it, the blocks
    concatenate to the page text from the first tag occurrence to the end.
    The text before the first occurrence is in no block. *)
Theorem blocks_begin_with_tag_and_cover_text (page : Page) (doc : Document)
    (n : nat) (g : gmap string Z) :
  let blocks := extract_patient_blocks_from_page page doc n g in
  (forall b, b ∈ blocks -> starts_with_tag (block_text b) = true)
  /\ concat_strings (map (fun b => Str.nl +:+ block_text b) blocks)
     = match tag_starts (get_text page) with
       | a :: _ => Str.sdrop a (get_text page)
       | [] => ""
       end.
Proof.
  cbv zeta. unfold extract_patient_blocks_from_page.
  destruct (patient_block_texts_tagged (get_text page)) as [Htags Hconcat]. split.
  - intros b Hb. apply list_elem_of_fmap in Hb. destruct Hb as (text & -> & Hin).
    simpl. rewrite Forall_forall in Htags. apply Htags. exact Hin.
  - rewrite map_map. simpl. exact Hconcat.
Qed.

(** ** The columns of the exported sheet *)

Lemma record_domain set_order b r :
  process_individual_patient_block set_order b = Ok [r] ->
  (forall k, k ∈ pattern_columns -> is_Some (r !! k))
  /\ (forall k, k ∈ geometry_columns ->
        (is_Some (r !! k) <-> records_service_columns b = true)).
Proof.
  intros Hrun.
  destruct (process_block_shape _ _ _ Hrun) as (text & d & Hbranch & Hrows).
  assert (r = extract_header_field_information (page_text b)
              ∪ update_matches Patterns.FIELD_EXTRACTION_PATTERNS text d) as ->
    by congruence.
  clear Hrows. split.
  - intros k Hk. unfold pattern_columns in Hk. rewrite !elem_of_app in Hk.
    apply lookup_union_is_Some.
    destruct Hk as [Hk|[Hk|Hk]].
    + right. apply update_matches_is_Some.
      destruct (Re.search _ _ _).
      * eapply single_page_block_keys; [exact Hbranch|].
        left. apply blank_record_is_Some, Hk.
      * eapply multi_page_block_keys; [exact Hbranch|].
        left. apply blank_record_is_Some, Hk.
    + right. apply update_matches_is_Some.
      destruct (Re.search _ _ _).
      * eapply single_page_block_keys; [exact Hbranch|]. right. exact Hk.
      * eapply multi_page_block_keys; [exact Hbranch|]. right. left. exact Hk.
    + left. unfold extract_header_field_information.
      apply update_matches_is_Some, blank_record_is_Some, Hk.
  - intros k Hk.
    destruct (geometry_key_not_pattern_column k Hk) as (Hf & Hc & Hh).
    rewrite final_record_lookup by assumption.
    unfold records_service_columns, is_continuation.
    destruct (Re.search patient_response_regex (block_text b) Patterns.DOTALL).
    + rewrite (single_page_geometry_key _ _ _ _ _ _ Hbranch
                 (blank_record_lookup_other _ _ Hf) Hk).
      simpl. rewrite bool_decide_eq_true. reflexivity.
    + simpl. split; [reflexivity|]. intros _.
      eapply multi_page_block_keys; [exact Hbranch|]. right. right. exact Hk.
Qed.

Lemma process_blocks_rows set_order blocks : forall acc rows,
  process_blocks set_order blocks acc = Ok rows ->
  exists rs,
    rows = acc ++ rs
    /\ Forall2 (fun b r => process_individual_patient_block set_order b = Ok [r])
         blocks rs.
Proof.
  induction blocks as [|b blocks IH]; intros acc rows; simpl.
  - intros [= <-]. exists []. rewrite app_nil_r. split; [reflexivity | constructor].
  - destruct (process_individual_patient_block set_order b) as [rs|e] eqn:Hb;
      [|discriminate].
    cbn [mbind result_bind]. intros Hrest. apply IH in Hrest.
    destruct Hrest as (rs' & -> & Hall).
    destruct (process_block_shape _ _ _ Hb) as (text & d & _ & ->).
    eexists (_ :: rs'). rewrite <- app_assoc. split; [reflexivity|].
    constructor; [exact Hb | exact Hall].
Qed.

Lemma column_order_cases c :
  c ∈ column_order -> c ∈ pattern_columns \/ c ∈ geometry_columns.
Proof.
  intros Hc. unfold column_order in Hc.
  repeat (apply elem_of_cons in Hc; destruct Hc as [->|Hc];
          [first [left; apply (bool_decide_unpack _); vm_compute; exact I
                 |right; apply (bool_decide_unpack _); vm_compute; exact I]|]).
  inversion Hc.
Qed.

Lemma filter_ext_elem (f g : string -> bool) l :
  (forall c, c ∈ l -> f c = g c) -> List.filter f l = List.filter g l.
Proof.
  intros H. apply List.filter_ext_in. intros c Hc. apply H.
  apply list_elem_of_In. exact Hc.
Qed.

(** X23.  The sheet written for a run that returns has its columns decided
    by the first block of the document alone: all twenty columns of the
    column order when there is no block, or when the first block records its
    service columns (it is a continuation block, or its crop rectangle
    resolves); otherwise the column order without "Date Of Service",
    "Service Code" and "Modifier", whatever the later blocks record. *)
Theorem exported_columns_follow_first_block
    (set_order : list string -> list string) (doc : Document) :
  is_ok (process_pdf_and_create_dataframe set_order (Readable doc)) = true ->
  exists blocks rows,
    iterate_all_patient_blocks (Readable doc) = Ok blocks
    /\ process_pdf_and_create_dataframe set_order (Readable doc) = Ok rows
    /\ available_columns rows
       = match blocks with
         | [] => column_order
         | first_block :: _ =>
             if records_service_columns first_block then column_order
             else List.filter (fun c => bool_decide (c ∉ geometry_columns))
                    column_order
         end.
Proof.
  intros Hok. apply is_ok_Ok in Hok. destruct Hok as [rows Hrun].
  eexists _, rows. split; [reflexivity|]. split; [exact Hrun|].
  unfold process_pdf_and_create_dataframe in Hrun. simpl in Hrun.
  apply process_blocks_rows in Hrun. destruct Hrun as (rs & -> & Hall).
  simpl. simpl in Hall.
  destruct Hall as [|b r blocks rs Hb Hall]; [vm_compute; reflexivity|].
  destruct (record_domain _ _ _ Hb) as [Hpat Hgeo].
  unfold available_columns.
  rewrite (filter_ext_elem _
             (fun c => bool_decide (c ∉ geometry_columns)
                       || records_service_columns b)).
  - destruct (records_service_columns b); vm_compute; reflexivity.
  - intros c Hc. simpl.
    destruct (decide (c ∈ geometry_columns)) as [Hin|Hout].
    + rewrite (bool_decide_eq_false_2 (c ∉ geometry_columns)) by tauto. simpl.
      destruct (records_service_columns b) eqn:E.
      * apply bool_decide_eq_true_2. apply Hgeo; [exact Hin | reflexivity].
      * apply bool_decide_eq_false_2. intros H. apply Hgeo in H; [|exact Hin].
        discriminate.
    + rewrite (bool_decide_eq_true_2 (c ∉ geometry_columns)) by exact Hout. simpl.
      apply bool_decide_eq_true_2. apply Hpat.
      destruct (column_order_cases c Hc); [assumption | contradiction].
Qed.

Lemma exported_columns_follow_first_block_witness :
  is_ok (process_pdf_and_create_dataframe first_seen
           (Readable [Samples.page_claim_not_found; Samples.page_two_codes])) = true
  /\ exists blocks rows,
       iterate_all_patient_blocks
         (Readable [Samples.page_claim_not_found; Samples.page_two_codes]) = Ok blocks
       /\ process_pdf_and_create_dataframe first_seen
            (Readable [Samples.page_claim_not_found; Samples.page_two_codes]) = Ok rows
       /\ available_columns rows
          = match blocks with
            | [] => column_order
            | first_block :: _ =>
                if records_service_columns first_block then column_order
                else List.filter (fun c => bool_decide (c ∉ geometry_columns))
                       column_order
            end.
Proof.
  assert (is_ok (process_pdf_and_create_dataframe first_seen
            (Readable [Samples.page_claim_not_found; Samples.page_two_codes])) = true)
    as H by (vm_compute; reflexivity).
  split; [exact H|].
  exact (exported_columns_follow_first_block first_seen _ H).
Defined.

(** ** What the service columns of a record hold *)

Lemma multi_page_block_service_columns b bd text d :
  process_multi_page_block b bd = Ok (text, d) ->
  d !! "Date Of Service"
    = answer (extract_dates_of_service_from_multiple_pages
                (continuation_regions b) (geometry_dict b))
  /\ d !! "Service Code"
     = answer (extract_service_codes_from_multiple_pages
                 (continuation_regions b) (geometry_dict b))
  /\ d !! "Modifier"
     = answer (extract_modifiers_from_multiple_pages
                 (continuation_regions b) (geometry_dict b)).
Proof.
  unfold process_multi_page_block, continuation_regions.
  destruct (get_remaining_patient_block_content _ _) as [rectangle_list remaining].
  cbn [fst]. rewrite claim_number_lookup. cbn [mbind result_bind].
  destruct (extract_dates_of_service_from_multiple_pages _ _) as [v1|e];
    [|discriminate]. cbn [mbind result_bind].
  destruct (extract_service_codes_from_multiple_pages _ _) as [v2|e];
    [|discriminate]. cbn [mbind result_bind].
  destruct (extract_modifiers_from_multiple_pages _ _) as [v3|e];
    [|discriminate]. cbn [mbind result_bind mret result_ret].
  intros [= <- <-]. cbn [answer]. repeat split.
  - do 2 (rewrite lookup_insert_ne by discriminate). apply lookup_insert_eq.
  - rewrite lookup_insert_ne by discriminate. apply lookup_insert_eq.
  - apply lookup_insert_eq.
Qed.

Lemma single_page_block_service_columns set_order b bd text d :
  process_single_page_block set_order b bd = Ok (text, d) ->
  bd !! "Date Of Service" = None -> bd !! "Service Code" = None ->
  bd !! "Modifier" = None ->
  match single_page_rectangle b with
  | Some block_rectangle =>
      d !! "Date Of Service"
        = answer (extract_patient_dates_of_service (current_page b)
                    block_rectangle (geometry_dict b))
      /\ d !! "Service Code"
         = answer (extract_patient_service_codes set_order (current_page b)
                     block_rectangle (geometry_dict b))
      /\ d !! "Modifier"
         = answer (extract_patient_modifiers set_order (current_page b)
                     block_rectangle (geometry_dict b))
  | None =>
      d !! "Date Of Service" = None /\ d !! "Service Code" = None
      /\ d !! "Modifier" = None
  end.
Proof.
  unfold process_single_page_block, single_page_rectangle.
  rewrite claim_number_lookup. cbn [mbind result_bind].
  rewrite orig_ref_num_lookup. cbn [mbind result_bind].
  intros Hrun H1 H2 H3.
  destruct (create_claim_block_crop_rectangle _ _ _) as [r|] eqn:Hrect.
  - rewrite (create_claim_block_crop_rectangle_truthy _ _ _ _ Hrect) in Hrun.
    destruct (extract_patient_dates_of_service _ _ _) as [v1|e]; [|discriminate].
    cbn [mbind result_bind] in Hrun.
    destruct (extract_patient_service_codes _ _ _ _) as [v2|e]; [|discriminate].
    cbn [mbind result_bind] in Hrun.
    destruct (extract_patient_modifiers _ _ _ _) as [v3|e]; [|discriminate].
    cbn [mbind result_bind mret result_ret] in Hrun.
    injection Hrun as <- <-. cbn [answer]. repeat split.
    + do 2 (rewrite lookup_insert_ne by discriminate). apply lookup_insert_eq.
    + rewrite lookup_insert_ne by discriminate. apply lookup_insert_eq.
    + apply lookup_insert_eq.
  - unfold mret, result_ret in Hrun.
    assert (d = assign_matches Patterns.CLAIM_REFERENCE_PATTERNS (block_text b) bd)
      as -> by congruence.
    repeat split;
      (rewrite assign_matches_lookup_other; [assumption|]);
      apply (bool_decide_unpack _); vm_compute; exact I.
Qed.

(** X24.  The three service columns of a record are the answers of the
    spatial extractions and nothing later overwrites them.  For a
    continuation block they are the multi-page extractions over the block's
    regions (the first section of its page, then the stitched regions), for a
    closed block whose crop rectangle resolves the single-page extractions
    over that rectangle, each with the profile the block carries; for a
    closed block without a rectangle they are missing. *)
Theorem service_columns_hold_extractions (set_order : list string -> list string)
    (b : Block) :
  is_ok (process_individual_patient_block set_order b) = true ->
  exists r,
    process_individual_patient_block set_order b = Ok [r]
    /\ if is_continuation b then
         r !! "Date Of Service"
           = answer (extract_dates_of_service_from_multiple_pages
                       (continuation_regions b) (geometry_dict b))
         /\ r !! "Service Code"
            = answer (extract_service_codes_from_multiple_pages
                        (continuation_regions b) (geometry_dict b))
         /\ r !! "Modifier"
            = answer (extract_modifiers_from_multiple_pages
                        (continuation_regions b) (geometry_dict b))
       else
         match single_page_rectangle b with
         | Some block_rectangle =>
             r !! "Date Of Service"
               = answer (extract_patient_dates_of_service (current_page b)
                           block_rectangle (geometry_dict b))
             /\ r !! "Service Code"
                = answer (extract_patient_service_codes set_order (current_page b)
                            block_rectangle (geometry_dict b))
             /\ r !! "Modifier"
                = answer (extract_patient_modifiers set_order (current_page b)
                            block_rectangle (geometry_dict b))
         | None =>
             r !! "Date Of Service" = None /\ r !! "Service Code" = None
             /\ r !! "Modifier" = None
         end.
Proof.
  intros Hok. apply is_ok_Ok in Hok. destruct Hok as [rows Hrun].
  destruct (process_block_shape _ _ _ Hrun) as (text & d & Hbranch & ->).
  eexists. split; [exact Hrun|].
  assert (forall k, k ∈ geometry_columns ->
            (extract_header_field_information (page_text b)
             ∪ update_matches Patterns.FIELD_EXTRACTION_PATTERNS text d) !! k
            = d !! k) as Hkeep.
  { intros k Hk. destruct (geometry_key_not_pattern_column k Hk) as (Hf & _ & Hh).
    apply final_record_lookup; assumption. }
  assert (forall k, k ∈ geometry_columns ->
            blank_record Patterns.FIELD_EXTRACTION_PATTERNS !! k = None) as Hblank.
  { intros k Hk. destruct (geometry_key_not_pattern_column k Hk) as (Hf & _ & _).
    apply blank_record_lookup_other, Hf. }
  assert ("Date Of Service" ∈ geometry_columns) as K1 by (unfold geometry_columns; set_solver).
  assert ("Service Code" ∈ geometry_columns) as K2 by (unfold geometry_columns; set_solver).
  assert ("Modifier" ∈ geometry_columns) as K3 by (unfold geometry_columns; set_solver).
  rewrite (Hkeep _ K1), (Hkeep _ K2), (Hkeep _ K3).
  unfold is_continuation.
  destruct (Re.search patient_response_regex (block_text b) Patterns.DOTALL).
  - apply (single_page_block_service_columns _ _ _ _ _ Hbranch); auto.
  - apply (multi_page_block_service_columns _ _ _ _ Hbranch).
Qed.

Lemma service_columns_hold_extractions_witness :
  is_ok (process_individual_patient_block first_seen
           (first_block_of Samples.page_two_codes Samples.profile_full)) = true
  /\ exists r,
       process_individual_patient_block first_seen
         (first_block_of Samples.page_two_codes Samples.profile_full) = Ok [r]
       /\ if is_continuation
               (first_block_of Samples.page_two_codes Samples.profile_full) then
            r !! "Date Of Service"
              = answer (extract_dates_of_service_from_multiple_pages
                          (continuation_regions
                             (first_block_of Samples.page_two_codes Samples.profile_full))
                          (geometry_dict
                             (first_block_of Samples.page_two_codes Samples.profile_full)))
            /\ r !! "Service Code"
               = answer (extract_service_codes_from_multiple_pages
                           (continuation_regions
                              (first_block_of Samples.page_two_codes Samples.profile_full))
                           (geometry_dict
                              (first_block_of Samples.page_two_codes Samples.profile_full)))
            /\ r !! "Modifier"
               = answer (extract_modifiers_from_multiple_pages
                           (continuation_regions
                              (first_block_of Samples.page_two_codes Samples.profile_full))
                           (geometry_dict
                              (first_block_of Samples.page_two_codes Samples.profile_full)))
          else
            match single_page_rectangle
                    (first_block_of Samples.page_two_codes Samples.profile_full) with
            | Some block_rectangle =>
                r !! "Date Of Service"
                  = answer (extract_patient_dates_of_service
                              (current_page
                                 (first_block_of Samples.page_two_codes Samples.profile_full))
                              block_rectangle
                              (geometry_dict
                                 (first_block_of Samples.page_two_codes Samples.profile_full)))
                /\ r !! "Service Code"
                   = answer (extract_patient_service_codes first_seen
                               (current_page
                                  (first_block_of Samples.page_two_codes Samples.profile_full))
                               block_rectangle
                               (geometry_dict
                                  (first_block_of Samples.page_two_codes Samples.profile_full)))
                /\ r !! "Modifier"
                   = answer (extract_patient_modifiers first_seen
                               (current_page
                                  (first_block_of Samples.page_two_codes Samples.profile_full))
                               block_rectangle
                               (geometry_dict
                                  (first_block_of Samples.page_two_codes Samples.profile_full)))
            | None =>
                r !! "Date Of Service" = None /\ r !! "Service Code" = None
                /\ r !! "Modifier" = None
            end.
Proof.
  assert (is_ok (process_individual_patient_block first_seen
            (first_block_of Samples.page_two_codes Samples.profile_full)) = true)
    as H by (vm_compute; reflexivity).
  split; [exact H|].
  exact (service_columns_hold_extractions first_seen _ H).
Defined.

(** ** When a block can be processed *)

Lemma holds_column_keys_iff g :
  holds_column_keys g <->
  (is_Some (g !! "dos_x0") /\ is_Some (g !! "dos_x1"))
  /\ (is_Some (g !! "adj_x0") /\ is_Some (g !! "adj_x1"))
  /\ (is_Some (g !! "mod_x0") /\ is_Some (g !! "mod_x1")).
Proof.
  unfold holds_column_keys, column_keys. split.
  - intros H. repeat split; apply H; set_solver.
  - intros ((H1 & H2) & (H3 & H4) & (H5 & H6)) k Hk.
    repeat (apply elem_of_cons in Hk; destruct Hk as [->|Hk]; [assumption|]).
    inversion Hk.
Qed.

Lemma column_rectangle_is_ok g left right edge top bottom :
  is_ok (column_rectangle g left right edge top bottom) = true
  <-> is_Some (g !! left) /\ is_Some (g !! right).
Proof.
  unfold column_rectangle, getitem.
  destruct (g !! left) as [a|]; cbn [mbind result_bind is_ok].
  - destruct (g !! right) as [b|]; cbn [mbind result_bind is_ok].
    + split; [eauto | reflexivity].
    + split; [discriminate | intros [_ [x Hx]]; discriminate].
  - split; [discriminate | intros [[x Hx] _]; discriminate].
Qed.

Lemma extract_column_is_ok left right edge crops g :
  is_ok (extract_column_from_multiple_pages left right edge crops g) = true
  <-> crops = []
      \/ (2 <= length crops /\ is_Some (g !! left) /\ is_Some (g !! right)).
Proof.
  destruct crops as [|[first_page first_rectangle] [|second rest]].
  - split; [auto | reflexivity].
  - rewrite single_region_unpack_fails. simpl. split; [discriminate|].
    intros [H|[H _]]; [discriminate | lia].
  - split.
    + intros H. right. split; [simpl; lia|].
      apply (column_rectangle_is_ok g left right edge
               (y0 first_rectangle + 20)%Q (y1 first_rectangle)).
      unfold extract_column_from_multiple_pages, unpack_first_middle_last in H.
      cbn [mbind result_bind] in H.
      destruct (column_rectangle g left right edge _ _); [reflexivity|].
      discriminate H.
    + intros [H|(Hlen & [a Ha] & [b Hb])]; [discriminate|].
      rewrite (extract_column_from_multiple_pages_ok _ _ _ _ _ a b Hlen Ha Hb).
      reflexivity.
Qed.

Lemma dates_of_service_is_ok page r g :
  is_ok (extract_patient_dates_of_service page r g) = true
  <-> is_Some (g !! "dos_x0") /\ is_Some (g !! "dos_x1").
Proof.
  rewrite <- (column_rectangle_is_ok g "dos_x0" "dos_x1" dos_edge (y0 r) (y1 r)).
  unfold extract_patient_dates_of_service.
  destruct (column_rectangle _ _ _ _ _ _); reflexivity.
Qed.

Lemma set_column_is_ok set_order left right page r g :
  is_ok (extract_set_column set_order left right page r g) = true
  <-> is_Some (g !! left) /\ is_Some (g !! right).
Proof.
  rewrite <- (column_rectangle_is_ok g left right id (y0 r) (y1 r)).
  unfold extract_set_column.
  destruct (column_rectangle _ _ _ _ _ _); reflexivity.
Qed.

Lemma multi_page_block_is_ok b bd :
  is_ok (process_multi_page_block b bd) = true
  <-> continuation_regions b = []
      \/ (2 <= length (continuation_regions b)
          /\ holds_column_keys (geometry_dict b)).
Proof.
  rewrite holds_column_keys_iff.
  unfold process_multi_page_block, continuation_regions.
  destruct (get_remaining_patient_block_content _ _) as [rectangle_list remaining].
  cbn [fst]. rewrite claim_number_lookup. cbn [mbind result_bind].
  set (crops := _ ++ rectangle_list).
  pose proof (extract_column_is_ok "dos_x0" "dos_x1" dos_edge crops (geometry_dict b))
    as H1.
  pose proof (extract_column_is_ok "adj_x0" "adj_x1" id crops (geometry_dict b)) as H2.
  pose proof (extract_column_is_ok "mod_x0" "mod_x1" id crops (geometry_dict b)) as H3.
  unfold extract_dates_of_service_from_multiple_pages,
    extract_service_codes_from_multiple_pages, extract_modifiers_from_multiple_pages.
  destruct (extract_column_from_multiple_pages "dos_x0" _ _ _ _) as [v1|e1];
    cbn [mbind result_bind is_ok] in *; [|intuition discriminate].
  destruct (extract_column_from_multiple_pages "adj_x0" _ _ _ _) as [v2|e2];
    cbn [mbind result_bind is_ok] in *; [|intuition discriminate].
  destruct (extract_column_from_multiple_pages "mod_x0" _ _ _ _) as [v3|e3];
    cbn [mbind result_bind is_ok] in *; [|intuition discriminate].
  intuition.
Qed.

Lemma single_page_block_is_ok set_order b bd :
  is_ok (process_single_page_block set_order b bd) = true
  <-> single_page_rectangle b = None \/ holds_column_keys (geometry_dict b).
Proof.
  rewrite holds_column_keys_iff.
  unfold process_single_page_block, single_page_rectangle.
  rewrite claim_number_lookup. cbn [mbind result_bind].
  rewrite orig_ref_num_lookup. cbn [mbind result_bind].
  destruct (create_claim_block_crop_rectangle _ _ _) as [r|] eqn:Hrect;
    [|split; [auto | reflexivity]].
  rewrite (create_claim_block_crop_rectangle_truthy _ _ _ _ Hrect).
  pose proof (dates_of_service_is_ok (current_page b) r (geometry_dict b)) as H1.
  pose proof (set_column_is_ok set_order "adj_x0" "adj_x1" (current_page b) r
                (geometry_dict b)) as H2.
  pose proof (set_column_is_ok set_order "mod_x0" "mod_x1" (current_page b) r
                (geometry_dict b)) as H3.
  unfold extract_patient_service_codes, extract_patient_modifiers.
  destruct (extract_patient_dates_of_service _ _ _) as [v1|e1];
    cbn [mbind result_bind is_ok] in *; [|intuition discriminate].
  destruct (extract_set_column set_order "adj_x0" _ _ _ _) as [v2|e2];
    cbn [mbind result_bind is_ok] in *; [|intuition discriminate].
  destruct (extract_set_column set_order "mod_x0" _ _ _ _) as [v3|e3];
    cbn [mbind result_bind is_ok] in *; [|intuition discriminate].
  intuition.
Qed.

Lemma claim_number_in_columns :
  "Claim Number" ∈ columns Patterns.CLAIM_REFERENCE_PATTERNS.
Proof. apply (bool_decide_unpack _). vm_compute. exact I. Qed.

(** X25.  A block is processed without an exception exactly in these
    cases.  A continuation block: no crop region is recorded for it, or at
    least two are and the profile it carries holds the six column keys.  A
    closed block: its crop rectangle does not resolve, or the profile holds
    the six column keys.  Nothing else makes the processing of a block
    fail; in particular the key "dos_y1" of the profile plays no part in
    it. *)
Theorem block_is_processed_iff (set_order : list string -> list string) (b : Block) :
  is_ok (process_individual_patient_block set_order b) = true
  <-> if is_continuation b then
        continuation_regions b = []
        \/ (2 <= length (continuation_regions b)
            /\ holds_column_keys (geometry_dict b))
      else
        single_page_rectangle b = None \/ holds_column_keys (geometry_dict b).
Proof.
  unfold is_continuation.
  assert (is_ok (process_individual_patient_block set_order b)
          = is_ok (match Re.search patient_response_regex (block_text b)
                           Patterns.DOTALL with
                   | None =>
                       process_multi_page_block b
                         (blank_record Patterns.FIELD_EXTRACTION_PATTERNS)
                   | Some _ =>
                       process_single_page_block set_order b
                         (blank_record Patterns.FIELD_EXTRACTION_PATTERNS)
                   end)) as ->.
  { unfold process_individual_patient_block.
    destruct (match Re.search _ _ _ with None => _ | Some _ => _ end)
      as [[text d]|e] eqn:Hbranch; [|reflexivity].
    cbn [mbind result_bind]. rewrite claim_number_survives.
    assert (is_Some (d !! "Claim Number")) as [cn Hcn].
    { destruct (Re.search _ _ _).
      - eapply single_page_block_keys; [exact Hbranch|].
        right. exact claim_number_in_columns.
      - eapply multi_page_block_keys; [exact Hbranch|].
        right. left. exact claim_number_in_columns. }
    unfold getfield. rewrite Hcn. reflexivity. }
  destruct (Re.search patient_response_regex (block_text b) Patterns.DOTALL).
  - apply single_page_block_is_ok.
  - apply multi_page_block_is_ok.
Qed.

(** ** Runs of dashes are collapsed *)

Lemma rep_greedy_final p g s : forall pos,
  exists e,
    Re.rep_greedy p (fun pos' _ => Some (pos', g)) pos s = Some (e, g)
    /\ pos <= e <= pos + String.length s.
Proof.
  induction s as [|a s IH]; intros pos; simpl.
  - exists pos. split; [reflexivity | lia].
  - destruct (p a).
    + destruct (IH (S pos)) as (e & -> & He). exists e. split; [reflexivity | lia].
    + exists pos. split; [reflexivity | lia].
Qed.

Lemma match_at_dash_run pos s m :
  Re.match_at Patterns.DASH_RUN_PATTERN pos s = Some m ->
  pos + 2 <= Re.m_end m <= pos + String.length s.
Proof.
  unfold Re.match_at, Patterns.DASH_RUN_PATTERN. simpl.
  destruct s as [|a [|b s]]; try discriminate.
  - destruct (Str.is_dash a); discriminate.
  - destruct (Str.is_dash a); [|discriminate].
    destruct (Str.is_dash b); [|discriminate].
    destruct (rep_greedy_final Str.is_dash None s (S (S pos))) as (e & -> & He).
    intros [= <-]. simpl. lia.
Qed.

Lemma match_at_dash_pair pos a b s :
  Str.is_dash a = true -> Str.is_dash b = true ->
  Re.match_at Patterns.DASH_RUN_PATTERN pos (String a (String b s)) <> None.
Proof.
  intros Ha Hb. unfold Re.match_at, Patterns.DASH_RUN_PATTERN. simpl.
  rewrite Ha, Hb.
  destruct (rep_greedy_final Str.is_dash None s (S (S pos))) as (e & -> & He).
  discriminate.
Qed.

Lemma finditer_from_skip r : forall skip s pos,
  skip <= String.length s ->
  Re.finditer_from r pos s skip = Re.finditer_from r (pos + skip) (Str.sdrop skip s) 0.
Proof.
  induction skip as [|skip IH]; intros s pos Hlen.
  - rewrite Nat.add_0_r. reflexivity.
  - destruct s as [|a s]; simpl in Hlen; [lia|].
    rewrite Nat.add_succ_r. simpl. apply IH. lia.
Qed.

Lemma sub_loop_shift repl text pos a s' ms :
  Str.sdrop pos text = String a s' ->
  Forall (fun m => S pos <= Re.m_start m) ms ->
  Re.sub_loop repl text pos ms = String a (Re.sub_loop repl text (S pos) ms).
Proof.
  intros Hs Hms. destruct ms as [|m ms]; simpl.
  - rewrite Hs. f_equal. symmetry. eapply sdrop_S. exact Hs.
  - apply Forall_cons in Hms. destruct Hms as [Hm _].
    unfold Str.slice. rewrite Hs, (sdrop_S _ _ _ _ Hs).
    destruct (Re.m_start m - pos) as [|k] eqn:Hk; [lia|].
    replace (Re.m_start m - S pos) with k by lia.
    simpl. rewrite string_app_cons. reflexivity.
Qed.

Lemma dash_sub_loop text : forall n s pos,
  String.length s <= n -> Str.sdrop pos text = s ->
  has_dash_run
    (Re.sub_loop " " text pos (Re.finditer_from Patterns.DASH_RUN_PATTERN pos s 0))
  = false
  /\ (starts_with_dash s = false ->
      starts_with_dash
        (Re.sub_loop " " text pos
           (Re.finditer_from Patterns.DASH_RUN_PATTERN pos s 0)) = false).
Proof.
  induction n as [|n IH]; intros s pos Hlen Hs.
  - destruct s; simpl in Hlen; [|lia]. simpl. rewrite Hs. split; reflexivity.
  - destruct s as [|a s'].
    + simpl. rewrite Hs. split; reflexivity.
    + cbn [Re.finditer_from].
      destruct (Re.match_at Patterns.DASH_RUN_PATTERN pos (String a s')) as [m|] eqn:E.
      * pose proof (match_at_start _ _ _ _ E) as Hstart.
        pose proof (match_at_dash_run _ _ _ E) as Hend. simpl in Hend, Hlen.
        rewrite finditer_from_skip by lia.
        replace (S pos + (Re.m_end m - pos - 1)) with (Re.m_end m) by lia.
        cbn [Re.sub_loop]. rewrite Hstart.
        unfold Str.slice. rewrite Nat.sub_diag.
        change (Str.stake 0 (Str.sdrop pos text) +:+ " " +:+ ?x) with (String " " x).
        destruct (IH (Str.sdrop (Re.m_end m - pos - 1) s') (Re.m_end m)) as [H1 _].
        { rewrite length_sdrop. lia. }
        { pose proof (sdrop_sdrop (S (Re.m_end m - pos - 1)) pos text) as Hx.
          rewrite Hs in Hx.
          replace (pos + S (Re.m_end m - pos - 1)) with (Re.m_end m) in Hx by lia.
          rewrite <- Hx. reflexivity. }
        split; [|intros _; reflexivity].
        cbn [has_dash_run]. rewrite H1. reflexivity.
      * pose proof (sdrop_S _ _ _ _ Hs) as Hs'.
        rewrite (sub_loop_shift " " text pos a s' _ Hs).
        2:{ destruct (finditer_from_starts Patterns.DASH_RUN_PATTERN s' (S pos) 0)
              as [Hge _].
            eapply Forall_impl; [exact Hge|]. simpl. intros; lia. }
        simpl in Hlen.
        destruct (IH s' (S pos)) as [H1 H2]; [lia | exact Hs'|].
        split.
        -- cbn [has_dash_run]. rewrite H1, orb_false_r.
           destruct (Str.is_dash a) eqn:Ha; [|reflexivity]. simpl.
           apply H2. destruct s' as [|b s'']; [reflexivity|]. simpl.
           destruct (Str.is_dash b) eqn:Hb; [|reflexivity].
           exfalso. exact (match_at_dash_pair pos a b s'' Ha Hb E).
        -- intros Hd. exact Hd.
Qed.

Lemma sub_dash_run text :
  has_dash_run (Re.sub Patterns.DASH_RUN_PATTERN " " text) = false.
Proof.
  unfold Re.sub, Re.finditer.
  apply (dash_sub_loop text (String.length text) text 0); [lia | reflexivity].
Qed.

Lemma has_dash_run_cons a s :
  has_dash_run (String a s) = false ->
  (Str.is_dash a && starts_with_dash s = false) /\ has_dash_run s = false.
Proof. simpl. intros H. apply orb_false_elim in H. exact H. Qed.

Lemma has_dash_run_lstrip s : has_dash_run s = false -> has_dash_run (Str.lstrip s) = false.
Proof.
  induction s as [|a s IH]; intros H; [reflexivity|]. simpl.
  destruct (Str.is_space a); [|exact H].
  apply IH. apply has_dash_run_cons in H. tauto.
Qed.

Lemma starts_with_dash_rstrip s :
  starts_with_dash s = false -> starts_with_dash (Str.rstrip s) = false.
Proof.
  destruct s as [|a s]; intros H; [reflexivity|]. simpl.
  destruct (Str.is_space a && Str.is_empty (Str.rstrip s)); [reflexivity | exact H].
Qed.

Lemma has_dash_run_rstrip s : has_dash_run s = false -> has_dash_run (Str.rstrip s) = false.
Proof.
  induction s as [|a s IH]; intros H; [reflexivity|]. simpl.
  destruct (Str.is_space a && Str.is_empty (Str.rstrip s)); [reflexivity|].
  apply has_dash_run_cons in H. destruct H as [Ha Hs].
  cbn [has_dash_run]. rewrite (IH Hs), orb_false_r.
  destruct (Str.is_dash a); [|reflexivity]. simpl in *.
  apply starts_with_dash_rstrip, Ha.
Qed.

Lemma has_dash_run_app s t :
  has_dash_run s = false -> has_dash_run t = false -> starts_with_dash t = false ->
  has_dash_run (s +:+ t) = false
  /\ (starts_with_dash s = false -> starts_with_dash (s +:+ t) = false).
Proof.
  intros Hs Ht Hd. induction s as [|a s IH].
  - split; [exact Ht | intros _; exact Hd].
  - apply has_dash_run_cons in Hs. destruct Hs as [Ha Hs].
    destruct (IH Hs) as [H1 H2]. rewrite string_app_cons. split.
    + cbn [has_dash_run]. rewrite H1, orb_false_r.
      destruct (Str.is_dash a); [|reflexivity]. simpl in *. apply H2, Ha.
    + intros H. exact H.
Qed.

Lemma stitch_text_dash_run page :
  has_dash_run (stitch_text page) = false /\ starts_with_dash (stitch_text page) = false.
Proof.
  unfold stitch_text.
  change (Str.nl +:+ ?x) with (String (ascii_of_nat 10) x).
  split; [|reflexivity].
  cbn [has_dash_run].
  change (Str.is_dash (ascii_of_nat 10)) with false. cbn [andb orb].
  apply has_dash_run_rstrip, has_dash_run_lstrip, sub_dash_run.
Qed.

Lemma concat_strings_dash_run (l : list string) :
  Forall (fun t => has_dash_run t = false /\ starts_with_dash t = false) l ->
  has_dash_run (concat_strings l) = false
  /\ starts_with_dash (concat_strings l) = false.
Proof.
  induction 1 as [|t l [Ht Hd] _ [IH1 IH2]]; [split; reflexivity|].
  unfold concat_strings in *. simpl.
  destruct (has_dash_run_app t _ Ht IH1 IH2) as [H1 H2]. split; [exact H1|].
  apply H2, Hd.
Qed.

(** X26.  Replacing every run of two or more dashes by a space leaves no
    two dashes next to each other, and neither does the text that
    continuation stitching returns, whose pieces are such replacements,
    stripped and put behind a newline. *)
Theorem dash_runs_are_collapsed (doc : Document) (origin : nat) (text : string) :
  has_dash_run (Re.sub Patterns.DASH_RUN_PATTERN " " text) = false
  /\ has_dash_run (snd (get_remaining_patient_block_content doc origin)) = false.
Proof.
  split; [apply sub_dash_run|].
  unfold get_remaining_patient_block_content. rewrite stitch_loop_by_page.
  cbn [snd]. change ("" +:+ ?x) with x.
  apply concat_strings_dash_run. apply Forall_forall. intros t Ht.
  apply list_elem_of_fmap in Ht. destruct Ht as (page & -> & _).
  apply stitch_text_dash_run.
Qed.

(** ** Textual fields are stored stripped *)

Lemma rstrip_idempotent s : Str.rstrip (Str.rstrip s) = Str.rstrip s.
Proof.
  induction s as [|a s IH]; [reflexivity|]. simpl.
  destruct (Str.is_space a && Str.is_empty (Str.rstrip s)) eqn:E; [reflexivity|].
  simpl. rewrite IH, E. reflexivity.
Qed.

Lemma lstrip_head s :
  Str.lstrip s = "" \/ exists c t, Str.lstrip s = String c t /\ Str.is_space c = false.
Proof.
  induction s as [|a s IH]; [left; reflexivity|]. simpl.
  destruct (Str.is_space a) eqn:E; [exact IH|]. right. eauto.
Qed.

Lemma lstrip_rstrip t :
  t = "" \/ (exists c t', t = String c t' /\ Str.is_space c = false) ->
  Str.lstrip (Str.rstrip t) = Str.rstrip t.
Proof.
  intros [->|(c & t' & -> & Hc)]; [reflexivity|]. simpl. rewrite Hc. simpl.
  rewrite Hc. reflexivity.
Qed.

Lemma strip_idempotent s : Str.strip (Str.strip s) = Str.strip s.
Proof.
  unfold Str.strip. rewrite (lstrip_rstrip _ (lstrip_head s)).
  apply rstrip_idempotent.
Qed.

Lemma capture_stripped p text :
  Str.strip (default "" (capture p text)) = default "" (capture p text).
Proof.
  unfold capture. destruct (Re.search p text 0); simpl; [|reflexivity].
  apply strip_idempotent.
Qed.

Lemma record_textual_fields set_order b r :
  process_individual_patient_block set_order b = Ok [r] ->
  (forall k p,
     (k, p) ∈ Patterns.FIELD_EXTRACTION_PATTERNS ++ Patterns.CLAIM_REFERENCE_PATTERNS ->
     r !! k = Some (default "" (capture p
                (if is_continuation b then continuation_text b else block_text b))))
  /\ (forall k p,
        (k, p) ∈ Patterns.HEADER_FIELD_PATTERNS ->
        r !! k = Some (default "" (capture p (page_text b)))).
Proof.
  intros Hrun.
  destruct (process_block_shape _ _ _ Hrun) as (text & d & Hbranch & Hrows).
  assert (r = extract_header_field_information (page_text b)
              ∪ update_matches Patterns.FIELD_EXTRACTION_PATTERNS text d) as ->
    by congruence.
  clear Hrows.
  destruct tables_without_repetition as (Hnd1 & Hnd2 & Hnd3). split.
  - intros k p Hin. apply elem_of_app in Hin. destruct Hin as [Hin|Hin].
    + pose proof (elem_of_columns _ _ _ Hin) as Hk.
      destruct (proj1 (Forall_forall _ _) tag_columns_apart k Hk) as (Hc & Hh & Hg).
      destruct (branch_other_keys _ _ _ _ k Hbranch Hg) as [Htext Hd].
      rewrite lookup_union_r.
      * rewrite <- Htext.
        apply update_matches_lookup_capture; [exact Hnd1 | exact Hin|].
        rewrite Hd, assign_matches_lookup_other by exact Hc.
        apply blank_record_lookup, Hk.
      * unfold extract_header_field_information.
        rewrite update_matches_lookup_other by exact Hh.
        apply blank_record_lookup_other, Hh.
    + pose proof (elem_of_columns _ _ _ Hin) as Hk.
      destruct (proj1 (Forall_forall _ _) claim_columns_apart k Hk) as (Hf & Hh & Hg).
      destruct (branch_other_keys _ _ _ _ k Hbranch Hg) as [Htext Hd].
      rewrite lookup_union_r.
      * rewrite update_matches_lookup_other by exact Hf.
        rewrite Hd, <- Htext.
        apply assign_matches_lookup_capture; [exact Hnd2 | exact Hin].
      * unfold extract_header_field_information.
        rewrite update_matches_lookup_other by exact Hh.
        apply blank_record_lookup_other, Hh.
  - intros k p Hin. pose proof (elem_of_columns _ _ _ Hin) as Hk.
    apply lookup_union_Some_l. unfold extract_header_field_information.
    apply update_matches_lookup_capture; [exact Hnd3 | exact Hin|].
    apply blank_record_lookup, Hk.
Qed.

Lemma column_has_pattern (table : list (string * Re.regex)) k :
  k ∈ columns table -> exists p, (k, p) ∈ table.
Proof.
  unfold columns. intros Hk. apply list_elem_of_fmap in Hk.
  destruct Hk as ([k' p] & -> & Hin). exists p. exact Hin.
Qed.

(** X27.  Every textual field of a record is stored stripped: the value
    under each of the seventeen pattern columns carries no whitespace at
    either end, so stripping it again changes nothing. *)
Theorem textual_fields_are_stripped (set_order : list string -> list string)
    (b : Block) :
  is_ok (process_individual_patient_block set_order b) = true ->
  exists r,
    process_individual_patient_block set_order b = Ok [r]
    /\ forall k v, k ∈ pattern_columns -> r !! k = Some v -> Str.strip v = v.
Proof.
  intros Hok. apply is_ok_Ok in Hok. destruct Hok as [rows Hrun].
  destruct (process_block_shape _ _ _ Hrun) as (text & d & _ & Hrows).
  rewrite Hrows in Hrun. eexists. split; [exact Hrun|].
  destruct (record_textual_fields _ _ _ Hrun) as [Hfields Hheader].
  intros k v Hk Hv. unfold pattern_columns in Hk.
  rewrite app_assoc in Hk. apply elem_of_app in Hk. destruct Hk as [Hk|Hk].
  - unfold columns in Hk. rewrite <- map_app in Hk.
    destruct (column_has_pattern _ _ Hk) as [p Hp].
    rewrite (Hfields k p Hp) in Hv. injection Hv as <-. apply capture_stripped.
  - destruct (column_has_pattern _ _ Hk) as [p Hp].
    rewrite (Hheader k p Hp) in Hv. injection Hv as <-. apply capture_stripped.
Qed.

Lemma textual_fields_are_stripped_witness :
  is_ok (process_individual_patient_block first_seen
           (first_block_of Samples.page_two_codes Samples.profile_full)) = true
  /\ exists r,
       process_individual_patient_block first_seen
         (first_block_of Samples.page_two_codes Samples.profile_full) = Ok [r]
       /\ forall k v, k ∈ pattern_columns -> r !! k = Some v -> Str.strip v = v.
Proof.
  assert (is_ok (process_individual_patient_block first_seen
            (first_block_of Samples.page_two_codes Samples.profile_full)) = true)
    as H by (vm_compute; reflexivity).
  split; [exact H|].
  exact (textual_fields_are_stripped first_seen _ H).
Defined.

(** ** A run fails with its first failing block *)

Lemma process_blocks_first_failure set_order blocks : forall acc,
  match list_find (fun b => is_ok (process_individual_patient_block set_order b) = false)
          blocks with
  | Some (_, bad) =>
      exists e, process_individual_patient_block set_order bad = Raise e
                /\ process_blocks set_order blocks acc = Raise e
  | None => is_ok (process_blocks set_order blocks acc) = true
  end.
Proof.
  induction blocks as [|b blocks IH]; intros acc; [reflexivity|].
  cbn [list_find process_blocks].
  destruct (process_individual_patient_block set_order b) as [rows|e] eqn:Hb.
  - rewrite decide_False by (simpl; discriminate).
    cbn [mbind result_bind]. specialize (IH (acc ++ rows)).
    destruct (list_find _ blocks) as [[i bad]|]; exact IH.
  - rewrite decide_True by reflexivity. exists e. split; [exact Hb | reflexivity].
Qed.

(** X28.  A run over a document that opens is all or nothing.  When every
    block of the document can be processed the run returns; otherwise it
    raises the exception of the first block, in document order, that cannot
    be processed, and the records of the blocks before it are not
    returned. *)
Theorem run_fails_with_first_failing_block (set_order : list string -> list string)
    (doc : Document) :
  exists blocks,
    iterate_all_patient_blocks (Readable doc) = Ok blocks
    /\ match list_find
               (fun b => is_ok (process_individual_patient_block set_order b) = false)
               blocks with
       | Some (_, bad) =>
           exists e,
             process_individual_patient_block set_order bad = Raise e
             /\ process_pdf_and_create_dataframe set_order (Readable doc) = Raise e
       | None =>
           is_ok (process_pdf_and_create_dataframe set_order (Readable doc)) = true
       end.
Proof.
  eexists. split; [reflexivity|].
  unfold process_pdf_and_create_dataframe. cbn [iterate_all_patient_blocks mbind result_bind].
  apply process_blocks_first_failure.
Qed.

(** ** The fields of a claim line *)

Lemma match_at_whitespace_run pos s m :
  Re.match_at WHITESPACE_RUN_PATTERN pos s = Some m ->
  pos + 1 <= Re.m_end m <= pos + String.length s.
Proof.
  unfold Re.match_at, WHITESPACE_RUN_PATTERN. simpl.
  destruct s as [|a s]; [discriminate|].
  destruct (Str.is_space a); [|discriminate].
  destruct (rep_greedy_final Str.is_space None s (S pos)) as (e & -> & He).
  intros [= <-]. simpl. lia.
Qed.

Lemma match_at_whitespace pos a s :
  Str.is_space a = true ->
  Re.match_at WHITESPACE_RUN_PATTERN pos (String a s) <> None.
Proof.
  intros Ha. unfold Re.match_at, WHITESPACE_RUN_PATTERN. simpl. rewrite Ha.
  destruct (rep_greedy_final Str.is_space None s (S pos)) as (e & -> & He).
  discriminate.
Qed.

Lemma split_loop_shift text pos a s' ms :
  Str.sdrop pos text = String a s' ->
  Forall (fun m => S pos <= Re.m_start m) ms ->
  split_loop text pos ms
  = match split_loop text (S pos) ms with
    | piece :: rest => String a piece :: rest
    | [] => []
    end.
Proof.
  intros Hs Hms. destruct ms as [|m ms]; simpl.
  - rewrite Hs. f_equal. f_equal. symmetry. eapply sdrop_S. exact Hs.
  - apply Forall_cons in Hms. destruct Hms as [Hm _].
    unfold Str.slice. rewrite Hs, (sdrop_S _ _ _ _ Hs).
    destruct (Re.m_start m - pos) as [|k] eqn:Hk; [lia|].
    replace (Re.m_start m - S pos) with k by lia. reflexivity.
Qed.

Lemma whitespace_split_loop text : forall n s pos,
  String.length s <= n -> Str.sdrop pos text = s ->
  Forall (fun piece => has_space piece = false)
         (split_loop text pos (Re.finditer_from WHITESPACE_RUN_PATTERN pos s 0)).
Proof.
  induction n as [|n IH]; intros s pos Hlen Hs.
  - destruct s; simpl in Hlen; [|lia]. simpl. rewrite Hs. repeat constructor.
  - destruct s as [|a s'].
    + simpl. rewrite Hs. repeat constructor.
    + cbn [Re.finditer_from].
      destruct (Re.match_at WHITESPACE_RUN_PATTERN pos (String a s')) as [m|] eqn:E.
      * pose proof (match_at_start _ _ _ _ E) as Hstart.
        pose proof (match_at_whitespace_run _ _ _ E) as Hend. simpl in Hend, Hlen.
        rewrite finditer_from_skip by lia.
        replace (S pos + (Re.m_end m - pos - 1)) with (Re.m_end m) by lia.
        cbn [split_loop]. rewrite Hstart.
        unfold Str.slice. rewrite Nat.sub_diag. constructor; [reflexivity|].
        apply IH.
        { rewrite length_sdrop. lia. }
        { pose proof (sdrop_sdrop (S (Re.m_end m - pos - 1)) pos text) as Hx.
          rewrite Hs in Hx.
          replace (pos + S (Re.m_end m - pos - 1)) with (Re.m_end m) in Hx by lia.
          rewrite <- Hx. reflexivity. }
      * pose proof (sdrop_S _ _ _ _ Hs) as Hs'.
        rewrite (split_loop_shift text pos a s' _ Hs).
        2:{ destruct (finditer_from_starts WHITESPACE_RUN_PATTERN s' (S pos) 0)
              as [Hge _].
            eapply Forall_impl; [exact Hge|]. simpl. intros; lia. }
        simpl in Hlen.
        assert (Str.is_space a = false) as Ha.
        { destruct (Str.is_space a) eqn:Ha; [|reflexivity].
          exfalso. exact (match_at_whitespace pos a s' Ha E). }
        pose proof (IH s' (S pos) ltac:(lia) Hs') as Hrest.
        destruct (split_loop text (S pos) _) as [|piece rest]; [constructor|].
        apply Forall_cons in Hrest. destruct Hrest as [Hpiece Hrest].
        constructor; [|exact Hrest]. simpl. rewrite Ha. exact Hpiece.
Qed.

Lemma re_split_whitespace text :
  Forall (fun piece => has_space piece = false) (re_split WHITESPACE_RUN_PATTERN text).
Proof.
  unfold re_split, Re.finditer.
  apply (whitespace_split_loop text (String.length text) text 0); [lia | reflexivity].
Qed.

Lemma Forall_nth_default {A} (P : A -> Prop) (l : list A) (d : A) i :
  Forall P l -> P d -> P (nth i l d).
Proof.
  intros Hl Hd. destruct (nth_in_or_default i l d) as [Hin| ->]; [|exact Hd].
  rewrite List.Forall_forall in Hl. apply Hl, Hin.
Qed.

(** X29.  The three fields that [parse_individual_claim_line] answers hold
    no whitespace character: they are the third, fourth and fifth of the
    pieces into which the runs of whitespace cut the stripped line when
    there are at least five pieces, and three empty strings otherwise. *)
Theorem claim_line_fields_hold_no_whitespace (line dos code modifier : string) :
  parse_individual_claim_line line = (dos, code, modifier) ->
  has_space dos = false /\ has_space code = false /\ has_space modifier = false
  /\ let tokens := re_split WHITESPACE_RUN_PATTERN (Str.strip line) in
     (5 <= length tokens
      /\ tokens !! 2 = Some dos /\ tokens !! 3 = Some code
      /\ tokens !! 4 = Some modifier)
     \/ (length tokens < 5 /\ dos = "" /\ code = "" /\ modifier = "").
Proof.
  unfold parse_individual_claim_line. cbv zeta.
  pose proof (re_split_whitespace (Str.strip line)) as Hall.
  destruct (5 <=? length (re_split WHITESPACE_RUN_PATTERN (Str.strip line))) eqn:E.
  - apply Nat.leb_le in E. intros [= <- <- <-].
    split; [apply Forall_nth_default; [exact Hall | reflexivity]|].
    split; [apply Forall_nth_default; [exact Hall | reflexivity]|].
    split; [apply Forall_nth_default; [exact Hall | reflexivity]|].
    left. split; [exact E|].
    destruct (re_split WHITESPACE_RUN_PATTERN (Str.strip line))
      as [|t0 [|t1 [|t2 [|t3 [|t4 rest]]]]]; simpl in E; try lia.
    repeat split; reflexivity.
  - apply Nat.leb_gt in E. intros [= <- <- <-].
    repeat split; try reflexivity. right. repeat split; try reflexivity. exact E.
Qed.

Lemma claim_line_fields_hold_no_whitespace_witness :
  parse_individual_claim_line "01  0101 0102 99213 25 " = ("0102", "99213", "25")
  /\ has_space "0102" = false /\ has_space "99213" = false /\ has_space "25" = false
  /\ let tokens := re_split WHITESPACE_RUN_PATTERN (Str.strip "01  0101 0102 99213 25 ") in
     (5 <= length tokens
      /\ tokens !! 2 = Some "0102" /\ tokens !! 3 = Some "99213"
      /\ tokens !! 4 = Some "25")
     \/ (length tokens < 5 /\ "0102" = "" /\ "99213" = "" /\ "25" = "").
Proof.
  assert (parse_individual_claim_line "01  0101 0102 99213 25 "
          = ("0102", "99213", "25")) as H by (vm_compute; reflexivity).
  split; [exact H|].
  exact (claim_line_fields_hold_no_whitespace _ _ _ _ H).
Defined.
